(** * h5.bluetooth.hci.inode: the iNode MSD and GSM decoders of [lib/index.js]

    A shallow embedding of the decoder module and of the field primitives it
    is built from, followed by the properties of the specification that are
    checked against it.

    Conventions of the embedding:
    - a [Buffer] is a list of bytes; [buffer[i]] is [index], which is
      [None] (JavaScript's [undefined]) outside the buffer;
    - a JavaScript number is a binary64 float ([VNum]); integer and bitwise
      arithmetic is carried out in [Z] with the 32-bit wrap-around of the
      bitwise operators written out, and converted by [Z2F] when it is stored
      (all such integers are far below 2^53, where the conversion is exact);
    - an object whose properties are assigned one by one (the [msd] record)
      is a finite map from property names to values;
    - a function that mutates [msd] and may throw is a computation in [M]:
      it takes the object and returns a completion together with the object
      as it is left, also when it throws. *)

From Stdlib Require Import ZArith Lia Strings.Byte Ascii String DecimalString.
From Stdlib Require Import Floats.PrimFloat Numbers.Cyclic.Int63.Uint63.
From stdpp Require Import base option list strings gmap fin_maps.

Set Warnings "-inexact-float,-register-all".

Local Open Scope Z_scope.

(** ** JavaScript numbers *)

Module Js.

(** The Number value of an integer (below 2^63 in magnitude; the
    integers of this module are below 2^53, where the conversion is
    exact). *)
Definition Z2F (z : Z) : float :=
  if z <? 0 then PrimFloat.opp (PrimFloat.of_uint63 (Uint63.of_Z (- z)))
  else PrimFloat.of_uint63 (Uint63.of_Z z).

(** ToInt32 on an integer: the low 32 bits, read as a signed number. *)
Definition ToInt32 (z : Z) : Z :=
  let w := Z.land z 0xFFFFFFFF in
  if w <? 0x80000000 then w else w - 0x100000000.

(** [a << s], [a >> s], [a & b], [a | b]. *)
Definition shl (a s : Z) : Z := ToInt32 (Z.shiftl (ToInt32 a) (Z.land s 31)).
Definition sar (a s : Z) : Z := Z.shiftr (ToInt32 a) (Z.land s 31).
Definition and (a b : Z) : Z := Z.land (ToInt32 a) (ToInt32 b).
Definition or (a b : Z) : Z := Z.lor (ToInt32 a) (ToInt32 b).

(** [!!n] for an integer [n]. *)
Definition truthy (n : Z) : bool := negb (n =? 0).

Definition two52 : float := 4503599627370496%float.

(** [Math.floor] (the sign of a zero result is settled in [round]). *)
Definition floor (x : float) : float :=
  if PrimFloat.is_nan x then x
  else if PrimFloat.leb two52 (PrimFloat.abs x) then x
  else
    let r := if PrimFloat.ltb x 0 then ((x - two52) + two52)%float
             else ((x + two52) - two52)%float in
    if PrimFloat.ltb x r then (r - 1)%float else r.

(** [Math.round]: the closest integer, a tie going to the larger one; a
    zero result keeps the sign of the argument. *)
Definition round (x : float) : float :=
  if PrimFloat.is_nan x then x
  else if PrimFloat.leb two52 (PrimFloat.abs x) then x
  else
    let f := floor x in
    let r := if PrimFloat.leb 0.5 (x - f) then (f + 1)%float else f in
    if PrimFloat.is_zero r && PrimFloat.get_sign x then PrimFloat.neg_zero
    else r.

(** [x < y] and [x > y] on numbers; both are false on NaN. *)
Definition lt (x y : float) : bool := PrimFloat.ltb x y.
Definition gt (x y : float) : bool := PrimFloat.ltb y x.

End Js.

(** ** Values, objects, errors *)

Inductive JsDate :=
  | DateOfMs (ms : Z)      (* new Date(ms) *)
  | DateNow.               (* new Date() *)

Inductive Value :=
  | VUndefined
  | VNull
  | VBool (b : bool)
  | VNum (x : float)
  | VStr (s : string)
  | VBuf (bytes : list byte)
  | VDate (d : JsDate)
  | VYesterdayWeekDay      (* new Date(Date.now() - 24 * 3600 * 1000).getDay() *)
  | VObj (props : gmap string Value).

Abbreviation Obj := (gmap string Value).

Inductive JsError :=
  | Error (message : string)
  | RangeError
  | TypeError.

Inductive Completion (A : Type) :=
  | Normal (a : A)
  | Throw (e : JsError).

Arguments Normal {A} a.
Arguments Throw {A} e.

(** ** Buffers *)

Abbreviation Buffer := (list byte).

Definition u8 (b : byte) : Z := Z.of_N (Byte.to_N b).

(** A buffer written down as a list of numbers (for the examples). *)
Definition bytes (l : list Z) : Buffer :=
  map (fun z => default Byte.x00 (Byte.of_N (Z.to_N z))) l.

(** [buffer[i]] *)
Definition index (buffer : Buffer) (i : Z) : option byte :=
  if i <? 0 then None else buffer !! Z.to_nat i.

(** The value [buffer[i]] itself. *)
Definition value_of (v : option byte) : Value :=
  match v with
  | Some b => VNum (Js.Z2F (u8 b))
  | None => VUndefined
  end.

(** ToInt32 of [buffer[i]]: [undefined] is 0 under a bitwise operator. *)
Definition int_of (v : option byte) : Z := from_option u8 0 v.

(** ToNumber of [buffer[i]]: [undefined] is NaN under an arithmetic
    operator. *)
Definition num_of (v : option byte) : float :=
  from_option (fun b => Js.Z2F (u8 b)) PrimFloat.nan v.

(** [buffer.readUInt16LE(offset)]: a RangeError unless both bytes are inside
    the buffer. *)
Definition readUInt16LE (buffer : Buffer) (offset : Z) : Completion Z :=
  match index buffer offset, index buffer (offset + 1) with
  | Some b0, Some b1 => Normal (Z.lor (u8 b0) (Z.shiftl (u8 b1) 8))
  | _, _ => Throw RangeError
  end.

(** [buffer.readUInt32LE(offset)] *)
Definition readUInt32LE (buffer : Buffer) (offset : Z) : Completion Z :=
  match index buffer offset, index buffer (offset + 1),
        index buffer (offset + 2), index buffer (offset + 3) with
  | Some b0, Some b1, Some b2, Some b3 =>
      Normal (Z.lor (Z.lor (u8 b0) (Z.shiftl (u8 b1) 8)) (Z.shiftl (u8 b2) 16)
              + u8 b3 * 0x1000000)
  | _, _, _, _ => Throw RangeError
  end.

(** [buffer.readInt8(offset)] *)
Definition readInt8 (buffer : Buffer) (offset : Z) : Completion Z :=
  match index buffer offset with
  | Some b => Normal (if Z.land (u8 b) 0x80 =? 0 then u8 b else u8 b - 0x100)
  | None => Throw RangeError
  end.

(** [buffer.slice(start, end)] for integer arguments: a negative argument
    counts from the end, and both are clamped to the buffer. *)
Definition slice (buffer : Buffer) (start end_ : Z) : Buffer :=
  let len := Z.of_nat (length buffer) in
  let clamp x := if x <? 0 then Z.max (len + x) 0 else Z.min x len in
  let s := clamp start in
  let e := clamp end_ in
  take (Z.to_nat (e - s)) (drop (Z.to_nat s) buffer).

(** ** Computations on the [msd] object *)

Definition M (A : Type) : Type := Obj -> Completion A * Obj.

Definition ret {A} (a : A) : M A := fun o => (Normal a, o).

Definition throw {A} (e : JsError) : M A := fun o => (Throw e, o).

Definition bind {A B} (m : M A) (f : A -> M B) : M B :=
  fun o =>
    match m o with
    | (Normal a, o') => f a o'
    | (Throw e, o') => (Throw e, o')
    end.

Definition lift {A} (c : Completion A) : M A := fun o => (c, o).

(** [msd.key = v] *)
Definition assign (key : string) (v : Value) : M unit :=
  fun o => (Normal tt, <[key := v]> o).

Notation "x <- m ;; f" := (bind m (fun x => f))
  (at level 100, m at next level, right associativity).
Notation "m ;; f" := (bind m (fun _ => f))
  (at level 100, right associativity).

(** [Object.assign(msd.key, source)]: the properties of [source] are set
    on the object held by [msd.key]; [undefined] and [null] are a
    TypeError, and a boolean, number or string is left as it is. The one
    use of it follows the assignment of an object literal to [msd.key]. *)
Definition objectAssign (key : string) (source : Obj) : M unit :=
  fun o =>
    match o !! key with
    | Some (VObj target) => (Normal tt, <[key := VObj (source ∪ target)]> o)
    | Some VUndefined | Some VNull | None => (Throw TypeError, o)
    | Some _ => (Normal tt, o)
    end.

(** ** The device models *)

Module DeviceModel.
Definition Beacon : Z := 0x80.
Definition EnergyMeter : Z := 0x82.
Definition ControlId : Z := 0x88.
Definition Nav : Z := 0x89.
Definition CareSensor1 : Z := 0x91.
Definition CareSensor2 : Z := 0x92.
Definition CareSensor3 : Z := 0x93.
Definition CareSensor4 : Z := 0x94.
Definition CareSensor5 : Z := 0x95.
Definition CareSensor6 : Z := 0x96.
Definition CareSensorT : Z := 0x9A.
Definition CareSensorHT : Z := 0x9B.
Definition ControlPoint : Z := 0xB2.
Definition CareRelay : Z := 0xB3.
Definition TransceiverUart : Z := 0xB5.
Definition TransceiverUsb : Z := 0xB6.
Definition Gsm : Z := 0xB7.
End DeviceModel.

(** ** Field primitives *)

Definition VInt (z : Z) : Value := VNum (Js.Z2F z).

Definition decodeInput (buffer : Buffer) (i : Z) : M unit :=
  assign "input" (VBool (Js.truthy (Js.and (int_of (index buffer i)) 0x08))).

Definition decodeOutput (buffer : Buffer) (i : Z) : M unit :=
  assign "output" (VBool (Js.truthy (Js.and (int_of (index buffer i)) 0x01))).

Definition decodeRtto (buffer : Buffer) (i : Z) : M unit :=
  assign "rtto" (VBool (Js.truthy (Js.and (int_of (index buffer i)) 0x02))).

Definition decodeMagneticFieldDirection (buffer : Buffer) (i : Z) : M unit :=
  assign "magneticFieldDirection"
    (VBool (Js.truthy (Js.and (int_of (index buffer i)) 0x08))).

(** The ten flags of the extended alarm word, as the object literal lists
    them. *)
Definition extendedAlarms (alarms : Z) : list (string * Value) :=
  [ ("moveAccelerometer", VBool (Js.truthy (Js.and alarms 0x01)));
    ("levelAccelerometer", VBool (Js.truthy (Js.and alarms 0x02)));
    ("levelTemperature", VBool (Js.truthy (Js.and alarms 0x04)));
    ("levelHumidity", VBool (Js.truthy (Js.and alarms 0x08)));
    ("contactChange", VBool (Js.truthy (Js.and alarms 0x10)));
    ("moveStopped", VBool (Js.truthy (Js.and alarms 0x20)));
    ("moveGTimer", VBool (Js.truthy (Js.and alarms 0x40)));
    ("levelAccelerometerChange", VBool (Js.truthy (Js.and alarms 0x80)));
    ("levelMagnetChange", VBool (Js.truthy (Js.and alarms 0x100)));
    ("levelMagnetTimer", VBool (Js.truthy (Js.and alarms 0x200))) ].

Definition decodeAlarms (buffer : Buffer) (batteryI extendedI : Z) : M unit :=
  let battery :=
    Js.and (Js.shl (if batteryI =? -1 then 0
                    else int_of (index buffer batteryI)) 13) 0x8000 in
  extended <- (if extendedI =? -1 then ret 0
               else lift (readUInt16LE buffer extendedI));;
  let alarms := Js.or extended battery in
  assign "alarms"
    (VObj {[ "lowBattery" := VBool (Js.truthy (Js.and alarms 0x8000)) ]});;
  if negb (extendedI =? -1)
  then objectAssign "alarms" (list_to_map (extendedAlarms alarms))
  else ret tt.

Definition decodeGroups (buffer : Buffer) (i : Z) : M unit :=
  word <- lift (readUInt16LE buffer i);;
  assign "groups" (VInt (Js.and word 0x0FFF)).

Definition decodeBatteryLevel (buffer : Buffer) (i shift : Z) : M unit :=
  word <- lift (readUInt16LE buffer i);;
  let value := Js.and (Js.sar word shift) 0x0F in
  let batteryLevel :=
    if value =? 1 then 100 else 10 * (Z.min value 11 - 1) in
  assign "batteryLevel" (VInt batteryLevel);;
  assign "batteryVoltage"
    (VNum ((Js.Z2F batteryLevel - 10) * 1.2 / 100 + 1.8)%float).

Definition decodeEnergyMeter (buffer : Buffer) (i : Z) : M unit :=
  options <- lift (readUInt16LE buffer (i + 6));;
  let unit := Js.and (Js.sar options 14) 3 in
  let constant := Js.and options 0x3FFF in
  constant <-
    (if unit =? 0 then
       assign "averageUnit" (VStr "kWh");;
       assign "sumUnit" (VStr "kW");;
       ret (if constant =? 0 then 1000 else constant)
     else if unit =? 1 then
       assign "averageUnit" (VStr "m³");;
       assign "sumUnit" (VStr "m³");;
       ret (if constant =? 0 then 1000 else constant)
     else
       assign "averageUnit" (VStr "cnt");;
       assign "sumUnit" (VStr "cnt");;
       ret (if constant =? 0 then 1 else constant));;
  assign "unit" (VInt unit);;
  assign "constant" (VInt constant);;
  average <- lift (readUInt16LE buffer i);;
  assign "average"
    (VNum (Js.round (Js.Z2F (60 * average) / Js.Z2F constant * 1000)
           / 1000)%float);;
  sum <- lift (readUInt32LE buffer (i + 2));;
  assign "sum"
    (VNum (Js.round (Js.Z2F sum / Js.Z2F constant * 1000) / 1000)%float);;
  let extraDataLength :=
    i + 2 (* Average *) + 4 (* Sum *) + 2 (* Options *)
      + 1 (* Battery & Light *) + 2 (* Previous day *) in
  if extraDataLength <=? Z.of_nat (length buffer) then
    decodeBatteryLevel buffer (i + 8) 4;;
    assign "lightLevel"
      (VNum (Js.round
               (Js.Z2F (Js.and (int_of (index buffer (i + 8))) 0x0F * 100)
                / 15 * 10) / 10)%float);;
    weekDataData <- lift (readUInt16LE buffer (i + 9));;
    assign "weekDay" (VInt (Js.sar weekDataData 13));;
    assign "weekDayTotal" (VInt (Js.and weekDataData 0x1FFF))
  else
    assign "batteryLevel" (VInt 100);;
    assign "batteryVoltage" (VNum 2.88);;
    assign "lightLevel" (VInt 0);;
    assign "weekDay" VYesterdayWeekDay;;
    assign "weekDayTotal" (VInt 0).

Definition decodeMotionSensor (buffer : Buffer) (i : Z) : M unit :=
  value <- lift (readUInt16LE buffer i);;
  let x := Js.and (Js.sar value 10) 0x1F in
  let y := Js.and (Js.sar value 5) 0x1F in
  let z := Js.and value 0x1F in
  assign "position"
    (VObj (list_to_map
       [ ("motion", VBool (Js.truthy (Js.and value 0x8000)));
         ("x", VInt (x - (if Js.truthy (Js.and x 0x10) then 0x1F else 0)));
         ("y", VInt (y - (if Js.truthy (Js.and y 0x10) then 0x1F else 0)));
         ("z", VInt (z - (if Js.truthy (Js.and z 0x10) then 0x1F else 0))) ])).

Definition decodeCsrTemperature (buffer : Buffer) (i : Z) : M unit :=
  value <- lift (readUInt16LE buffer i);;
  let value := if 127 <? value then value - 8192 else value in
  let value :=
    if value <? -30 then -30 else if 70 <? value then 70 else value in
  assign "temperature" (VInt value).

Definition decodeMcp9844Temperature (buffer : Buffer) (i : Z) : M unit :=
  let b1 := index buffer i in
  let b2 := index buffer (i + 1) in
  let value :=
    (num_of b1 * 0.0625 + Js.Z2F (16 * Js.and (int_of b2) 0x0F))%float in
  let value :=
    if Js.truthy (Js.and (int_of b2) 0x10) then (value - 256)%float
    else value in
  let value :=
    if Js.lt value (-30) then (-30)%float
    else if Js.gt value 70 then 70%float else value in
  assign "temperature" (VNum (Js.round (value * 100) / 100)%float).

Definition decodeSi7021Temperature (buffer : Buffer) (i : Z) : M unit :=
  raw <- lift (readUInt16LE buffer i);;
  let value := (Js.Z2F raw * 175.72 * 4)%float in
  let value := (value / 65536)%float in
  let value := (value - 46.85)%float in
  let value :=
    if Js.lt value (-30) then (-30)%float
    else if Js.gt value 70 then 70%float else value in
  assign "temperature" (VNum (Js.round (value * 100) / 100)%float).

Definition decodeSi7021Humidity (buffer : Buffer) (i : Z) : M unit :=
  raw <- lift (readUInt16LE buffer i);;
  let value := (Js.Z2F raw * 125 * 4)%float in
  let value := (value / 65536)%float in
  let value := (value - 6)%float in
  let value :=
    if Js.lt value 1 then 1%float
    else if Js.gt value 100 then 100%float else value in
  assign "humidity" (VNum (Js.round (value * 100) / 100)%float).

Definition decodeMagneticField (buffer : Buffer) (i : Z) : M unit :=
  word <- lift (readUInt16LE buffer i);;
  assign "magneticField" (VInt word).

Definition decodeTime (buffer : Buffer) (i : Z) : M unit :=
  word1 <- lift (readUInt16LE buffer i);;
  let value1 := Js.shl word1 16 in
  value2 <- lift (readUInt16LE buffer (i + 2));;
  let value := Js.or value1 value2 in
  assign "time" (VDate (DateOfMs (value * 1000))).

Definition decodeSignature (buffer : Buffer) (i : Z) : M unit :=
  assign "signature" (VBuf (slice buffer i (i + 8))).

(** A sensor-specific step, or [null]. *)
Abbreviation Step := (option (Buffer -> Z -> M unit)).

Definition runStep (step : Step) (buffer : Buffer) (i : Z) : M unit :=
  match step with
  | Some decode => decode buffer i
  | None => ret tt
  end.

Definition decodeGsmCareSensor (buffer : Buffer)
    (decodePosition decodeValue1 decodeValue2 : Step) : M unit :=
  decodeAlarms buffer 0 24;;
  assign "groups" (VInt 0);;
  assign "batteryLevel" (VInt 100);;
  assign "batteryVoltage" (VNum 2.88);;
  runStep decodePosition buffer 26;;
  runStep decodeValue1 buffer 28;;
  runStep decodeValue2 buffer 30;;
  assign "time" (VDate DateNow);;
  assign "signature" (VBuf (replicate 8 Byte.x00)).

Definition decodeMsdCareSensor (buffer : Buffer)
    (decodePosition decodeValue1 decodeValue2 : Step) : M unit :=
  decodeAlarms buffer 0 4;;
  decodeGroups buffer 2;;
  decodeBatteryLevel buffer 2 12;;
  runStep decodePosition buffer 6;;
  runStep decodeValue1 buffer 8;;
  runStep decodeValue2 buffer 10;;
  decodeTime buffer 12;;
  decodeSignature buffer 16.

(** ** The two dispatch tables *)

Abbreviation Decoder := (Buffer -> M unit).

Definition gsmDecoders_entries : list (Z * Decoder) :=
  [ (DeviceModel.EnergyMeter, fun buffer =>
       assign "modelLabel" (VStr "iNode Energy Meter");;
       decodeRtto buffer 0;;
       decodeAlarms buffer (-1) (-1);;
       decodeEnergyMeter (slice buffer 0 (-6)) 24);
    (DeviceModel.CareSensor1, fun buffer =>
       assign "modelLabel" (VStr "iNode Care Sensor #1");;
       decodeRtto buffer 0;;
       decodeMsdCareSensor buffer
         (Some decodeMotionSensor) (Some decodeCsrTemperature) None);
    (DeviceModel.CareSensor2, fun buffer =>
       assign "modelLabel" (VStr "iNode Care Sensor #2");;
       decodeRtto buffer 0;;
       decodeMsdCareSensor buffer
         (Some decodeMotionSensor) (Some decodeMcp9844Temperature) None);
    (DeviceModel.CareSensor3, fun buffer =>
       assign "modelLabel" (VStr "iNode Care Sensor #3");;
       decodeRtto buffer 0;;
       decodeMsdCareSensor buffer
         (Some decodeMotionSensor) (Some decodeSi7021Temperature)
         (Some decodeSi7021Humidity));
    (DeviceModel.CareSensor4, fun buffer =>
       assign "modelLabel" (VStr "iNode Care Sensor #4");;
       decodeRtto buffer 0;;
       decodeGsmCareSensor buffer
         (Some decodeMotionSensor) (Some decodeCsrTemperature) None;;
       decodeInput buffer 0);
    (DeviceModel.CareSensor5, fun buffer =>
       assign "modelLabel" (VStr "iNode Care Sensor #5");;
       decodeRtto buffer 0;;
       decodeGsmCareSensor buffer
         (Some decodeMotionSensor) (Some decodeCsrTemperature)
         (Some decodeMagneticField);;
       decodeMagneticFieldDirection buffer 0);
    (DeviceModel.CareSensor6, fun buffer =>
       assign "modelLabel" (VStr "iNode Care Sensor #6");;
       decodeRtto buffer 0;;
       decodeGsmCareSensor buffer
         (Some decodeMotionSensor) (Some decodeCsrTemperature) None;;
       decodeInput buffer 0;;
       decodeOutput buffer 0);
    (DeviceModel.CareSensorT, fun buffer =>
       assign "modelLabel" (VStr "iNode Care Sensor T");;
       decodeRtto buffer 0;;
       decodeGsmCareSensor buffer
         None (Some decodeMcp9844Temperature) None);
    (DeviceModel.CareSensorHT, fun buffer =>
       assign "modelLabel" (VStr "iNode Care Sensor HT");;
       decodeRtto buffer 0;;
       decodeGsmCareSensor buffer
         None (Some decodeSi7021Temperature) (Some decodeSi7021Humidity)) ].

Definition gsmDecoders : gmap Z Decoder := list_to_map gsmDecoders_entries.

Definition msdDecoders_entries : list (Z * Decoder) :=
  [ (DeviceModel.Beacon, fun buffer =>
       assign "model" (VInt DeviceModel.Beacon);;
       assign "modelLabel" (VStr "iNode Beacon");;
       decodeRtto buffer 0;;
       decodeAlarms buffer 0 (-1));
    (DeviceModel.EnergyMeter, fun buffer =>
       assign "model" (VInt DeviceModel.EnergyMeter);;
       assign "modelLabel" (VStr "iNode Energy Meter");;
       decodeRtto buffer 0;;
       decodeAlarms buffer 0 (-1);;
       decodeEnergyMeter buffer 2);
    (DeviceModel.ControlId, fun buffer =>
       assign "model" (VInt DeviceModel.ControlId);;
       assign "modelLabel" (VStr "iNode Control ID");;
       decodeRtto buffer 0;;
       decodeAlarms buffer 0 (-1));
    (DeviceModel.Nav, fun buffer =>
       assign "model" (VInt DeviceModel.Nav);;
       assign "modelLabel" (VStr "iNode Nav");;
       decodeRtto buffer 0;;
       decodeAlarms buffer 0 (-1));
    (DeviceModel.CareSensor1, fun buffer =>
       assign "model" (VInt DeviceModel.CareSensor1);;
       assign "modelLabel" (VStr "iNode Care Sensor #1");;
       decodeRtto buffer 0;;
       decodeMsdCareSensor buffer
         (Some decodeMotionSensor) (Some decodeCsrTemperature) None);
    (DeviceModel.CareSensor2, fun buffer =>
       assign "model" (VInt DeviceModel.CareSensor2);;
       assign "modelLabel" (VStr "iNode Care Sensor #2");;
       decodeRtto buffer 0;;
       decodeMsdCareSensor buffer
         (Some decodeMotionSensor) (Some decodeMcp9844Temperature) None);
    (DeviceModel.CareSensor3, fun buffer =>
       assign "model" (VInt DeviceModel.CareSensor3);;
       assign "modelLabel" (VStr "iNode Care Sensor #3");;
       decodeRtto buffer 0;;
       decodeMsdCareSensor buffer
         (Some decodeMotionSensor) (Some decodeSi7021Temperature)
         (Some decodeSi7021Humidity));
    (DeviceModel.CareSensor4, fun buffer =>
       assign "model" (VInt DeviceModel.CareSensor4);;
       assign "modelLabel" (VStr "iNode Care Sensor #4");;
       decodeRtto buffer 0;;
       decodeMsdCareSensor buffer
         (Some decodeMotionSensor) (Some decodeCsrTemperature) None;;
       decodeInput buffer 0);
    (DeviceModel.CareSensor5, fun buffer =>
       assign "model" (VInt DeviceModel.CareSensor5);;
       assign "modelLabel" (VStr "iNode Care Sensor #5");;
       decodeRtto buffer 0;;
       decodeMsdCareSensor buffer
         (Some decodeMotionSensor) (Some decodeCsrTemperature)
         (Some decodeMagneticField);;
       decodeMagneticFieldDirection buffer 0);
    (DeviceModel.CareSensor6, fun buffer =>
       assign "model" (VInt DeviceModel.CareSensor6);;
       assign "modelLabel" (VStr "iNode Care Sensor #6");;
       decodeRtto buffer 0;;
       decodeMsdCareSensor buffer
         (Some decodeMotionSensor) (Some decodeCsrTemperature) None;;
       decodeInput buffer 0;;
       decodeOutput buffer 0);
    (DeviceModel.CareSensorT, fun buffer =>
       assign "model" (VInt DeviceModel.CareSensorT);;
       assign "modelLabel" (VStr "iNode Care Sensor T");;
       decodeRtto buffer 0;;
       decodeMsdCareSensor buffer
         None (Some decodeMcp9844Temperature) None);
    (DeviceModel.CareSensorHT, fun buffer =>
       assign "model" (VInt DeviceModel.CareSensorHT);;
       assign "modelLabel" (VStr "iNode Care Sensor HT");;
       decodeRtto buffer 0;;
       decodeMsdCareSensor buffer
         None (Some decodeSi7021Temperature) (Some decodeSi7021Humidity));
    (DeviceModel.ControlPoint, fun buffer =>
       assign "model" (VInt DeviceModel.ControlPoint);;
       assign "modelLabel" (VStr "iNode Control Point");;
       decodeRtto buffer 0;;
       decodeAlarms buffer 0 (-1));
    (DeviceModel.CareRelay, fun buffer =>
       assign "model" (VInt DeviceModel.CareRelay);;
       assign "modelLabel" (VStr "iNode Care Relay");;
       decodeRtto buffer 0;;
       decodeAlarms buffer 0 (-1);;
       decodeOutput buffer 0);
    (DeviceModel.TransceiverUart, fun buffer =>
       assign "model" (VInt DeviceModel.TransceiverUart);;
       assign "modelLabel" (VStr "iNode Transceiver UART");;
       decodeRtto buffer 0;;
       decodeAlarms buffer 0 (-1));
    (DeviceModel.TransceiverUsb, fun buffer =>
       assign "model" (VInt DeviceModel.TransceiverUsb);;
       assign "modelLabel" (VStr "iNode Transceiver USB");;
       decodeRtto buffer 0;;
       decodeAlarms buffer 0 (-1));
    (DeviceModel.Gsm, fun buffer =>
       assign "model" (VInt DeviceModel.Gsm);;
       assign "modelLabel" (VStr "iNode GSM");;
       decodeRtto buffer 0;;
       decodeAlarms buffer 0 (-1)) ].

Definition msdDecoders : gmap Z Decoder := list_to_map msdDecoders_entries.

(** [table[deviceModel]], where [deviceModel] is [buffer[1]]: [undefined]
    is not a key. *)
Definition lookupDecoder (table : gmap Z Decoder) (deviceModel : option byte)
    : option Decoder :=
  match deviceModel with
  | Some b => table !! u8 b
  | None => None
  end.

(** ** Strings *)

Definition hexDigit (d : Z) : ascii :=
  if d <? 10 then ascii_of_nat (Z.to_nat (48 + d))
  else ascii_of_nat (Z.to_nat (87 + d)).

(** [n.toString(16)] for a non-negative integer: lower-case digits, no
    leading zero. *)
Fixpoint toString16_from (fuel : nat) (n : Z) (acc : string) : string :=
  match fuel with
  | O => acc
  | S fuel' =>
      let acc := String (hexDigit (n mod 16)) acc in
      if n / 16 =? 0 then acc else toString16_from fuel' (n / 16) acc
  end.

Definition toString16 (n : Z) : string :=
  toString16_from (S (Z.to_nat (Z.log2 n))) n EmptyString.

Definition upperChar (c : ascii) : ascii :=
  let n := nat_of_ascii c in
  if (97 <=? n)%nat && (n <=? 122)%nat then ascii_of_nat (n - 32) else c.

Fixpoint toUpperCase (s : string) : string :=
  match s with
  | EmptyString => EmptyString
  | String c s' => String (upperChar c) (toUpperCase s')
  end.

(** [String(deviceModel)] inside the template literal of the error. *)
Definition showModel (deviceModel : option byte) : string :=
  match deviceModel with
  | Some b => NilZero.string_of_uint (N.to_uint (Byte.to_N b))
  | None => "undefined"
  end.

(** [s.replace(/\u0000/g, '')] *)
Fixpoint stripNul (s : string) : string :=
  match s with
  | EmptyString => EmptyString
  | String c s' =>
      if Ascii.eqb c Ascii.zero then stripNul s' else String c (stripNul s')
  end.

(** ** The GSM record stream and the direct MSD entry point *)

(** What the module takes from outside: the enumerations of the
    [h5.bluetooth.hci] package (a code and its label, as
    [EirDataType[EirDataType.X]] looks them up) and the text decoding of
    [Buffer.prototype.toString]. *)
Record Host := {
  AdvInd : Value;
  AdvIndLabel : Value;
  Public : Value;
  PublicLabel : Value;
  LocalNameComplete : Value;
  LocalNameCompleteLabel : Value;
  ManufacturerSpecificData : Value;
  ManufacturerSpecificDataLabel : Value;
  toString : Buffer -> string
}.

Record AdvertisingReport := {
  eventType : Value;
  eventTypeLabel : Value;
  addressType : Value;
  addressTypeLabel : Value;
  address : string;
  length_ : Z;
  data : list Obj;
  rssi : Z
}.

(** One turn of the loop of [decodeGsmMacAddress]: the two-digit text of
    [buffer[i]]; [undefined.toString] is a TypeError. *)
Definition macPart (buffer : Buffer) (i : Z) : Completion string :=
  match index buffer i with
  | Some b =>
      Normal (String.append (if u8 b <? 0x10 then "0" else "")
                            (toUpperCase (toString16 (u8 b))))
  | None => Throw TypeError
  end.

(** The loop [for (let i = 7; i >= 2; --i)], [n] turns being left. *)
Fixpoint macLoop (n : nat) (buffer : Buffer) (i : Z) (macAddress : list string)
    : Completion (list string) :=
  match n with
  | O => Normal macAddress
  | S n' =>
      if 2 <=? i then
        match macPart buffer i with
        | Normal part => macLoop n' buffer (i - 1) (macAddress ++ [part])
        | Throw e => Throw e
        end
      else Normal macAddress
  end.

Definition decodeGsmMacAddress (buffer : Buffer) : Completion string :=
  match macLoop 6 buffer 7 [] with
  | Normal macAddress => Normal (String.concat ":" macAddress)
  | Throw e => Throw e
  end.

Section WithHost.

Variable host : Host.

Definition decodeMsd (buffer : Buffer) (msd : option Obj)
    : Completion Obj * option Obj :=
  let deviceModel := index buffer 1 in
  match lookupDecoder msdDecoders deviceModel with
  | None =>
      (Throw (Error (String.append "Cannot decode iNode MSD: '"
                (String.append (showModel deviceModel)
                   "' is not a valid device model!"))), msd)
  | Some deviceModelDecoder =>
      match msd with
      | Some o =>
          match deviceModelDecoder buffer o with
          | (Normal _, o') => (Normal o', Some o')
          | (Throw e, o') => (Throw e, Some o')
          end
      | None =>
          match readUInt16LE buffer 0 with
          | Normal companyIdentifier =>
              let o : Obj :=
                list_to_map
                  [ ("type", ManufacturerSpecificData host);
                    ("typeLabel", ManufacturerSpecificDataLabel host);
                    ("companyIdentifier", VInt companyIdentifier) ] in
              match deviceModelDecoder buffer o with
              | (Normal _, o') => (Normal o', None)
              | (Throw e, _) => (Throw e, None)
              end
          | Throw e => (Throw e, None)
          end
      end
  end.

Definition decodeGsmDataRecord (gsmTime : Z) (recordType : option byte)
    (recordData : Buffer) : Completion (option AdvertisingReport) :=
  let deviceModel := index recordData 1 in
  match lookupDecoder gsmDecoders deviceModel with
  | None => Normal None
  | Some deviceModelDecoder =>
      match decodeGsmMacAddress recordData with
      | Throw e => Throw e
      | Normal macAddress =>
          let name : Obj :=
            list_to_map
              [ ("type", LocalNameComplete host);
                ("typeLabel", LocalNameCompleteLabel host);
                ("value",
                 VStr (stripNul (toString host (slice recordData 8 24)))) ] in
          let msd : Obj :=
            list_to_map
              [ ("type", ManufacturerSpecificData host);
                ("typeLabel", ManufacturerSpecificDataLabel host);
                ("model", value_of deviceModel);
                ("modelLabel", VNull) ] in
          match readInt8 recordData (Z.of_nat (length recordData) - 4) with
          | Throw e => Throw e
          | Normal rssi_ =>
              match deviceModelDecoder recordData msd with
              | (Throw e, _) => Throw e
              | (Normal _, msd') =>
                  Normal (Some {|
                    eventType := AdvInd host;
                    eventTypeLabel := AdvIndLabel host;
                    addressType := Public host;
                    addressTypeLabel := PublicLabel host;
                    address := macAddress;
                    length_ := -1;
                    data := [name; msd'];
                    rssi := rssi_ |})
              end
          end
      end
  end.

Definition tryDecodeGsmDataRecord (gsmTime : Z) (recordType : option byte)
    (recordData : Buffer) (reports : list AdvertisingReport)
    : list AdvertisingReport :=
  match decodeGsmDataRecord gsmTime recordType recordData with
  | Normal (Some report) => reports ++ [report]
  | Normal None => reports
  | Throw _ => reports
  end.

(** The loop of [decodeGsmData], started at cursor [i] with the reports
    pushed so far. [None] stands for a loop still running when the fuel is
    used up.

    When [recordLength] is [undefined] (the length byte is past the end),
    [i + recordLength] is NaN, [slice(i, NaN)] is empty and its length 0 is
    not [undefined]: the loop breaks. *)
Fixpoint gsmLoop (fuel : nat) (gsmTime : Z) (gsmData : Buffer) (i : Z)
    (reports : list AdvertisingReport) : option (list AdvertisingReport) :=
  match fuel with
  | O => None
  | S fuel' =>
      if i <? Z.of_nat (length gsmData) then
        let recordType := index gsmData i in
        let recordLength := index gsmData (i + 1) in
        let i := i + 2 in
        match recordLength with
        | None => Some reports
        | Some l =>
            let recordLength := u8 l in
            let recordData := slice gsmData i (i + recordLength) in
            if negb (Z.of_nat (length recordData) =? recordLength)
            then Some reports
            else
              let i := i + recordLength in
              if recordLength <? 24
              then gsmLoop fuel' gsmTime gsmData i reports
              else gsmLoop fuel' gsmTime gsmData i
                     (tryDecodeGsmDataRecord gsmTime recordType recordData
                        reports)
        end
      else Some reports
  end.

Definition decodeGsmData (gsmTime : Z) (gsmData : Buffer)
    : option (list AdvertisingReport) :=
  gsmLoop (S (length gsmData)) gsmTime gsmData 0 [].

(** The handler that [registerManufacturerSpecificDataDecoder] installs in
    place of [originalDecoder]. *)
Definition registerManufacturerSpecificDataDecoder
    (originalDecoder : option Decoder) : Decoder :=
  fun buffer =>
    let deviceModel := index buffer 1 in
    match lookupDecoder msdDecoders deviceModel with
    | Some deviceModelDecoder => deviceModelDecoder buffer
    | None =>
        match originalDecoder with
        | Some original => original buffer
        | None => ret tt
        end
    end.

End WithHost.

(** ** The older decoder module

    Only its alarm primitive differs in what the properties below look at:
    the battery bit is masked with 0xC000 and the eleven flags are always
    all present. *)

Module Legacy.

Definition decodeAlarms (buffer : Buffer) (batteryI extendedI : Z) : M unit :=
  let battery :=
    Js.and (Js.shl (if batteryI =? -1 then 0
                    else int_of (index buffer batteryI)) 13) 0xC000 in
  extended <- (if extendedI =? -1 then ret 0
               else lift (readUInt16LE buffer extendedI));;
  let alarms := Js.or extended battery in
  assign "alarms"
    (VObj (list_to_map
       (extendedAlarms alarms
        ++ [ ("lowBattery", VBool (Js.truthy (Js.and alarms 0x8000))) ]))).

End Legacy.

(** ** The rest of the older module

    The older module has one table, [deviceModelDecoders], for direct
    advertisements. Its [decodeInput], [decodeOutput], [decodeRtto],
    [decodeGroups], [decodeMotionSensor], the three temperature decoders,
    [decodeSi7021Humidity], [decodeTime] and [decodeSignature] have the text
    of the current ones, which stand for them here; the battery level has a
    fixed shift, the energy meter takes its three offsets and stops after
    the sum, and care sensor 5 reads its magnetic field itself. *)

Module LegacyDecoders.

Definition decodeBatteryLevel (buffer : Buffer) (i : Z) : M unit :=
  word <- lift (readUInt16LE buffer i);;
  let value := Js.and (Js.sar word 12) 0x0F in
  let batteryLevel :=
    if value =? 1 then 100 else 10 * (Z.min value 11 - 1) in
  assign "batteryLevel" (VInt batteryLevel);;
  assign "batteryVoltage"
    (VNum ((Js.Z2F batteryLevel - 10) * 1.2 / 100 + 1.8)%float).

Definition decodeEnergyMeter (buffer : Buffer) (averageI sumI optionsI : Z)
    : M unit :=
  options <- lift (readUInt16LE buffer optionsI);;
  let unit := Js.and (Js.sar options 14) 3 in
  let constant := Js.and options 0x3FFF in
  constant <-
    (if unit =? 0 then
       assign "averageUnit" (VStr "kWh");;
       assign "sumUnit" (VStr "kW");;
       ret (if constant =? 0 then 1000 else constant)
     else if unit =? 1 then
       assign "averageUnit" (VStr "m³");;
       assign "sumUnit" (VStr "m³");;
       ret (if constant =? 0 then 1000 else constant)
     else
       assign "averageUnit" (VStr "cnt");;
       assign "sumUnit" (VStr "cnt");;
       ret (if constant =? 0 then 1 else constant));;
  assign "constant" (VInt constant);;
  average <- lift (readUInt16LE buffer averageI);;
  assign "average"
    (VNum (Js.round (Js.Z2F (60 * average) / Js.Z2F constant * 1000)
           / 1000)%float);;
  sum <- lift (readUInt32LE buffer sumI);;
  assign "sum"
    (VNum (Js.round (Js.Z2F sum / Js.Z2F constant * 1000) / 1000)%float).

Definition decodeCareSensor (buffer : Buffer)
    (decodePosition decodeTemperature decodeHumidity : Step) : M unit :=
  Legacy.decodeAlarms buffer 0 4;;
  decodeGroups buffer 2;;
  decodeBatteryLevel buffer 2;;
  runStep decodePosition buffer 6;;
  runStep decodeTemperature buffer 8;;
  runStep decodeHumidity buffer 10;;
  decodeTime buffer 12;;
  decodeSignature buffer 16.

Definition deviceModelDecoders_entries : list (Z * Decoder) :=
  [ (DeviceModel.Beacon, fun buffer =>
       assign "model" (VInt DeviceModel.Beacon);;
       assign "modelLabel" (VStr "iNode Beacon");;
       decodeRtto buffer 0;;
       Legacy.decodeAlarms buffer 0 (-1));
    (DeviceModel.EnergyMeter, fun buffer =>
       assign "model" (VInt DeviceModel.EnergyMeter);;
       assign "modelLabel" (VStr "iNode Energy Meter");;
       decodeRtto buffer 0;;
       Legacy.decodeAlarms buffer 0 (-1);;
       decodeEnergyMeter buffer 2 4 8);
    (DeviceModel.ControlId, fun buffer =>
       assign "model" (VInt DeviceModel.ControlId);;
       assign "modelLabel" (VStr "iNode Control ID");;
       decodeRtto buffer 0;;
       Legacy.decodeAlarms buffer 0 (-1));
    (DeviceModel.Nav, fun buffer =>
       assign "model" (VInt DeviceModel.Nav);;
       assign "modelLabel" (VStr "iNode Nav");;
       decodeRtto buffer 0;;
       Legacy.decodeAlarms buffer 0 (-1));
    (DeviceModel.CareSensor1, fun buffer =>
       assign "model" (VInt DeviceModel.CareSensor1);;
       assign "modelLabel" (VStr "iNode Care Sensor #1");;
       decodeRtto buffer 0;;
       decodeCareSensor buffer
         (Some decodeMotionSensor) (Some decodeCsrTemperature) None);
    (DeviceModel.CareSensor2, fun buffer =>
       assign "model" (VInt DeviceModel.CareSensor2);;
       assign "modelLabel" (VStr "iNode Care Sensor #2");;
       decodeRtto buffer 0;;
       decodeCareSensor buffer
         (Some decodeMotionSensor) (Some decodeMcp9844Temperature) None);
    (DeviceModel.CareSensor3, fun buffer =>
       assign "model" (VInt DeviceModel.CareSensor3);;
       assign "modelLabel" (VStr "iNode Care Sensor #3");;
       decodeRtto buffer 0;;
       decodeCareSensor buffer
         (Some decodeMotionSensor) (Some decodeSi7021Temperature)
         (Some decodeSi7021Humidity));
    (DeviceModel.CareSensor4, fun buffer =>
       assign "model" (VInt DeviceModel.CareSensor4);;
       assign "modelLabel" (VStr "iNode Care Sensor #4");;
       decodeRtto buffer 0;;
       decodeCareSensor buffer
         (Some decodeMotionSensor) (Some decodeCsrTemperature) None;;
       decodeInput buffer 0);
    (DeviceModel.CareSensor5, fun buffer =>
       assign "model" (VInt DeviceModel.CareSensor5);;
       assign "modelLabel" (VStr "iNode Care Sensor #5");;
       decodeRtto buffer 0;;
       decodeCareSensor buffer
         (Some decodeMotionSensor) (Some decodeCsrTemperature) None;;
       assign "magneticFieldDirection"
         (VBool (Js.truthy (Js.and (int_of (index buffer 0)) 0x08)));;
       word <- lift (readUInt16LE buffer 10);;
       assign "magneticField" (VInt word));
    (DeviceModel.CareSensor6, fun buffer =>
       assign "model" (VInt DeviceModel.CareSensor6);;
       assign "modelLabel" (VStr "iNode Care Sensor #6");;
       decodeRtto buffer 0;;
       decodeCareSensor buffer
         (Some decodeMotionSensor) (Some decodeCsrTemperature) None;;
       decodeInput buffer 0;;
       decodeOutput buffer 0);
    (DeviceModel.CareSensorT, fun buffer =>
       assign "model" (VInt DeviceModel.CareSensorT);;
       assign "modelLabel" (VStr "iNode Care Sensor T");;
       decodeRtto buffer 0;;
       decodeCareSensor buffer
         None (Some decodeMcp9844Temperature) None);
    (DeviceModel.CareSensorHT, fun buffer =>
       assign "model" (VInt DeviceModel.CareSensorHT);;
       assign "modelLabel" (VStr "iNode Care Sensor HT");;
       decodeRtto buffer 0;;
       decodeCareSensor buffer
         None (Some decodeSi7021Temperature) (Some decodeSi7021Humidity));
    (DeviceModel.ControlPoint, fun buffer =>
       assign "model" (VInt DeviceModel.ControlPoint);;
       assign "modelLabel" (VStr "iNode Control Point");;
       decodeRtto buffer 0;;
       Legacy.decodeAlarms buffer 0 (-1));
    (DeviceModel.CareRelay, fun buffer =>
       assign "model" (VInt DeviceModel.CareRelay);;
       assign "modelLabel" (VStr "iNode Care Relay");;
       decodeRtto buffer 0;;
       Legacy.decodeAlarms buffer 0 (-1);;
       decodeOutput buffer 0);
    (DeviceModel.TransceiverUart, fun buffer =>
       assign "model" (VInt DeviceModel.TransceiverUart);;
       assign "modelLabel" (VStr "iNode Transceiver UART");;
       decodeRtto buffer 0;;
       Legacy.decodeAlarms buffer 0 (-1));
    (DeviceModel.TransceiverUsb, fun buffer =>
       assign "model" (VInt DeviceModel.TransceiverUsb);;
       assign "modelLabel" (VStr "iNode Transceiver USB");;
       decodeRtto buffer 0;;
       Legacy.decodeAlarms buffer 0 (-1));
    (DeviceModel.Gsm, fun buffer =>
       assign "model" (VInt DeviceModel.Gsm);;
       assign "modelLabel" (VStr "iNode GSM");;
       decodeRtto buffer 0;;
       Legacy.decodeAlarms buffer 0 (-1)) ].

Definition deviceModelDecoders : gmap Z Decoder :=
  list_to_map deviceModelDecoders_entries.

(** The handler that the older [registerManufacturerSpecificDataDecoder]
    installs in place of [originalDecoder]. *)
Definition registerManufacturerSpecificDataDecoder
    (originalDecoder : option Decoder) : Decoder :=
  fun buffer =>
    let deviceModel := index buffer 1 in
    match lookupDecoder deviceModelDecoders deviceModel with
    | Some deviceModelDecoder => deviceModelDecoder buffer
    | None =>
        match originalDecoder with
        | Some original => original buffer
        | None => ret tt
        end
    end.

End LegacyDecoders.

(** ** Vocabulary of the properties *)

(** Exhaustive check of a predicate on the [2^n] integers that extend the
    prefix [acc] by [n] bits. *)
Fixpoint forall_bits (n : nat) (acc : Z) (f : Z -> bool) : bool :=
  match n with
  | O => f acc
  | S n' => forall_bits n' (2 * acc) f && forall_bits n' (2 * acc + 1) f
  end.

(** Two upper-case hexadecimal digits, as the specification words the MAC
    address. *)
Definition upperHexDigit (d : Z) : ascii :=
  if d <? 10 then ascii_of_nat (Z.to_nat (48 + d))
  else ascii_of_nat (Z.to_nat (55 + d)).

Definition hex2 (b : byte) : string :=
  String (upperHexDigit (u8 b / 16))
    (String (upperHexDigit (u8 b mod 16)) EmptyString).

(** The five-bit correction of the motion vector, as the specification
    words it. *)
Definition signCorrect (field : Z) : Z :=
  if Z.testbit field 4 then field - 0x1F else field.

(** The check run on every 16-bit word for the motion vector: the fields
    as the code computes them against the wording of the specification. *)
Definition motion_check (value : Z) : bool :=
  let x := Js.and (Js.sar value 10) 0x1F in
  let y := Js.and (Js.sar value 5) 0x1F in
  let z := Js.and value 0x1F in
  Bool.eqb (Js.truthy (Js.and value 0x8000)) (Z.testbit value 15)
  && (x - (if Js.truthy (Js.and x 0x10) then 0x1F else 0)
      =? signCorrect (Z.land (Z.shiftr value 10) 0x1F))
  && (y - (if Js.truthy (Js.and y 0x10) then 0x1F else 0)
      =? signCorrect (Z.land (Z.shiftr value 5) 0x1F))
  && (z - (if Js.truthy (Js.and z 0x10) then 0x1F else 0)
      =? signCorrect (Z.land value 0x1F)).

(** The level of a four-bit battery code. *)
Definition batteryLevel_of (c : Z) : Z :=
  if c =? 1 then 100 else 10 * (Z.min c 11 - 1).

(** The value each temperature decoder has computed when it reaches the
    clamp. *)
Definition csrPreClamp (raw : Z) : Z :=
  if 127 <? raw then raw - 8192 else raw.

Definition mcp9844PreClamp (b1 b2 : option byte) : float :=
  let value :=
    (num_of b1 * 0.0625 + Js.Z2F (16 * Js.and (int_of b2) 0x0F))%float in
  if Js.truthy (Js.and (int_of b2) 0x10) then (value - 256)%float else value.

Definition si7021PreClamp (raw : Z) : float :=
  (Js.Z2F raw * 175.72 * 4 / 65536 - 46.85)%float.

(** [-30 <= t && t <= 70] on numbers (false on NaN). *)
Definition inRange (t : float) : bool :=
  PrimFloat.leb (-30) t && PrimFloat.leb t 70.

(** Clamp, then round to two decimals: the tail shared by the MCP9844 and
    Si7021 decoders. *)
Definition clampRound (value : float) : float :=
  let value :=
    if Js.lt value (-30) then (-30)%float
    else if Js.gt value 70 then 70%float else value in
  (Js.round (value * 100) / 100)%float.

(** A value above 70 is not below -30. *)
Definition exclusive (value : float) : bool :=
  implb (Js.gt value 70) (negb (Js.lt value (-30))).

(** The checks run on every input of a temperature decoder: what it stores
    is in range (and, where the value is a number, the two clamp tests
    exclude each other). *)
Definition csr_check (raw : Z) : bool :=
  let value := csrPreClamp raw in
  inRange (Js.Z2F (if value <? -30 then -30
                   else if 70 <? value then 70 else value)).

Definition mcp9844_check (z1 : Z) : bool :=
  forall_bits 8 0 (fun z2 =>
    let value := (Js.Z2F z1 * 0.0625 + Js.Z2F (16 * Js.and z2 0x0F))%float in
    let value :=
      if Js.truthy (Js.and z2 0x10) then (value - 256)%float else value in
    exclusive value && inRange (clampRound value)).

Definition si7021_check (raw : Z) : bool :=
  exclusive (si7021PreClamp raw) && inRange (clampRound (si7021PreClamp raw)).

(** What a computation does to one property of [msd]: it leaves the
    property as it was ([keeps]); it has set it to [v] however it completes
    ([always]); it has set it to [v] when it completes normally
    ([ensures]). *)
Definition keeps {A} (k : string) (m : M A) : Prop :=
  forall o : Obj, (m o).2 !! k = o !! k.

Definition always {A} (k : string) (v : Value) (m : M A) : Prop :=
  forall o : Obj, (m o).2 !! k = Some v.

Definition ensures {A} (k : string) (v : Value) (m : M A) : Prop :=
  forall (o : Obj) a o', m o = (Normal a, o') -> o' !! k = Some v.

(** The unit labels and the stored constant of the energy meter, by unit
    code and constant field, as the specification words them. *)
Definition energyUnitLabels (unit : Z) : string * string :=
  if unit =? 0 then ("kWh", "kW")
  else if unit =? 1 then ("m³", "m³") else ("cnt", "cnt").

Definition energyConstant (unit field : Z) : Z :=
  if field =? 0 then (if unit <=? 1 then 1000 else 1) else field.

(** The check run on every 16-bit options word: the two fields as the code
    computes them against plain shifts and masks. *)
Definition options_check (options : Z) : bool :=
  (Js.and (Js.sar options 14) 3 =? Z.land (Z.shiftr options 14) 3)
  && (Js.and options 0x3FFF =? Z.land options 0x3FFF).

(** [msd.alarms.lowBattery] *)
Definition lowBattery (msd : Obj) : option Value :=
  match msd !! "alarms" with
  | Some (VObj alarms) => alarms !! "lowBattery"
  | _ => None
  end.

(** The battery bit of the alarm word, under the mask of the current module
    and under the mask of the older one. *)
Definition batteryBit (mask b : Z) : Z := Js.and (Js.shl b 13) mask.

(** The check run on every battery byte: bit 2 of the byte lands on bit 15
    under either mask, and the older mask also keeps bit 1 as bit 14. *)
Definition batteryBit_check (b : Z) : bool :=
  (batteryBit 0x8000 b =? (if Z.testbit b 2 then 0x8000 else 0))
  && (batteryBit 0xC000 b
      =? (if Z.testbit b 2 then 0x8000 else 0)
         + (if Z.testbit b 1 then 0x4000 else 0)).

(** A batch made of complete records: a type byte, a length byte and as
    many data bytes as the length byte says, one record after the other. *)
Inductive Framed : Buffer -> Prop :=
  | Framed_nil : Framed []
  | Framed_cons (t l : byte) (data rest : Buffer) :
      Z.of_nat (length data) = u8 l ->
      Framed rest ->
      Framed (t :: l :: data ++ rest).

(** The reports one complete record contributes: none when it is shorter
    than 24 bytes, otherwise what [tryDecodeGsmDataRecord] pushes. *)
Definition recordReports (host : Host) (gsmTime : Z) (t : byte)
    (data : Buffer) : list AdvertisingReport :=
  if Z.of_nat (length data) <? 24 then []
  else tryDecodeGsmDataRecord host gsmTime (Some t) data [].

(** A host for the examples: the codes of the Bluetooth Core Specification
    with the names of the enumerations as labels, and a buffer read as one
    character per byte. *)
Definition sampleHost : Host := {|
  AdvInd := VInt 0x00;
  AdvIndLabel := VStr "AdvInd";
  Public := VInt 0x00;
  PublicLabel := VStr "Public";
  LocalNameComplete := VInt 0x09;
  LocalNameCompleteLabel := VStr "LocalNameComplete";
  ManufacturerSpecificData := VInt 0xFF;
  ManufacturerSpecificDataLabel := VStr "ManufacturerSpecificData";
  toString := string_of_list_byte
|}.

(** A GSM record of model 0x91 (CareSensor1): flags, model, the MAC bytes
    01..06 and a name of sixteen letters A; and the batch that holds it. *)
Definition careSensor1Record : Buffer :=
  bytes ([0x00; 0x91; 0x01; 0x02; 0x03; 0x04; 0x05; 0x06] ++ replicate 16 0x41).

Definition careSensor1Batch : Buffer := bytes [0x01; 24] ++ careSensor1Record.

(** A GSM record of model 0x9A (CareSensorT) of 26 bytes: it ends before
    the temperature bytes at 28 and 29. *)
Definition careSensorTRecord : Buffer :=
  bytes ([0x00; 0x9A; 0x01; 0x02; 0x03; 0x04; 0x05; 0x06]
         ++ replicate 16 0x41 ++ [0x00; 0x00]).

Definition careSensorTBatch : Buffer := bytes [0x01; 26] ++ careSensorTRecord.

(** Property [key] of the record inside report number [n] of a batch. *)
Definition gsmField (host : Host) (gsmData : Buffer) (n : nat) (key : string)
    : option Value :=
  match decodeGsmData host 0 gsmData with
  | Some reports =>
      match reports !! n with
      | Some report =>
          match data report !! 1%nat with
          | Some msd => msd !! key
          | None => None
          end
      | None => None
      end
  | None => None
  end.

(** The number of reports of a batch. *)
Definition gsmCount (host : Host) (gsmData : Buffer) : option nat :=
  length <$> decodeGsmData host 0 gsmData.

(** ** Vocabulary of the further properties *)

(** A record of a batch as its type byte, its length byte and its data;
    it is complete when the data is as long as the length byte says. *)
Definition completeRecord (r : byte * byte * Buffer) : Prop :=
  Z.of_nat (length r.2) = u8 r.1.2.

(** The bytes of a sequence of records, one after the other. *)
Definition encodeRecords (records : list (byte * byte * Buffer)) : Buffer :=
  concat (map (fun r : byte * byte * Buffer => r.1.1 :: r.1.2 :: r.2) records).

(** What can be left at the end of a batch after its complete records:
    nothing, a type byte alone, or a header whose length byte declares more
    bytes than follow it. *)
Definition incompleteTail (tail : Buffer) : Prop :=
  tail = []
  \/ (exists t, tail = [t])
  \/ (exists t l partial,
        tail = t :: l :: partial /\ Z.of_nat (length partial) < u8 l).

(** No NUL character in a string. *)
Fixpoint noNul (s : string) : Prop :=
  match s with
  | EmptyString => True
  | String c s' => c <> Ascii.zero /\ noNul s'
  end.

(** The shape of a report synthesized for a GSM record. *)
Definition wellShaped (host : Host) (report : AdvertisingReport) : Prop :=
  eventType report = AdvInd host
  /\ eventTypeLabel report = AdvIndLabel host
  /\ addressType report = Public host
  /\ addressTypeLabel report = PublicLabel host
  /\ length_ report = -1
  /\ String.length (address report) = 17%nat
  /\ -128 <= rssi report <= 127
  /\ exists name msd text label,
       data report = [name; msd]
       /\ name !! "type" = Some (LocalNameComplete host)
       /\ name !! "value" = Some (VStr text)
       /\ noNul text
       /\ msd !! "type" = Some (ManufacturerSpecificData host)
       /\ msd !! "modelLabel" = Some (VStr label)
       /\ label <> EmptyString.

(** How a computation on [msd] completes, whatever the object it is given:
    normally ([succeeds]); with a RangeError ([throwsRange]); in one of
    these two ways ([definite]). *)
Definition succeeds {A} (m : M A) : Prop :=
  forall o : Obj, exists a o', m o = (Normal a, o').

Definition throwsRange {A} (m : M A) : Prop :=
  forall o : Obj, exists o', m o = (Throw RangeError, o').

Definition definite {A} (m : M A) : Prop :=
  forall o : Obj,
    (exists a o', m o = (Normal a, o'))
    \/ (exists o', m o = (Throw RangeError, o')).

(** A computation that only writes: its completion and the properties it
    sets do not depend on the object it is given. *)
Definition writeOnly {A} (m : M A) : Prop :=
  exists (c : Completion A) (w : Obj), forall o : Obj, m o = (c, w ∪ o).

(** The models whose direct decoder reads nothing but the first byte. *)
Definition plainModels : list Z :=
  [ DeviceModel.Beacon; DeviceModel.ControlId; DeviceModel.Nav;
    DeviceModel.ControlPoint; DeviceModel.CareRelay;
    DeviceModel.TransceiverUart; DeviceModel.TransceiverUsb;
    DeviceModel.Gsm ].

(** The care sensors. *)
Definition careSensorModels : list Z :=
  [ DeviceModel.CareSensor1; DeviceModel.CareSensor2;
    DeviceModel.CareSensor3; DeviceModel.CareSensor4;
    DeviceModel.CareSensor5; DeviceModel.CareSensor6;
    DeviceModel.CareSensorT; DeviceModel.CareSensorHT ].

(** The container [decodeMsd] makes when it is given none. *)
Definition freshMsd (host : Host) (companyIdentifier : Z) : Obj :=
  list_to_map
    [ ("type", ManufacturerSpecificData host);
      ("typeLabel", ManufacturerSpecificDataLabel host);
      ("companyIdentifier", VInt companyIdentifier) ].

(** The check run on every first byte: the flag tests of the code against
    the bits they stand for (RTTO bit 1, low battery bit 2, input and
    magnetic field direction bit 3, output bit 0). *)
Definition firstByte_check (z : Z) : bool :=
  Bool.eqb (Js.truthy (Js.and z 0x02)) (Z.testbit z 1)
  && Bool.eqb (Js.truthy (Js.and (Js.or 0 (Js.and (Js.shl z 13) 0x8000))
                            0x8000)) (Z.testbit z 2)
  && Bool.eqb (Js.truthy (Js.and z 0x08)) (Z.testbit z 3)
  && Bool.eqb (Js.truthy (Js.and z 0x01)) (Z.testbit z 0).

(** The length from which on the decoder of a GSM record of the given
    model finds every word it reads inside the record. *)
Definition gsmMinLength (model : Z) : Z :=
  if model =? DeviceModel.EnergyMeter then 38
  else if (model =? DeviceModel.CareSensor4) || (model =? DeviceModel.CareSensor6)
  then 30
  else if (model =? DeviceModel.CareSensor5) || (model =? DeviceModel.CareSensorHT)
  then 32
  else if model =? DeviceModel.CareSensorT then 26
  else 16.

(** A GSM record of model 0x94 (CareSensor4) of 24 bytes: it ends before
    the alarm word at 24 and 25. *)
Definition careSensor4Record : Buffer :=
  bytes ([0x00; 0x94; 0x01; 0x02; 0x03; 0x04; 0x05; 0x06] ++ replicate 16 0x41).

(** The relative humidity before and after the clamp of
    [decodeSi7021Humidity], and the check run on every word: the two clamp
    tests against the raw word, and the range of what is stored. *)
Definition humidityPreClamp (raw : Z) : float :=
  (Js.Z2F raw * 125 * 4 / 65536 - 6)%float.

Definition humidityStored (value : float) : float :=
  let value :=
    if Js.lt value 1 then 1%float
    else if Js.gt value 100 then 100%float else value in
  (Js.round (value * 100) / 100)%float.

Definition humidity_check (raw : Z) : bool :=
  let value := humidityPreClamp raw in
  Bool.eqb (Js.lt value 1) (raw <=? 917)
  && Bool.eqb (Js.gt value 100) (13894 <=? raw)
  && PrimFloat.leb 1 (humidityStored value)
  && PrimFloat.leb (humidityStored value) 100.

(** ** Vocabulary of the comparison with the older module *)

(** Two objects that hold the same under every property name outside
    [names]. *)
Definition agreeOutside (names : list string) (o o' : Obj) : Prop :=
  forall key, key ∉ names -> o !! key = o' !! key.

(** Two computations that, started on objects agreeing outside [names],
    complete alike, and when they complete normally leave objects agreeing
    outside [names]. *)
Definition sim {A} (names : list string) (m m' : M A) : Prop :=
  forall o o', agreeOutside names o o' ->
    match (m o).1, (m' o').1 with
    | Normal a, Normal a' => a = a' /\ agreeOutside names (m o).2 (m' o').2
    | Throw e, Throw e' => e = e'
    | _, _ => False
    end.

(** A computation that completes normally and writes properties of
    [names] only. *)
Definition touches {A} (names : list string) (m : M A) : Prop :=
  succeeds m /\ forall key, key ∉ names -> keeps key m.

(** The properties on which the current decoder of a model and the older
    one may leave different values: the alarms where the extended word is
    not read (the older module lists its ten flags all the same), and for
    the energy meter also the unit and the battery, light and previous day
    fields, which the older module does not store. *)
Definition changed (model : Z) : list string :=
  if model =? DeviceModel.EnergyMeter then
    ["alarms"; "unit"; "batteryLevel"; "batteryVoltage"; "lightLevel";
     "weekDay"; "weekDayTotal"]
  else if bool_decide (model ∈ plainModels) then ["alarms"]
  else [].

(** The light level of the energy meter from the byte that holds it, and
    the check run on every byte: the level is between 0 and 100. *)
Definition lightLevelOf (z : Z) : float :=
  (Js.round (Js.Z2F (Js.and z 0x0F * 100) / 15 * 10) / 10)%float.

Definition lightLevel_check (z : Z) : bool :=
  PrimFloat.leb 0 (lightLevelOf z) && PrimFloat.leb (lightLevelOf z) 100.

(** The check run on every previous day word: the shift and the mask of
    the code against division and remainder by 8192. *)
Definition weekData_check (w : Z) : bool :=
  (Js.sar w 13 =? w / 8192) && (Js.and w 0x1FFF =? w mod 8192).

(** A GSM record of 24 bytes whose model byte, 0x81, is a key of neither
    table: flags, model, the MAC bytes 01..06 and a name of sixteen letters
    A. *)
Definition unknownModelRecord : Buffer :=
  bytes ([0x00; 0x81; 0x01; 0x02; 0x03; 0x04; 0x05; 0x06] ++ replicate 16 0x41).

(** * Properties *)

(** ** Numbers and buffers *)

Example round_half_up : Js.round 2.5 = 3%float.
Proof. reflexivity. Qed.

Example round_half_up_neg : Js.round (-2.5) = (-2)%float.
Proof. reflexivity. Qed.

Example round_below_half : Js.round 0.49999999999999994 = 0%float.
Proof. reflexivity. Qed.

Example round_neg_zero : Js.round (-0.3) = PrimFloat.neg_zero.
Proof. reflexivity. Qed.

Example round_nan : Js.round PrimFloat.nan = PrimFloat.nan.
Proof. reflexivity. Qed.

Example round_values :
  map Js.round
    [0.5; 1.5; -0.5; -1.5; 2.4999999999999996; 7000.5; -2999.5; -0.32]%float
  = [1; 2; -0; -1; 2; 7001; -2999; -0]%float.
Proof. reflexivity. Qed.


Lemma forall_bits_spec n : forall acc f, forall_bits n acc f = true ->
  forall z, acc * 2 ^ Z.of_nat n <= z < (acc + 1) * 2 ^ Z.of_nat n ->
  f z = true.
Proof.
  induction n as [|n IH]; intros acc f H z Hz.
  - simpl in Hz. replace z with acc by lia. exact H.
  - cbn [forall_bits] in H. apply andb_true_iff in H as [H1 H2].
    rewrite Nat2Z.inj_succ, Z.pow_succ_r in Hz by lia.
    destruct (Z_lt_le_dec z ((2 * acc + 1) * 2 ^ Z.of_nat n)).
    + apply (IH _ _ H1). lia.
    + apply (IH _ _ H2). lia.
Qed.

Lemma u8_range b : 0 <= u8 b < 256.
Proof. destruct b; vm_compute; split; congruence. Qed.

Lemma readUInt16LE_range buffer offset word :
  readUInt16LE buffer offset = Normal word -> 0 <= word < 65536.
Proof.
  unfold readUInt16LE.
  destruct (index buffer offset) as [b0|]; [|discriminate].
  destruct (index buffer (offset + 1)) as [b1|]; [|discriminate].
  intros [= <-].
  pose proof (u8_range b0). pose proof (u8_range b1).
  rewrite Z.shiftl_mul_pow2 by lia.
  pose proof (Z.add_lor_land (u8 b0) (u8 b1 * 2 ^ 8)) as Hsum.
  assert (0 <= Z.lor (u8 b0) (u8 b1 * 2 ^ 8)) by (apply Z.lor_nonneg; lia).
  assert (0 <= Z.land (u8 b0) (u8 b1 * 2 ^ 8)) by (apply Z.land_nonneg; lia).
  lia.
Qed.

(** A property checked on all 16-bit words holds of every word read. *)
Lemma word_cases (f : Z -> bool) :
  forall_bits 16 0 f = true ->
  forall buffer offset word,
    readUInt16LE buffer offset = Normal word -> f word = true.
Proof.
  intros H buffer offset word Hr.
  apply (forall_bits_spec 16 0 f H).
  apply readUInt16LE_range in Hr. simpl. lia.
Qed.

(** ** Reads inside and outside the buffer *)

Lemma index_inside (buffer : Buffer) i :
  0 <= i < Z.of_nat (length buffer) -> is_Some (index buffer i).
Proof.
  intros Hi. unfold index. destruct (Z.ltb_spec i 0); [lia|].
  apply lookup_lt_is_Some. lia.
Qed.

Lemma index_outside (buffer : Buffer) i :
  i < 0 \/ Z.of_nat (length buffer) <= i -> index buffer i = None.
Proof.
  intros Hi. unfold index. destruct (Z.ltb_spec i 0); [reflexivity|].
  apply lookup_ge_None. lia.
Qed.

Lemma index_Some_inside (buffer : Buffer) i b :
  index buffer i = Some b -> 0 <= i < Z.of_nat (length buffer).
Proof.
  unfold index. destruct (Z.ltb_spec i 0) as [Hneg|Hpos]; [discriminate|].
  intros Hb%lookup_lt_Some. lia.
Qed.

Lemma readUInt16LE_inside (buffer : Buffer) i :
  0 <= i -> i + 2 <= Z.of_nat (length buffer) ->
  exists word, readUInt16LE buffer i = Normal word.
Proof.
  intros H0 H2. unfold readUInt16LE.
  destruct (index_inside buffer i ltac:(lia)) as [b0 ->].
  destruct (index_inside buffer (i + 1) ltac:(lia)) as [b1 ->].
  eexists. reflexivity.
Qed.

Lemma readUInt16LE_outside (buffer : Buffer) i :
  i < 0 \/ Z.of_nat (length buffer) < i + 2 ->
  readUInt16LE buffer i = Throw RangeError.
Proof.
  intros Hi. unfold readUInt16LE.
  destruct (index buffer i) as [b0|] eqn:H0; [|reflexivity].
  apply index_Some_inside in H0.
  rewrite (index_outside buffer (i + 1)) by lia. reflexivity.
Qed.

Lemma readUInt16LE_definite (buffer : Buffer) i :
  (exists word, readUInt16LE buffer i = Normal word)
  \/ readUInt16LE buffer i = Throw RangeError.
Proof.
  unfold readUInt16LE.
  destruct (index buffer i); [|right; reflexivity].
  destruct (index buffer (i + 1)); [left; eexists|right]; reflexivity.
Qed.

Lemma readUInt32LE_inside (buffer : Buffer) i :
  0 <= i -> i + 4 <= Z.of_nat (length buffer) ->
  exists word, readUInt32LE buffer i = Normal word.
Proof.
  intros H0 H4. unfold readUInt32LE.
  destruct (index_inside buffer i ltac:(lia)) as [b0 ->].
  destruct (index_inside buffer (i + 1) ltac:(lia)) as [b1 ->].
  destruct (index_inside buffer (i + 2) ltac:(lia)) as [b2 ->].
  destruct (index_inside buffer (i + 3) ltac:(lia)) as [b3 ->].
  eexists. reflexivity.
Qed.

Lemma readUInt32LE_outside (buffer : Buffer) i :
  i < 0 \/ Z.of_nat (length buffer) < i + 4 ->
  readUInt32LE buffer i = Throw RangeError.
Proof.
  intros Hi. unfold readUInt32LE.
  destruct (index buffer i) as [b0|] eqn:H0; [|reflexivity].
  apply index_Some_inside in H0.
  destruct (index buffer (i + 1)) as [b1|]; [|reflexivity].
  destruct (index buffer (i + 2)) as [b2|]; [|reflexivity].
  rewrite (index_outside buffer (i + 3)) by lia. reflexivity.
Qed.

Lemma readUInt32LE_definite (buffer : Buffer) i :
  (exists word, readUInt32LE buffer i = Normal word)
  \/ readUInt32LE buffer i = Throw RangeError.
Proof.
  unfold readUInt32LE.
  destruct (index buffer i); [|right; reflexivity].
  destruct (index buffer (i + 1)); [|right; reflexivity].
  destruct (index buffer (i + 2)); [|right; reflexivity].
  destruct (index buffer (i + 3)); [left; eexists|right]; reflexivity.
Qed.

(** ** The MAC address of a GSM record *)

Lemma macPart_hex2 buffer i b :
  index buffer i = Some b -> macPart buffer i = Normal (hex2 b).
Proof.
  intros H. unfold macPart. rewrite H. f_equal.
  destruct b; vm_compute; reflexivity.
Qed.

(** The two characters of [hex2] are digits 0-9 or letters A-F. *)
Lemma hex2_shape b :
  exists h l,
    hex2 b = String h (String l EmptyString)
    /\ In h (list_ascii_of_string "0123456789ABCDEF")
    /\ In l (list_ascii_of_string "0123456789ABCDEF").
Proof.
  exists (upperHexDigit (u8 b / 16)), (upperHexDigit (u8 b mod 16)).
  split; [reflexivity|].
  destruct b; split; vm_compute; tauto.
Qed.

(** C4. On every record slice of at least eight bytes the synthesized MAC
    address is the bytes at indices 7, 6, 5, 4, 3, 2, in that order, each as
    two upper-case hexadecimal digits, joined with colons; bytes 0x01..0x06
    at indices 2..7 give "06:05:04:03:02:01". *)
Theorem decodeGsmMacAddress_spec :
  (forall b0 b1 b2 b3 b4 b5 b6 b7 (rest : Buffer),
     decodeGsmMacAddress (b0 :: b1 :: b2 :: b3 :: b4 :: b5 :: b6 :: b7 :: rest)
     = Normal (String.concat ":"
                 [hex2 b7; hex2 b6; hex2 b5; hex2 b4; hex2 b3; hex2 b2]))
  /\ (forall b0 b1 (rest : Buffer),
        decodeGsmMacAddress (b0 :: b1 :: bytes [1; 2; 3; 4; 5; 6] ++ rest)
        = Normal "06:05:04:03:02:01"%string).
Proof.
  assert (Hgen : forall b0 b1 b2 b3 b4 b5 b6 b7 (rest : Buffer),
     decodeGsmMacAddress (b0 :: b1 :: b2 :: b3 :: b4 :: b5 :: b6 :: b7 :: rest)
     = Normal (String.concat ":"
                 [hex2 b7; hex2 b6; hex2 b5; hex2 b4; hex2 b3; hex2 b2])).
  { intros. unfold decodeGsmMacAddress. cbn [macLoop].
    change (2 <=? 7) with true. change (2 <=? 7 - 1) with true.
    change (2 <=? 7 - 1 - 1) with true.
    change (2 <=? 7 - 1 - 1 - 1) with true.
    change (2 <=? 7 - 1 - 1 - 1 - 1) with true.
    change (2 <=? 7 - 1 - 1 - 1 - 1 - 1) with true.
    cbv iota.
    rewrite (macPart_hex2 _ 7 b7) by reflexivity.
    rewrite (macPart_hex2 _ (7 - 1) b6) by reflexivity.
    rewrite (macPart_hex2 _ (7 - 1 - 1) b5) by reflexivity.
    rewrite (macPart_hex2 _ (7 - 1 - 1 - 1) b4) by reflexivity.
    rewrite (macPart_hex2 _ (7 - 1 - 1 - 1 - 1) b3) by reflexivity.
    rewrite (macPart_hex2 _ (7 - 1 - 1 - 1 - 1 - 1) b2) by reflexivity.
    reflexivity. }
  split; [exact Hgen|].
  intros b0 b1 rest.
  change (b0 :: b1 :: bytes [1; 2; 3; 4; 5; 6] ++ rest)
    with (b0 :: b1 :: Byte.x01 :: Byte.x02 :: Byte.x03 :: Byte.x04
            :: Byte.x05 :: Byte.x06 :: rest).
  rewrite Hgen. reflexivity.
Qed.

(** A slice too short to hold index 7 makes the synthesis throw. *)
Example decodeGsmMacAddress_short :
  decodeGsmMacAddress (bytes [0; 0; 1; 2; 3; 4; 5]) = Throw TypeError.
Proof. reflexivity. Qed.

(** ** The motion vector *)

Lemma signCorrect_cases : signCorrect 0x10 = -15 /\ signCorrect 0x0F = 15.
Proof. split; reflexivity. Qed.

Lemma motion_check_all : forall_bits 16 0 motion_check = true.
Proof. vm_compute. reflexivity. Qed.

(** C6. For every word that [decodeMotionSensor] reads, [motion] is bit 15
    and each of the three five-bit fields at bit offsets 10, 5 and 0 has
    0x1F subtracted exactly when its bit 4 is set; a field 0x10 gives -15
    and a field 0x0F stays 15. *)
Theorem decodeMotionSensor_spec buffer i msd value :
  readUInt16LE buffer i = Normal value ->
  decodeMotionSensor buffer i msd
  = (Normal tt,
     <["position" := VObj (list_to_map
         [ ("motion", VBool (Z.testbit value 15));
           ("x", VInt (signCorrect (Z.land (Z.shiftr value 10) 0x1F)));
           ("y", VInt (signCorrect (Z.land (Z.shiftr value 5) 0x1F)));
           ("z", VInt (signCorrect (Z.land value 0x1F))) ])]> msd)
  /\ signCorrect 0x10 = -15
  /\ signCorrect 0x0F = 15.
Proof.
  intros Hr. split; [|exact signCorrect_cases].
  pose proof (word_cases _ motion_check_all _ _ _ Hr) as Hc.
  unfold motion_check in Hc.
  repeat (apply andb_true_iff in Hc as [Hc ?]).
  apply Bool.eqb_prop in Hc.
  repeat match goal with H : (_ =? _) = true |- _ => apply Z.eqb_eq in H end.
  unfold decodeMotionSensor, bind, lift, assign. rewrite Hr.
  congruence.
Qed.

Lemma decodeMotionSensor_spec_witness :
  readUInt16LE (bytes [0x0F; 0xC0]) 0 = Normal 0xC00F
  /\ (decodeMotionSensor (bytes [0x0F; 0xC0]) 0 ∅
      = (Normal tt,
         <["position" := VObj (list_to_map
             [ ("motion", VBool (Z.testbit 0xC00F 15));
               ("x", VInt (signCorrect (Z.land (Z.shiftr 0xC00F 10) 0x1F)));
               ("y", VInt (signCorrect (Z.land (Z.shiftr 0xC00F 5) 0x1F)));
               ("z", VInt (signCorrect (Z.land 0xC00F 0x1F))) ])]> ∅)
      /\ signCorrect 0x10 = -15
      /\ signCorrect 0x0F = 15).
Proof.
  split; [reflexivity|].
  apply (decodeMotionSensor_spec (bytes [0x0F; 0xC0]) 0 ∅ 0xC00F).
  reflexivity.
Defined.

(** ** The battery level *)

Lemma ToInt32_small z : 0 <= z < 0x80000000 -> Js.ToInt32 z = z.
Proof.
  intros Hz. unfold Js.ToInt32.
  change 0xFFFFFFFF with (Z.ones 32). rewrite Z.land_ones by lia.
  rewrite Z.mod_small by lia.
  destruct (Z.ltb_spec z 0x80000000); [reflexivity | lia].
Qed.

Lemma and_0x0F_range a : 0 <= Js.and a 0x0F <= 15.
Proof.
  unfold Js.and. change (Js.ToInt32 15) with (Z.ones 4).
  rewrite Z.land_ones by lia.
  pose proof (Z.mod_pos_bound (Js.ToInt32 a) (2 ^ 4)). lia.
Qed.

(** With a shift count in 0..31 the code is the plain [(word >> shift) & 0x0F]
    of a 16-bit word. *)
Lemma batteryCode_plain word shift :
  0 <= word < 65536 -> 0 <= shift < 32 ->
  Js.and (Js.sar word shift) 0x0F = Z.land (Z.shiftr word shift) 0x0F.
Proof.
  intros Hw Hs. unfold Js.and, Js.sar.
  rewrite (ToInt32_small word) by lia.
  change 31 with (Z.ones 5). rewrite Z.land_ones by lia.
  rewrite (Z.mod_small shift) by lia.
  rewrite ToInt32_small; [reflexivity|].
  rewrite Z.shiftr_div_pow2 by lia.
  assert (0 < 2 ^ shift) by (apply Z.pow_pos_nonneg; lia).
  split; [apply Z.div_pos; lia|].
  apply Z.le_lt_trans with word; [|lia].
  apply Z.div_le_upper_bound; nia.
Qed.

Lemma decodeBatteryLevel_run buffer i shift msd word :
  readUInt16LE buffer i = Normal word ->
  decodeBatteryLevel buffer i shift msd
  = (Normal tt,
     <["batteryVoltage" :=
         VNum ((Js.Z2F (batteryLevel_of (Js.and (Js.sar word shift) 0x0F))
                - 10) * 1.2 / 100 + 1.8)%float]>
       (<["batteryLevel" :=
            VInt (batteryLevel_of (Js.and (Js.sar word shift) 0x0F))]> msd)).
Proof.
  intros Hr. unfold decodeBatteryLevel, bind, lift, assign. rewrite Hr.
  reflexivity.
Qed.

(** C5. With [c] the four-bit code [(word >> shift) & 0x0F] of the word
    read: code 1 stores level 100; a code in {0, 2..11} stores
    [10 * (min c 11 - 1)]; over the codes other than 1 the stored level does
    not decrease when the code grows; and the stored voltage is
    [(level - 10) * 1.2 / 100 + 1.8] in the arithmetic of numbers. *)
Theorem decodeBatteryLevel_spec buffer i shift msd word :
  readUInt16LE buffer i = Normal word ->
  let c := Js.and (Js.sar word shift) 0x0F in
  exists level : Z,
    decodeBatteryLevel buffer i shift msd
    = (Normal tt,
       <["batteryVoltage" :=
           VNum ((Js.Z2F level - 10) * 1.2 / 100 + 1.8)%float]>
         (<["batteryLevel" := VInt level]> msd))
    /\ 0 <= c <= 15
    /\ (0 <= shift < 32 -> c = Z.land (Z.shiftr word shift) 0x0F)
    /\ (c = 1 -> level = 100)
    /\ (c = 0 \/ 2 <= c <= 11 -> level = 10 * (Z.min c 11 - 1))
    /\ (forall buffer' i' shift' msd' word',
          readUInt16LE buffer' i' = Normal word' ->
          let c' := Js.and (Js.sar word' shift') 0x0F in
          c <> 1 -> c' <> 1 -> c <= c' ->
          exists level' : Z,
            decodeBatteryLevel buffer' i' shift' msd'
            = (Normal tt,
               <["batteryVoltage" :=
                   VNum ((Js.Z2F level' - 10) * 1.2 / 100 + 1.8)%float]>
                 (<["batteryLevel" := VInt level']> msd'))
            /\ level <= level').
Proof.
  intros Hr c. exists (batteryLevel_of c).
  split; [exact (decodeBatteryLevel_run _ _ _ _ _ Hr)|].
  split; [apply and_0x0F_range|].
  split; [intros Hs; apply batteryCode_plain;
          [exact (readUInt16LE_range _ _ _ Hr) | exact Hs]|].
  split; [intros ->; reflexivity|].
  split.
  - intros Hc. unfold batteryLevel_of.
    destruct (Z.eqb_spec c 1); [lia | reflexivity].
  - intros buffer' i' shift' msd' word' Hr' c' Hc Hc' Hle.
    exists (batteryLevel_of c').
    split; [exact (decodeBatteryLevel_run _ _ _ _ _ Hr')|].
    unfold batteryLevel_of.
    destruct (Z.eqb_spec c 1); [lia|].
    destruct (Z.eqb_spec c' 1); [lia|]. lia.
Qed.

Lemma decodeBatteryLevel_spec_witness :
  readUInt16LE (bytes [0x00; 0x10]) 0 = Normal 0x1000
  /\ exists level : Z,
       decodeBatteryLevel (bytes [0x00; 0x10]) 0 12 ∅
       = (Normal tt,
          <["batteryVoltage" :=
              VNum ((Js.Z2F level - 10) * 1.2 / 100 + 1.8)%float]>
            (<["batteryLevel" := VInt level]> ∅))
       /\ level = 100.
Proof.
  split; [reflexivity|].
  destruct (decodeBatteryLevel_spec (bytes [0x00; 0x10]) 0 12 ∅ 0x1000
              eq_refl) as (level & Hrun & _ & _ & H1 & _).
  exists level. split; [exact Hrun|]. apply H1. reflexivity.
Defined.

(** The voltage of each level that a code can give. *)
Example batteryVoltage_values :
  map (fun level => ((Js.Z2F level - 10) * 1.2 / 100 + 1.8)%float)
      [-10; 10; 20; 50; 100]
  = [1.56; 1.8; 1.92; 2.2800000000000002; 2.88]%float.
Proof. reflexivity. Qed.

(** ** The three temperature encodings *)

Lemma byte_cases (f : Z -> bool) :
  forall_bits 8 0 f = true -> forall z, 0 <= z < 256 -> f z = true.
Proof.
  intros H z Hz. apply (forall_bits_spec 8 0 f H). simpl. lia.
Qed.

Lemma int_of_range v : 0 <= int_of v < 256.
Proof. destruct v as [b|]; simpl; [apply u8_range | lia]. Qed.

Lemma csr_check_all : forall_bits 16 0 csr_check = true.
Proof. vm_compute. reflexivity. Qed.

Lemma mcp9844_check_all : forall_bits 8 0 mcp9844_check = true.
Proof. vm_compute. reflexivity. Qed.

Lemma si7021_check_all : forall_bits 16 0 si7021_check = true.
Proof. vm_compute. reflexivity. Qed.

Lemma clampRound_low value :
  Js.lt value (-30) = true -> clampRound value = (-30)%float.
Proof. intros H. unfold clampRound. rewrite H. reflexivity. Qed.

Lemma clampRound_high value :
  exclusive value = true ->
  Js.gt value 70 = true -> clampRound value = 70%float.
Proof.
  intros He H. unfold exclusive in He. rewrite H in He. simpl in He.
  apply negb_true_iff in He.
  unfold clampRound. rewrite He, H. reflexivity.
Qed.

Lemma decodeCsrTemperature_run buffer i msd raw :
  readUInt16LE buffer i = Normal raw ->
  decodeCsrTemperature buffer i msd
  = (Normal tt,
     <["temperature" :=
         VInt (if csrPreClamp raw <? -30 then -30
               else if 70 <? csrPreClamp raw then 70
               else csrPreClamp raw)]> msd).
Proof.
  intros Hr. unfold decodeCsrTemperature, bind, lift, assign. rewrite Hr.
  reflexivity.
Qed.

Lemma decodeMcp9844Temperature_run buffer i msd :
  decodeMcp9844Temperature buffer i msd
  = (Normal tt,
     <["temperature" :=
         VNum (clampRound (mcp9844PreClamp (index buffer i)
                             (index buffer (i + 1))))]> msd).
Proof. reflexivity. Qed.

Lemma decodeSi7021Temperature_run buffer i msd raw :
  readUInt16LE buffer i = Normal raw ->
  decodeSi7021Temperature buffer i msd
  = (Normal tt, <["temperature" := VNum (clampRound (si7021PreClamp raw))]> msd).
Proof.
  intros Hr. unfold decodeSi7021Temperature, bind, lift, assign. rewrite Hr.
  reflexivity.
Qed.

Lemma mcp9844_cases b1 b2 :
  exclusive (mcp9844PreClamp (Some b1) b2) = true
  /\ inRange (clampRound (mcp9844PreClamp (Some b1) b2)) = true.
Proof.
  pose proof (byte_cases _ mcp9844_check_all (u8 b1) (u8_range b1)) as H1.
  unfold mcp9844_check in H1.
  pose proof (byte_cases _ H1 (int_of b2) (int_of_range b2)) as H2.
  cbv beta zeta in H2. apply andb_true_iff in H2. exact H2.
Qed.

(** Past the end of the buffer the MCP9844 decoder computes with
    [undefined]: the value is NaN, no clamp applies, and NaN is stored. *)
Lemma decodeMcp9844Temperature_past_end buffer i :
  index buffer i = None ->
  exclusive (mcp9844PreClamp None (index buffer (i + 1))) = true
  /\ forall msd,
       decodeMcp9844Temperature buffer i msd
       = (Normal tt, <["temperature" := VNum PrimFloat.nan]> msd).
Proof.
  intros Hb1.
  assert (Hnan : forall b2,
            exclusive (mcp9844PreClamp None b2) = true
            /\ clampRound (mcp9844PreClamp None b2) = PrimFloat.nan).
  { intros [b2|]; [destruct b2|]; split; vm_compute; reflexivity. }
  split; [apply Hnan|].
  intros msd. rewrite decodeMcp9844Temperature_run, Hb1.
  rewrite (proj2 (Hnan _)). reflexivity.
Qed.

(** C7, as the code has it. Whenever the value a decoder has computed is
    below -30 the stored temperature is -30, and whenever it is above 70 the
    stored temperature is 70; the stored temperature lies in [-30, 70] for
    the CSR and Si7021 decoders on every word they read, and for the MCP9844
    decoder whenever the byte at the offset is inside the buffer. The CSR
    and Si7021 decoders read their word exactly when it is inside the
    buffer; when it is not, they throw a RangeError and store nothing. *)
Theorem temperature_clamp :
  (forall buffer i msd raw,
     readUInt16LE buffer i = Normal raw ->
     exists t : float,
       decodeCsrTemperature buffer i msd
       = (Normal tt, <["temperature" := VNum t]> msd)
       /\ (csrPreClamp raw < -30 -> t = (-30)%float)
       /\ (70 < csrPreClamp raw -> t = 70%float)
       /\ inRange t = true)
  /\ (forall buffer i msd,
        let value :=
          mcp9844PreClamp (index buffer i) (index buffer (i + 1)) in
        exists t : float,
          decodeMcp9844Temperature buffer i msd
          = (Normal tt, <["temperature" := VNum t]> msd)
          /\ (Js.lt value (-30) = true -> t = (-30)%float)
          /\ (Js.gt value 70 = true -> t = 70%float)
          /\ (is_Some (index buffer i) -> inRange t = true))
  /\ (forall buffer i msd raw,
        readUInt16LE buffer i = Normal raw ->
        exists t : float,
          decodeSi7021Temperature buffer i msd
          = (Normal tt, <["temperature" := VNum t]> msd)
          /\ (Js.lt (si7021PreClamp raw) (-30) = true -> t = (-30)%float)
          /\ (Js.gt (si7021PreClamp raw) 70 = true -> t = 70%float)
          /\ inRange t = true)
  /\ (forall (buffer : Buffer) i msd,
        (0 <= i /\ i + 2 <= Z.of_nat (length buffer) ->
         exists raw, readUInt16LE buffer i = Normal raw)
        /\ (i < 0 \/ Z.of_nat (length buffer) < i + 2 ->
            decodeCsrTemperature buffer i msd = (Throw RangeError, msd)
            /\ decodeSi7021Temperature buffer i msd
               = (Throw RangeError, msd))).
Proof.
  split; [|split; [|split]].
  4:{ intros buffer i msd. split.
      - intros [H0 H2]. apply readUInt16LE_inside; assumption.
      - intros Hout.
        unfold decodeCsrTemperature, decodeSi7021Temperature, bind, lift.
        rewrite (readUInt16LE_outside buffer i Hout). split; reflexivity. }
  - intros buffer i msd raw Hr. eexists.
    split; [exact (decodeCsrTemperature_run _ _ _ _ Hr)|].
    split; [|split].
    + intros Hlow. destruct (Z.ltb_spec (csrPreClamp raw) (-30)); [|lia].
      reflexivity.
    + intros Hhigh. destruct (Z.ltb_spec (csrPreClamp raw) (-30)); [lia|].
      destruct (Z.ltb_spec 70 (csrPreClamp raw)); [|lia]. reflexivity.
    + exact (word_cases _ csr_check_all _ _ _ Hr).
  - intros buffer i msd value. eexists.
    split; [exact (decodeMcp9844Temperature_run _ _ _)|]. fold value.
    split; [apply clampRound_low|].
    destruct (index buffer i) as [b1|] eqn:Hb1.
    + destruct (mcp9844_cases b1 (index buffer (i + 1))) as [He Hin].
      fold value in He, Hin.
      split; [apply clampRound_high; exact He | intros _; exact Hin].
    + destruct (decodeMcp9844Temperature_past_end buffer i Hb1) as [He _].
      fold value in He.
      split; [apply clampRound_high; exact He | intros [b1 Hb]; discriminate].
  - intros buffer i msd raw Hr. eexists.
    split; [exact (decodeSi7021Temperature_run _ _ _ _ Hr)|].
    pose proof (word_cases _ si7021_check_all _ _ _ Hr) as Hc.
    unfold si7021_check in Hc. apply andb_true_iff in Hc as [He Hin].
    split; [apply clampRound_low|].
    split; [apply clampRound_high; exact He | exact Hin].
Qed.

Lemma temperature_clamp_witness :
  (readUInt16LE (bytes [0x00; 0x10]) 0 = Normal 0x1000
   /\ is_Some (index (bytes [0x00; 0x1F]) 0)
   /\ readUInt16LE (bytes [0xFF; 0xFF]) 0 = Normal 0xFFFF)
  /\ (exists t : float,
        decodeCsrTemperature (bytes [0x00; 0x10]) 0 ∅
        = (Normal tt, <["temperature" := VNum t]> ∅)
        /\ t = (-30)%float)
  /\ (exists t : float,
        decodeMcp9844Temperature (bytes [0x00; 0x1F]) 0 ∅
        = (Normal tt, <["temperature" := VNum t]> ∅)
        /\ inRange t = true)
  /\ (exists t : float,
        decodeSi7021Temperature (bytes [0xFF; 0xFF]) 0 ∅
        = (Normal tt, <["temperature" := VNum t]> ∅)
        /\ t = 70%float)
  /\ (decodeCsrTemperature (bytes [0xFF]) 0 ∅ = (Throw RangeError, ∅)
      /\ decodeSi7021Temperature (bytes [0xFF]) 0 ∅ = (Throw RangeError, ∅)).
Proof.
  destruct temperature_clamp as (Hcsr & Hmcp & Hsi & Hout).
  assert (Hb : is_Some (index (bytes [0x00; 0x1F]) 0))
    by (eexists; reflexivity).
  split; [repeat split; exact Hb|].
  destruct (Hcsr (bytes [0x00; 0x10]) 0 ∅ 0x1000 eq_refl)
    as (t1 & Hrun1 & Hlow & _ & _).
  destruct (Hmcp (bytes [0x00; 0x1F]) 0 ∅) as (t2 & Hrun2 & _ & _ & Hin).
  destruct (Hsi (bytes [0xFF; 0xFF]) 0 ∅ 0xFFFF eq_refl)
    as (t3 & Hrun3 & _ & Hhigh & _).
  split; [|split; [|split]].
  - exists t1. split; [exact Hrun1 | apply Hlow; reflexivity].
  - exists t2. split; [exact Hrun2 | exact (Hin Hb)].
  - exists t3. split; [exact Hrun3 | apply Hhigh; reflexivity].
  - apply (Hout (bytes [0xFF]) 0 ∅). right. apply Z.ltb_lt. reflexivity.
Defined.

(** The claim as the specification states it, for every buffer and offset,
    fails for the MCP9844 decoder on a buffer that ends before the offset:
    the stored temperature is NaN, which is outside [-30, 70]. *)
Lemma temperature_clamp_counterexample :
  ~ (forall decode : Buffer -> Z -> M unit,
       In decode [decodeCsrTemperature; decodeMcp9844Temperature;
                  decodeSi7021Temperature] ->
       forall buffer i msd msd',
         decode buffer i msd = (Normal tt, msd') ->
         exists t : float,
           msd' !! "temperature" = Some (VNum t) /\ inRange t = true).
Proof.
  intros H.
  destruct (H decodeMcp9844Temperature (or_intror (or_introl eq_refl))
              [] 0 ∅ _ eq_refl) as (t & Ht & Hin).
  rewrite lookup_insert_eq in Ht. injection Ht as <-.
  discriminate Hin.
Qed.

(** ** Reasoning about one property of [msd] across a computation *)

Section MsdRules.

Context {A B : Type}.
Implicit Types (k key : string) (v : Value) (m : M A) (f : A -> M B).

Lemma keeps_ret k (a : A) : keeps k (ret a).
Proof. intros o. reflexivity. Qed.

Lemma keeps_throw k e : keeps k (throw (A := A) e).
Proof. intros o. reflexivity. Qed.

Lemma keeps_lift k (c : Completion A) : keeps k (lift c).
Proof. intros o. reflexivity. Qed.

Lemma keeps_bind k m f :
  keeps k m -> (forall a, keeps k (f a)) -> keeps k (bind m f).
Proof.
  intros Hm Hf o. unfold bind. specialize (Hm o).
  destruct (m o) as [[a|e] o1]; simpl in *; [|exact Hm].
  rewrite (Hf a o1). exact Hm.
Qed.

Lemma keeps_if k (b : bool) (m1 m2 : M A) :
  keeps k m1 -> keeps k m2 -> keeps k (if b then m1 else m2).
Proof. destruct b; trivial. Qed.

Lemma always_bind_l k v m f :
  always k v m -> (forall a, keeps k (f a)) -> always k v (bind m f).
Proof.
  intros Hm Hf o. unfold bind. specialize (Hm o).
  destruct (m o) as [[a|e] o1]; simpl in *; [|exact Hm].
  rewrite (Hf a o1). exact Hm.
Qed.

Lemma ensures_bind_l k v m f :
  ensures k v m -> (forall a, keeps k (f a)) -> ensures k v (bind m f).
Proof.
  intros Hm Hf o b o' Hrun. unfold bind in Hrun.
  destruct (m o) as [[a|e] o1] eqn:Hmo; [|discriminate].
  pose proof (Hf a o1) as Hk. rewrite Hrun in Hk. simpl in Hk.
  rewrite Hk. exact (Hm o a o1 Hmo).
Qed.

Lemma ensures_bind_r k v m f :
  (forall a, ensures k v (f a)) -> ensures k v (bind m f).
Proof.
  intros Hf o b o' Hrun. unfold bind in Hrun.
  destruct (m o) as [[a|e] o1] eqn:Hmo; [|discriminate].
  exact (Hf a o1 b o' Hrun).
Qed.

Lemma ensures_if k v (b : bool) (m1 m2 : M A) :
  ensures k v m1 -> ensures k v m2 -> ensures k v (if b then m1 else m2).
Proof. destruct b; trivial. Qed.

Lemma always_ensures k v m : always k v m -> ensures k v m.
Proof. intros H o a o' Hrun. specialize (H o). rewrite Hrun in H. exact H. Qed.

End MsdRules.

Lemma keeps_assign k key v : k <> key -> keeps k (assign key v).
Proof. intros Hne o. simpl. apply lookup_insert_ne. congruence. Qed.

Lemma keeps_objectAssign k key source :
  k <> key -> keeps k (objectAssign key source).
Proof.
  intros Hne o. unfold objectAssign.
  destruct (o !! key) as [[]|]; simpl; try reflexivity.
  apply lookup_insert_ne. congruence.
Qed.

Lemma always_assign k v : always k v (assign k v).
Proof. intros o. simpl. apply lookup_insert_eq. Qed.

Lemma ensures_assign k v : ensures k v (assign k v).
Proof. apply always_ensures, always_assign. Qed.

(** After an assignment, which never throws, what the rest sets is set. *)
Lemma always_after_assign {B} k v key w (f : unit -> M B) :
  (forall a, always k v (f a)) -> always k v (bind (assign key w) f).
Proof. intros Hf o. exact (Hf tt _). Qed.

Lemma always_bind_assoc {A B C} k v (m : M A) (f : A -> M B) (g : B -> M C) :
  always k v (bind m (fun a => bind (f a) g)) -> always k v (bind (bind m f) g).
Proof.
  intros H o. specialize (H o). unfold bind in *.
  destruct (m o) as [[a|e] o1]; exact H.
Qed.

Lemma always_ret_bind {A B} k v (a : A) (g : A -> M B) :
  always k v (g a) -> always k v (bind (ret a) g).
Proof. intros H o. exact (H o). Qed.

Lemma always_lift_normal {A B} k v (a : A) (g : A -> M B) :
  always k v (g a) -> always k v (bind (lift (Normal a)) g).
Proof. intros H o. exact (H o). Qed.

Ltac unfold_primitives :=
  unfold decodeMsdCareSensor, decodeGsmCareSensor, runStep,
    decodeInput, decodeOutput, decodeRtto, decodeMagneticFieldDirection,
    decodeAlarms, decodeGroups, decodeBatteryLevel, decodeEnergyMeter,
    decodeMotionSensor, decodeCsrTemperature, decodeMcp9844Temperature,
    decodeSi7021Temperature, decodeSi7021Humidity, decodeMagneticField,
    decodeTime, decodeSignature.

(** [keeps k m] for a concrete property [k] and a computation put together
    from the primitives. *)
Ltac keeps_tac :=
  unfold_primitives; cbv beta iota zeta;
  lazymatch goal with
  | |- keeps _ (ret _) => apply keeps_ret
  | |- keeps _ (lift _) => apply keeps_lift
  | |- keeps _ (throw _) => apply keeps_throw
  | |- keeps _ (assign _ _) => apply keeps_assign; discriminate
  | |- keeps _ (objectAssign _ _) => apply keeps_objectAssign; discriminate
  | |- keeps _ (bind _ _) =>
      apply keeps_bind; [keeps_tac | intros ?; keeps_tac]
  | |- keeps _ (if _ then _ else _) => apply keeps_if; keeps_tac
  end.

(** [always k v m]: the assignment to [k] is looked for from the left, and
    what follows it has to keep [k]. *)
Ltac always_tac :=
  cbv beta iota zeta;
  lazymatch goal with
  | |- always _ _ (assign _ _) => apply always_assign
  | |- always _ _ (bind (assign _ _) _) =>
      first [ apply always_bind_l;
                [apply always_assign | intros ?; solve [keeps_tac]]
            | apply always_after_assign; intros ?; always_tac ]
  | |- always _ _ (bind (ret _) _) => apply always_ret_bind; always_tac
  | |- always _ _ (bind (bind _ _) _) => apply always_bind_assoc; always_tac
  | |- always _ _ (bind _ _) =>
      apply always_bind_l; [always_tac | intros ?; solve [keeps_tac]]
  end.

(** [ensures k v m]: the last assignment to [k] on the way is looked for
    from the right. *)
Ltac ensures_tac :=
  unfold_primitives; cbv beta iota zeta;
  lazymatch goal with
  | |- ensures _ _ (assign _ _) => apply ensures_assign
  | |- ensures _ _ (if _ then _ else _) => apply ensures_if; ensures_tac
  | |- ensures _ _ (bind _ _) =>
      first [ apply ensures_bind_r; intros ?; ensures_tac
            | apply ensures_bind_l; [ensures_tac | intros ?; solve [keeps_tac]] ]
  end.

(** ** The options word of the energy meter *)

Lemma options_check_all : forall_bits 16 0 options_check = true.
Proof. vm_compute. reflexivity. Qed.

Lemma decodeEnergyMeter_head buffer i options :
  readUInt16LE buffer (i + 6) = Normal options ->
  let unit := Js.and (Js.sar options 14) 3 in
  let field := Js.and options 0x3FFF in
  always "unit" (VInt unit) (decodeEnergyMeter buffer i)
  /\ always "constant" (VInt (energyConstant unit field))
       (decodeEnergyMeter buffer i)
  /\ always "averageUnit" (VStr (energyUnitLabels unit).1)
       (decodeEnergyMeter buffer i)
  /\ always "sumUnit" (VStr (energyUnitLabels unit).2)
       (decodeEnergyMeter buffer i).
Proof.
  intros Hr. cbv zeta.
  unfold decodeEnergyMeter. rewrite Hr.
  repeat split; apply always_lift_normal; cbv beta zeta;
    set (unit := Js.and (Js.sar options 14) 3);
    set (field := Js.and options 0x3FFF);
    unfold energyConstant, energyUnitLabels;
    ((destruct (unit =? 0) eqn:H0; [|destruct (unit =? 1) eqn:H1]);
     [ apply Z.eqb_eq in H0; rewrite H0; change (0 <=? 1) with true
     | apply Z.eqb_eq in H1; rewrite H1; change (1 <=? 1) with true
     | assert (Hle : (unit <=? 1) = false)
         by (apply Z.leb_gt; apply Z.eqb_neq in H0, H1;
             assert (0 <= unit)
               by (apply Z.land_nonneg; right; vm_compute; congruence);
             lia);
       try rewrite Hle ]);
    cbv iota; cbn [fst snd]; always_tac.
Qed.

(** C8. For every 16-bit options word the stored unit is
    [(options >> 14) & 3] and the constant field is [options & 0x3FFF],
    stored as it is unless it is zero, when the default of the unit is
    stored; [options = 0x0000] gives unit 0, constant 1000 and the labels
    "kWh" and "kW"; [options = 0xC001] gives unit 3, the labels "cnt" and
    "cnt" and the constant 1 of the word. The four properties are set
    however the rest of the decoding completes. *)
Theorem decodeEnergyMeter_options buffer i msd options :
  readUInt16LE buffer (i + 6) = Normal options ->
  let unit := Z.land (Z.shiftr options 14) 3 in
  let field := Z.land options 0x3FFF in
  let msd' := (decodeEnergyMeter buffer i msd).2 in
  msd' !! "unit" = Some (VInt unit)
  /\ msd' !! "constant" = Some (VInt (energyConstant unit field))
  /\ msd' !! "averageUnit" = Some (VStr (energyUnitLabels unit).1)
  /\ msd' !! "sumUnit" = Some (VStr (energyUnitLabels unit).2)
  /\ (field <> 0 -> msd' !! "constant" = Some (VInt field))
  /\ (options = 0x0000 ->
      msd' !! "unit" = Some (VInt 0)
      /\ msd' !! "constant" = Some (VInt 1000)
      /\ msd' !! "averageUnit" = Some (VStr "kWh")
      /\ msd' !! "sumUnit" = Some (VStr "kW"))
  /\ (options = 0xC001 ->
      msd' !! "unit" = Some (VInt 3)
      /\ msd' !! "constant" = Some (VInt 1)
      /\ msd' !! "averageUnit" = Some (VStr "cnt")
      /\ msd' !! "sumUnit" = Some (VStr "cnt")).
Proof.
  intros Hr unit field msd'.
  destruct (decodeEnergyMeter_head buffer i options Hr)
    as (Hu & Hc & Ha & Hs).
  pose proof (word_cases _ options_check_all _ _ _ Hr) as Hchk.
  unfold options_check in Hchk. apply andb_true_iff in Hchk as [E1 E2].
  apply Z.eqb_eq in E1, E2. rewrite E1, E2 in *. fold unit field in Hu, Hc, Ha, Hs.
  specialize (Hu msd). specialize (Hc msd).
  specialize (Ha msd). specialize (Hs msd). fold msd' in Hu, Hc, Ha, Hs.
  split; [exact Hu|]. split; [exact Hc|].
  split; [exact Ha|]. split; [exact Hs|]. split; [|split].
  - intros Hf. rewrite Hc. unfold energyConstant.
    destruct (Z.eqb_spec field 0); [contradiction | reflexivity].
  - intros Ho. subst options. repeat split; assumption.
  - intros Ho. subst options. repeat split; assumption.
Qed.

Lemma decodeEnergyMeter_options_witness :
  readUInt16LE (bytes [0; 0; 0; 0; 0; 0; 0x01; 0xC0]) (0 + 6) = Normal 0xC001
  /\ (decodeEnergyMeter (bytes [0; 0; 0; 0; 0; 0; 0x01; 0xC0]) 0 ∅).2
       !! "constant" = Some (VInt 1).
Proof.
  split; [reflexivity|].
  destruct (decodeEnergyMeter_options
              (bytes [0; 0; 0; 0; 0; 0; 0x01; 0xC0]) 0 ∅ 0xC001 eq_refl)
    as (_ & _ & _ & _ & _ & _ & H).
  exact (proj1 (proj2 (H eq_refl))).
Defined.

(** ** The alarm word in the two modules *)

Lemma batteryBit_check_all : forall_bits 8 0 batteryBit_check = true.
Proof. vm_compute. reflexivity. Qed.

Lemma lor_bound a b : 0 <= a -> 0 <= b -> 0 <= Z.lor a b <= a + b.
Proof.
  intros Ha Hb. pose proof (Z.add_lor_land a b).
  assert (0 <= Z.lor a b) by (apply Z.lor_nonneg; lia).
  assert (0 <= Z.land a b) by (apply Z.land_nonneg; lia). lia.
Qed.

Lemma or_small a b :
  0 <= a < 0x80000000 -> 0 <= b < 0x80000000 -> Js.or a b = Z.lor a b.
Proof. intros Ha Hb. unfold Js.or. rewrite !ToInt32_small; trivial. Qed.

Lemma and_small a b :
  0 <= a < 0x80000000 -> 0 <= b < 0x80000000 -> Js.and a b = Z.land a b.
Proof. intros Ha Hb. unfold Js.and. rewrite !ToInt32_small; trivial. Qed.

Lemma truthy_land_pow2 x n :
  0 <= n -> Js.truthy (Z.land x (2 ^ n)) = Z.testbit x n.
Proof.
  intros Hn. unfold Js.truthy.
  destruct (Z.testbit x n) eqn:Hbit.
  - apply negb_true_iff, Z.eqb_neq. intros H0.
    assert (Z.testbit (Z.land x (2 ^ n)) n = true) as Ht
      by (rewrite Z.land_spec, Hbit, Z.pow2_bits_true; trivial).
    rewrite H0, Z.bits_0 in Ht. discriminate.
  - apply negb_false_iff, Z.eqb_eq. apply Z.bits_inj'. intros m Hm.
    rewrite Z.land_spec, Z.bits_0.
    destruct (Z.eq_dec n m) as [<-|Hne].
    + rewrite Hbit. reflexivity.
    + rewrite Z.pow2_bits_false by trivial. apply andb_false_r.
Qed.

(** With battery bits [k] or-ed in, bit 15 of the alarm word is bit 15 of
    [k] or of the extended word, and none of the ten flag masks sees [k]. *)
Lemma alarms_word k extended :
  In k [0; 0x4000; 0x8000; 0xC000] -> 0 <= extended < 65536 ->
  Js.truthy (Js.and (Js.or extended k) 0x8000)
  = (Z.testbit k 15 || Z.testbit extended 15)
  /\ extendedAlarms (Js.or extended k) = extendedAlarms extended.
Proof.
  intros Hk He.
  assert (Hkr : 0 <= k <= 0xC000)
    by (destruct Hk as [<-|[<-|[<-|[<-|[]]]]]; lia).
  pose proof (lor_bound extended k ltac:(lia) ltac:(lia)) as Hlor.
  rewrite or_small by lia.
  assert (Hmask : forall mask, 0 <= mask < 0x80000000 ->
            Js.and (Z.lor extended k) mask
            = Z.lor (Z.land extended mask) (Z.land k mask)).
  { intros mask Hm. rewrite and_small by lia. apply Z.land_lor_distr_l. }
  assert (Hsame : forall mask, 0 <= mask < 0x80000000 -> Z.land k mask = 0 ->
            Js.and (Z.lor extended k) mask = Js.and extended mask).
  { intros mask Hm H0. rewrite Hmask, H0, Z.lor_0_r by trivial.
    symmetry. apply and_small; lia. }
  split.
  - rewrite Hmask by lia. unfold Js.truthy.
    change 0x8000 with (2 ^ 15).
    rewrite <- (truthy_land_pow2 k 15), <- (truthy_land_pow2 extended 15)
      by lia.
    unfold Js.truthy.
    destruct (Z.eqb_spec (Z.land extended (2 ^ 15)) 0) as [E|E];
      destruct (Z.eqb_spec (Z.land k (2 ^ 15)) 0) as [K|K];
      destruct (Z.eqb_spec (Z.lor (Z.land extended (2 ^ 15))
                              (Z.land k (2 ^ 15))) 0) as [L|L];
      try reflexivity; exfalso.
    all: try (apply Z.lor_eq_0_iff in L; tauto).
    apply L. apply Z.lor_eq_0_iff. tauto.
  - unfold extendedAlarms.
    rewrite !Hsame; [reflexivity|..];
      first [ lia | destruct Hk as [<-|[<-|[<-|[<-|[]]]]]; reflexivity ].
Qed.

Lemma batteryBit_cases mask b :
  0 <= b < 256 -> mask = 0x8000 \/ mask = 0xC000 ->
  In (batteryBit mask b) [0; 0x4000; 0x8000; 0xC000]
  /\ Z.testbit (batteryBit mask b) 15 = Z.testbit b 2.
Proof.
  intros Hb Hmask.
  pose proof (byte_cases _ batteryBit_check_all b Hb) as H.
  unfold batteryBit_check in H. apply andb_true_iff in H as [H1 H2].
  apply Z.eqb_eq in H1, H2.
  destruct Hmask as [-> | ->]; [rewrite H1 | rewrite H2];
    destruct (Z.testbit b 2); destruct (Z.testbit b 1);
    (split; [simpl; tauto | reflexivity]).
Qed.

Lemma batteryByte_range buffer batteryI :
  0 <= (if batteryI =? -1 then 0 else int_of (index buffer batteryI)) < 256.
Proof. destruct (batteryI =? -1); [lia | apply int_of_range]. Qed.

Lemma readExtended_range buffer extendedI extended :
  (if extendedI =? -1 then Normal 0 else readUInt16LE buffer extendedI)
  = Normal extended -> 0 <= extended < 65536.
Proof.
  destruct (extendedI =? -1); [intros [= <-]; lia|].
  apply readUInt16LE_range.
Qed.

(** C10. The alarm primitive of the current module (battery bit masked with
    0x8000) and that of the older module (masked with 0xC000) complete alike
    and store the same [lowBattery] flag: bit 2 of the battery byte or bit 15
    of the extended word. The ten other flags of the older module are those
    of the extended word alone, so bit 14 kept by the older mask is seen by
    no flag. *)
Theorem decodeAlarms_lowBattery_agree buffer batteryI extendedI msd :
  let batteryByte :=
    if batteryI =? -1 then 0 else int_of (index buffer batteryI) in
  match (if extendedI =? -1 then Normal 0
         else readUInt16LE buffer extendedI) with
  | Normal extended =>
      let flag := VBool (Z.testbit batteryByte 2 || Z.testbit extended 15) in
      decodeAlarms buffer batteryI extendedI msd
      = (Normal tt,
         <["alarms" := VObj
             (if extendedI =? -1 then {[ "lowBattery" := flag ]}
              else list_to_map (extendedAlarms extended)
                     ∪ {[ "lowBattery" := flag ]})]> msd)
      /\ Legacy.decodeAlarms buffer batteryI extendedI msd
         = (Normal tt,
            <["alarms" := VObj
                (list_to_map (extendedAlarms extended
                              ++ [("lowBattery", flag)]))]> msd)
      /\ lowBattery (decodeAlarms buffer batteryI extendedI msd).2
         = Some flag
      /\ lowBattery (Legacy.decodeAlarms buffer batteryI extendedI msd).2
         = Some flag
  | Throw e =>
      decodeAlarms buffer batteryI extendedI msd = (Throw e, msd)
      /\ Legacy.decodeAlarms buffer batteryI extendedI msd = (Throw e, msd)
  end.
Proof.
  intros batteryByte.
  destruct (if extendedI =? -1 then Normal 0
            else readUInt16LE buffer extendedI) as [extended|e] eqn:Hext.
  2:{ destruct (extendedI =? -1) eqn:Hi; [discriminate|].
      unfold decodeAlarms, Legacy.decodeAlarms, bind, lift.
      rewrite Hi, Hext. split; reflexivity. }
  intros flag.
  pose proof (readExtended_range _ _ _ Hext) as Hrange.
  pose proof (batteryByte_range buffer batteryI) as Hb. fold batteryByte in Hb.
  destruct (batteryBit_cases 0x8000 batteryByte Hb (or_introl eq_refl))
    as [Hin1 Hbit1].
  destruct (batteryBit_cases 0xC000 batteryByte Hb (or_intror eq_refl))
    as [Hin2 Hbit2].
  destruct (alarms_word _ extended Hin1 Hrange) as [Hlow1 Hflags1].
  destruct (alarms_word _ extended Hin2 Hrange) as [Hlow2 Hflags2].
  rewrite Hbit1 in Hlow1. rewrite Hbit2 in Hlow2.
  assert (Hnew : decodeAlarms buffer batteryI extendedI msd
      = (Normal tt,
         <["alarms" := VObj
             (if extendedI =? -1 then {[ "lowBattery" := flag ]}
              else list_to_map (extendedAlarms extended)
                     ∪ {[ "lowBattery" := flag ]})]> msd)).
  { unfold decodeAlarms. fold batteryByte. fold (batteryBit 0x8000 batteryByte).
    unfold bind at 1.
    replace ((if extendedI =? -1 then ret 0
              else lift (readUInt16LE buffer extendedI)) msd)
      with (Normal extended, msd)
      by (destruct (extendedI =? -1); unfold ret, lift; congruence).
    unfold bind, assign. rewrite Hlow1, Hflags1. fold flag.
    destruct (extendedI =? -1); cbv beta iota delta [negb]; [reflexivity|].
    unfold objectAssign. rewrite lookup_insert_eq. cbv beta iota.
    rewrite insert_insert_eq. reflexivity. }
  assert (Hold : Legacy.decodeAlarms buffer batteryI extendedI msd
      = (Normal tt,
         <["alarms" := VObj
             (list_to_map (extendedAlarms extended
                           ++ [("lowBattery", flag)]))]> msd)).
  { unfold Legacy.decodeAlarms. fold batteryByte.
    fold (batteryBit 0xC000 batteryByte).
    unfold bind at 1.
    replace ((if extendedI =? -1 then ret 0
              else lift (readUInt16LE buffer extendedI)) msd)
      with (Normal extended, msd)
      by (destruct (extendedI =? -1); unfold ret, lift; congruence).
    unfold assign. rewrite Hlow2, Hflags2. reflexivity. }
  split; [exact Hnew|]. split; [exact Hold|].
  rewrite Hnew, Hold. unfold lowBattery. cbn [snd].
  rewrite !lookup_insert_eq. split.
  - destruct (extendedI =? -1).
    + apply lookup_singleton_eq.
    + rewrite lookup_union_r by reflexivity. apply lookup_singleton_eq.
  - rewrite list_to_map_app. rewrite lookup_union_r by reflexivity.
    vm_compute. reflexivity.
Qed.

(** ** The GSM record stream *)

Lemma index_app_r (pre buf : Buffer) i :
  0 <= i -> index (pre ++ buf) (Z.of_nat (length pre) + i) = index buf i.
Proof.
  intros Hi. unfold index.
  destruct (Z.ltb_spec (Z.of_nat (length pre) + i) 0); [lia|].
  destruct (Z.ltb_spec i 0); [lia|].
  rewrite lookup_app_r by lia. f_equal. lia.
Qed.

Lemma slice_app_r (pre buf : Buffer) a b :
  0 <= a -> 0 <= b ->
  slice (pre ++ buf) (Z.of_nat (length pre) + a) (Z.of_nat (length pre) + b)
  = slice buf a b.
Proof.
  intros Ha Hb. unfold slice. rewrite length_app, Nat2Z.inj_add.
  destruct (Z.ltb_spec (Z.of_nat (length pre) + a) 0); [lia|].
  destruct (Z.ltb_spec (Z.of_nat (length pre) + b) 0); [lia|].
  destruct (Z.ltb_spec a 0); [lia|]. destruct (Z.ltb_spec b 0); [lia|].
  rewrite !Z.add_min_distr_l.
  replace (Z.to_nat (Z.of_nat (length pre)
                     + Z.min a (Z.of_nat (length buf))))
    with (length pre + Z.to_nat (Z.min a (Z.of_nat (length buf))))%nat by lia.
  rewrite drop_app_add. f_equal. lia.
Qed.

Lemma slice_prefix (data rest : Buffer) :
  slice (data ++ rest) 0 (Z.of_nat (length data)) = data.
Proof.
  unfold slice. rewrite length_app, Nat2Z.inj_add.
  destruct (Z.ltb_spec (Z.of_nat (length data)) 0); [lia|].
  change (0 <? 0) with false. cbv iota.
  rewrite Z.min_l, Z.min_l by lia.
  rewrite Z.sub_0_r, Nat2Z.id. change (Z.to_nat 0) with 0%nat.
  rewrite drop_0. apply take_app_length.
Qed.

Lemma length_slice_le (buf : Buffer) a b :
  (length (slice buf a b) <= length buf)%nat.
Proof. unfold slice. rewrite length_take, length_drop. lia. Qed.

Section GsmStream.

Variable host : Host.
Variable gsmTime : Z.

Lemma tryDecodeGsmDataRecord_acc recordType recordData reports :
  tryDecodeGsmDataRecord host gsmTime recordType recordData reports
  = reports ++ tryDecodeGsmDataRecord host gsmTime recordType recordData [].
Proof.
  unfold tryDecodeGsmDataRecord.
  destruct (decodeGsmDataRecord host gsmTime recordType recordData)
    as [[report|]|e]; [reflexivity | | ]; symmetry; apply app_nil_r.
Qed.

(** The loop does not look behind its cursor. *)
Lemma gsmLoop_shift fuel : forall (pre buf : Buffer) i reports,
  0 <= i ->
  gsmLoop host fuel gsmTime (pre ++ buf) (Z.of_nat (length pre) + i) reports
  = gsmLoop host fuel gsmTime buf i reports.
Proof.
  induction fuel as [|fuel IH]; intros pre buf i reports Hi; [reflexivity|].
  cbn [gsmLoop]. cbv zeta.
  rewrite length_app, Nat2Z.inj_add.
  replace (Z.of_nat (length pre) + i <? Z.of_nat (length pre)
                                        + Z.of_nat (length buf))
    with (i <? Z.of_nat (length buf))
    by (destruct (Z.ltb_spec i (Z.of_nat (length buf)));
        destruct (Z.ltb_spec (Z.of_nat (length pre) + i)
                    (Z.of_nat (length pre) + Z.of_nat (length buf))); lia).
  destruct (i <? Z.of_nat (length buf)); [|reflexivity].
  rewrite index_app_r by lia.
  replace (Z.of_nat (length pre) + i + 1)
    with (Z.of_nat (length pre) + (i + 1)) by lia.
  rewrite index_app_r by lia.
  destruct (index buf (i + 1)) as [l|]; [|reflexivity].
  pose proof (u8_range l).
  replace (Z.of_nat (length pre) + i + 2)
    with (Z.of_nat (length pre) + (i + 2)) by lia.
  replace (Z.of_nat (length pre) + (i + 2) + u8 l)
    with (Z.of_nat (length pre) + (i + 2 + u8 l)) by lia.
  rewrite slice_app_r by lia.
  destruct (negb (Z.of_nat (length (slice buf (i + 2) (i + 2 + u8 l)))
                  =? u8 l)); [reflexivity|].
  destruct (u8 l <? 24); apply IH; lia.
Qed.

(** The reports pushed so far are only ever appended to. *)
Lemma gsmLoop_acc fuel : forall (buf : Buffer) i reports,
  gsmLoop host fuel gsmTime buf i reports
  = (reports ++.) <$> gsmLoop host fuel gsmTime buf i [].
Proof.
  induction fuel as [|fuel IH]; intros buf i reports; [reflexivity|].
  cbn [gsmLoop]. cbv zeta.
  destruct (i <? Z.of_nat (length buf));
    [|simpl; rewrite app_nil_r; reflexivity].
  destruct (index buf (i + 1)) as [l|];
    [|simpl; rewrite app_nil_r; reflexivity].
  destruct (negb (Z.of_nat (length (slice buf (i + 2) (i + 2 + u8 l)))
                  =? u8 l)); [simpl; rewrite app_nil_r; reflexivity|].
  destruct (u8 l <? 24); [apply IH|].
  rewrite IH. rewrite (IH _ _ (tryDecodeGsmDataRecord _ _ _ _ [])).
  rewrite tryDecodeGsmDataRecord_acc.
  destruct (gsmLoop host fuel gsmTime buf (i + 2 + u8 l) []) as [r|];
    [|reflexivity].
  simpl. rewrite app_assoc. reflexivity.
Qed.

(** More fuel does not change a result. *)
Lemma gsmLoop_fuel_S fuel : forall (buf : Buffer) i reports r,
  gsmLoop host fuel gsmTime buf i reports = Some r ->
  gsmLoop host (S fuel) gsmTime buf i reports = Some r.
Proof.
  induction fuel as [|fuel IH]; intros buf i reports r H; [discriminate|].
  cbn [gsmLoop] in H |- *. cbv zeta in H |- *.
  destruct (i <? Z.of_nat (length buf)); [|exact H].
  destruct (index buf (i + 1)) as [l|]; [|exact H].
  destruct (negb (Z.of_nat (length (slice buf (i + 2) (i + 2 + u8 l)))
                  =? u8 l)); [exact H|].
  destruct (u8 l <? 24); apply IH; exact H.
Qed.

Lemma gsmLoop_fuel_le fuel fuel' (buf : Buffer) i reports r :
  (fuel <= fuel')%nat ->
  gsmLoop host fuel gsmTime buf i reports = Some r ->
  gsmLoop host fuel' gsmTime buf i reports = Some r.
Proof.
  induction 1 as [|fuel' Hle IH]; [trivial|].
  intros H. apply gsmLoop_fuel_S, IH, H.
Qed.

(** The loop ends: one unit of fuel for each byte ahead of the cursor, and
    one more, are enough. *)
Lemma gsmLoop_returns fuel : forall (buf : Buffer) i reports,
  0 <= i -> Z.max 0 (Z.of_nat (length buf) - i) < Z.of_nat fuel ->
  is_Some (gsmLoop host fuel gsmTime buf i reports).
Proof.
  induction fuel as [|fuel IH]; intros buf i reports Hi Hfuel; [lia|].
  cbn [gsmLoop]. cbv zeta.
  destruct (Z.ltb_spec i (Z.of_nat (length buf))); [|eexists; reflexivity].
  destruct (index buf (i + 1)) as [l|]; [|eexists; reflexivity].
  pose proof (u8_range l).
  destruct (negb (Z.of_nat (length (slice buf (i + 2) (i + 2 + u8 l)))
                  =? u8 l)); [eexists; reflexivity|].
  destruct (u8 l <? 24); apply IH; lia.
Qed.

(** [decodeGsmData] returns a list of reports on every batch: it neither
    runs on nor throws. *)
Lemma decodeGsmData_returns (gsmData : Buffer) :
  is_Some (decodeGsmData host gsmTime gsmData).
Proof. apply gsmLoop_returns; lia. Qed.

Lemma decodeGsmData_nil : decodeGsmData host gsmTime [] = Some [].
Proof. reflexivity. Qed.

(** One turn of the loop over a complete record at the head of the
    batch. *)
Lemma gsmLoop_step fuel t l (data rest : Buffer) reports :
  Z.of_nat (length data) = u8 l ->
  gsmLoop host (S fuel) gsmTime (t :: l :: data ++ rest) 0 reports
  = gsmLoop host fuel gsmTime rest 0
      (if u8 l <? 24 then reports
       else tryDecodeGsmDataRecord host gsmTime (Some t) data reports).
Proof.
  intros Hlen. pose proof (u8_range l).
  assert (E1 : (0 <? Z.of_nat (length (t :: l :: data ++ rest))) = true)
    by (apply Z.ltb_lt; cbn [length]; lia).
  assert (E3 : slice (t :: l :: data ++ rest) (0 + 2) (0 + 2 + u8 l) = data).
  { change (t :: l :: data ++ rest) with ([t; l] ++ (data ++ rest)).
    replace (0 + 2) with (Z.of_nat (length [t; l]) + 0) by reflexivity.
    replace (Z.of_nat (length [t; l]) + 0 + u8 l)
      with (Z.of_nat (length [t; l]) + u8 l) by lia.
    rewrite slice_app_r by lia. rewrite <- Hlen. apply slice_prefix. }
  assert (E4 : forall R,
            gsmLoop host fuel gsmTime (t :: l :: data ++ rest)
              (0 + 2 + u8 l) R
            = gsmLoop host fuel gsmTime rest 0 R).
  { intros R.
    change (t :: l :: data ++ rest) with ((t :: l :: data) ++ rest).
    replace (0 + 2 + u8 l) with (Z.of_nat (length (t :: l :: data)) + 0)
      by (cbn [length]; lia).
    apply gsmLoop_shift. lia. }
  cbn [gsmLoop]. cbv zeta. rewrite E1.
  change (index (t :: l :: data ++ rest) (0 + 1)) with (Some l).
  change (index (t :: l :: data ++ rest) 0) with (Some t).
  cbv iota. rewrite E3, Hlen, Z.eqb_refl. cbv [negb].
  destruct (u8 l <? 24); apply E4.
Qed.

(** One complete record at the head of the batch: its reports, then those
    of the rest. *)
Lemma decodeGsmData_cons t l (data rest : Buffer) :
  Z.of_nat (length data) = u8 l ->
  exists r,
    decodeGsmData host gsmTime rest = Some r
    /\ decodeGsmData host gsmTime (t :: l :: data ++ rest)
       = Some (recordReports host gsmTime t data ++ r).
Proof.
  intros Hlen.
  destruct (decodeGsmData_returns rest) as [r Hr]. exists r.
  split; [exact Hr|].
  unfold decodeGsmData. rewrite gsmLoop_step by exact Hlen.
  rewrite gsmLoop_acc.
  rewrite (gsmLoop_fuel_le (S (length rest)) _ rest 0 [] r);
    [ | cbn [length]; rewrite length_app; lia | exact Hr].
  unfold recordReports. rewrite Hlen. cbn [fmap option_fmap option_map].
  destruct (u8 l <? 24); reflexivity.
Qed.

(** A record whose declared length runs past the end of the batch ends the
    scan, and so does a record whose length byte is missing. *)
Lemma decodeGsmData_truncated t l (partial : Buffer) :
  Z.of_nat (length partial) < u8 l ->
  decodeGsmData host gsmTime (t :: l :: partial) = Some [].
Proof.
  intros Hlen. pose proof (u8_range l).
  assert (E1 : (0 <? Z.of_nat (length (t :: l :: partial))) = true)
    by (apply Z.ltb_lt; cbn [length]; lia).
  assert (E3 : (Z.of_nat (length (slice (t :: l :: partial) (0 + 2)
                                    (0 + 2 + u8 l))) =? u8 l) = false).
  { change (t :: l :: partial) with ([t; l] ++ partial).
    replace (0 + 2) with (Z.of_nat (length [t; l]) + 0) by reflexivity.
    replace (Z.of_nat (length [t; l]) + 0 + u8 l)
      with (Z.of_nat (length [t; l]) + u8 l) by lia.
    rewrite slice_app_r by lia.
    pose proof (length_slice_le partial 0 (u8 l)).
    apply Z.eqb_neq. lia. }
  unfold decodeGsmData. cbn [gsmLoop]. cbv zeta. rewrite E1.
  change (index (t :: l :: partial) (0 + 1)) with (Some l).
  cbv iota. rewrite E3. reflexivity.
Qed.

Lemma decodeGsmData_no_length t :
  decodeGsmData host gsmTime [t] = Some [].
Proof. reflexivity. Qed.

(** A batch that starts with complete records: their reports, then those of
    what follows them. *)
Lemma decodeGsmData_app (pre : Buffer) :
  Framed pre -> forall rest : Buffer,
  exists r1 r2,
    decodeGsmData host gsmTime pre = Some r1
    /\ decodeGsmData host gsmTime rest = Some r2
    /\ decodeGsmData host gsmTime (pre ++ rest) = Some (r1 ++ r2).
Proof.
  induction 1 as [|t l data pre' Hlen Hpre IH]; intros rest.
  - destruct (decodeGsmData_returns rest) as [r2 Hr2].
    exists [], r2. repeat split; [exact Hr2 | exact Hr2].
  - destruct (IH rest) as (r1 & r2 & H1 & H2 & H12).
    destruct (decodeGsmData_cons t l data pre' Hlen) as (r1' & H1' & Hc1).
    destruct (decodeGsmData_cons t l data (pre' ++ rest) Hlen)
      as (r12 & H12' & Hc12).
    rewrite H1 in H1'. injection H1' as <-.
    rewrite H12 in H12'. injection H12' as <-.
    exists (recordReports host gsmTime t data ++ r1), r2.
    split; [exact Hc1|]. split; [exact H2|].
    change ((t :: l :: data ++ pre') ++ rest)
      with (t :: l :: (data ++ pre') ++ rest).
    rewrite <- app_assoc, Hc12, app_assoc. reflexivity.
Qed.

End GsmStream.

(** ** A device model that is in neither table *)

Section Dispatch.

Variable host : Host.
Variable gsmTime : Z.

Lemma lookupDecoder_miss table (buffer : Buffer) :
  (forall b, index buffer 1 = Some b -> table !! u8 b = None) ->
  lookupDecoder table (index buffer 1) = None.
Proof.
  intros H. destruct (index buffer 1) as [b|]; [|reflexivity].
  exact (H b eq_refl).
Qed.

Lemma recordReports_miss t (data : Buffer) :
  lookupDecoder gsmDecoders (index data 1) = None ->
  decodeGsmDataRecord host gsmTime (Some t) data = Normal None
  /\ recordReports host gsmTime t data = [].
Proof.
  intros H.
  assert (Hrec : decodeGsmDataRecord host gsmTime (Some t) data = Normal None)
    by (unfold decodeGsmDataRecord; rewrite H; reflexivity).
  split; [exact Hrec|].
  unfold recordReports, tryDecodeGsmDataRecord. rewrite Hrec.
  destruct (Z.of_nat (length data) <? 24); reflexivity.
Qed.

(** The message of the error names the byte that was looked up. *)
Example decodeMsd_unsupported :
  (decodeMsd host (bytes [0x90; 0x81]) None).1
  = Throw (Error "Cannot decode iNode MSD: '129' is not a valid device model!").
Proof. reflexivity. Qed.

End Dispatch.

(** ** The model and its label *)

Lemma in_msdDecoders k d :
  msdDecoders !! k = Some d -> (k, d) ∈ msdDecoders_entries.
Proof. apply elem_of_list_to_map_2. Qed.

Lemma in_gsmDecoders k d :
  gsmDecoders !! k = Some d -> (k, d) ∈ gsmDecoders_entries.
Proof. apply elem_of_list_to_map_2. Qed.

(** No key is listed twice in either table, so that an entry is not
    overridden by another. *)
Lemma tables_keys_distinct :
  NoDup (msdDecoders_entries.*1) /\ NoDup (gsmDecoders_entries.*1).
Proof. split; apply (bool_decide_unpack _); vm_compute; reflexivity. Qed.

(** The keys of the direct table are the seventeen device models, and
    those of the GSM table are the energy meter and the eight care
    sensors. *)
Lemma tables_keys :
  msdDecoders_entries.*1
  = [0x80; 0x82; 0x88; 0x89; 0x91; 0x92; 0x93; 0x94; 0x95; 0x96; 0x9A; 0x9B;
     0xB2; 0xB3; 0xB5; 0xB6; 0xB7]
  /\ gsmDecoders_entries.*1
     = [0x82; 0x91; 0x92; 0x93; 0x94; 0x95; 0x96; 0x9A; 0x9B].
Proof. split; reflexivity. Qed.

(** Case analysis on the entry of a table that [H] speaks of. *)
Ltac each_entry H :=
  repeat match type of H with
         | _ ∈ _ :: _ =>
             apply elem_of_cons in H as [H|H]; [injection H as -> ->|]
         | _ ∈ [] => apply elem_of_nil in H; contradiction
         end.

(** A decoder of the direct table sets [model] to its own key. *)
Lemma msdDecoders_model k d :
  msdDecoders !! k = Some d ->
  forall buffer, always "model" (VInt k) (d buffer).
Proof.
  intros H%in_msdDecoders buffer. unfold msdDecoders_entries in H.
  each_entry H; always_tac.
Qed.

(** A decoder of the GSM table leaves [model] as the record path set it. *)
Lemma gsmDecoders_model k d :
  gsmDecoders !! k = Some d -> forall buffer, keeps "model" (d buffer).
Proof.
  intros H%in_gsmDecoders buffer. unfold gsmDecoders_entries in H.
  each_entry H; keeps_tac.
Qed.

Lemma msdDecoders_modelLabel k d :
  msdDecoders !! k = Some d ->
  exists label,
    label <> EmptyString
    /\ forall buffer, always "modelLabel" (VStr label) (d buffer).
Proof.
  intros H%in_msdDecoders. unfold msdDecoders_entries in H.
  each_entry H; (eexists; split; [|intros buffer; always_tac]); discriminate.
Qed.

Lemma gsmDecoders_modelLabel k d :
  gsmDecoders !! k = Some d ->
  exists label,
    label <> EmptyString
    /\ forall buffer, always "modelLabel" (VStr label) (d buffer).
Proof.
  intros H%in_gsmDecoders. unfold gsmDecoders_entries in H.
  each_entry H; (eexists; split; [|intros buffer; always_tac]); discriminate.
Qed.

(** Case analysis on the entry of a table that [H] speaks of, for a key
    that is already known. *)
Ltac each_known_entry H :=
  repeat match type of H with
         | _ ∈ _ :: _ =>
             let Hk := fresh "Hk" in
             apply elem_of_cons in H as [H|H];
             [apply pair_equal_spec in H as [Hk ->]; try discriminate Hk|]
         | _ ∈ [] => apply elem_of_nil in H; contradiction
         end.

(** The label does not depend on the table: a key of the direct table has
    one label, which is also the one its decoder in the GSM table stores,
    when it has one there. *)
Lemma tables_modelLabel k dm :
  msdDecoders !! k = Some dm ->
  exists label,
    label <> EmptyString
    /\ (forall buffer, always "modelLabel" (VStr label) (dm buffer))
    /\ (forall dg, gsmDecoders !! k = Some dg ->
          forall buffer, always "modelLabel" (VStr label) (dg buffer)).
Proof.
  intros H%in_msdDecoders. unfold msdDecoders_entries in H.
  each_entry H;
    (eexists; split;
     [|split;
       [ intros buffer; always_tac
       | intros dg Hg%in_gsmDecoders buffer;
         unfold gsmDecoders_entries in Hg; each_known_entry Hg;
         always_tac ]]);
    discriminate.
Qed.

(** Every key of the GSM table is a key of the direct table. *)
Lemma gsm_key_in_msd k dg :
  gsmDecoders !! k = Some dg -> is_Some (msdDecoders !! k).
Proof.
  intros H%in_gsmDecoders. unfold gsmDecoders_entries in H.
  each_entry H; eexists; reflexivity.
Qed.

(** C3. After a successful [decodeMsd] the [model] of the record is the
    byte at index 1 of the buffer; the record inside a report of the GSM
    record path carries as [model] the byte at index 1 of the record data;
    and each device model code has one non-empty label, the same in both
    tables, which the decoder of the code in either table has stored in
    [modelLabel] however it completes. *)
Theorem model_round_trip (host : Host) :
  (forall (buffer : Buffer) msd msd' after,
     decodeMsd host buffer msd = (Normal msd', after) ->
     exists b,
       index buffer 1 = Some b /\ msd' !! "model" = Some (VInt (u8 b)))
  /\ (forall gsmTime recordType (recordData : Buffer) report,
        decodeGsmDataRecord host gsmTime recordType recordData
        = Normal (Some report) ->
        exists b name msd',
          index recordData 1 = Some b
          /\ data report = [name; msd']
          /\ msd' !! "model" = Some (VInt (u8 b)))
  /\ (forall k,
        exists label,
          label <> EmptyString
          /\ forall table d,
               table = msdDecoders \/ table = gsmDecoders ->
               table !! k = Some d ->
               (forall (buffer : Buffer) (msd : Obj),
                  (d buffer msd).2 !! "modelLabel" = Some (VStr label))
               /\ (forall label' (buffer : Buffer) (msd : Obj),
                     (d buffer msd).2 !! "modelLabel" = Some (VStr label') ->
                     label' = label)).
Proof.
  split; [|split].
  - intros buffer msd msd' after Hrun. unfold decodeMsd in Hrun.
    destruct (index buffer 1) as [b|]; [|discriminate Hrun].
    cbn [lookupDecoder] in Hrun.
    destruct (msdDecoders !! u8 b) as [d|] eqn:Hd; [|discriminate Hrun].
    exists b. split; [reflexivity|].
    pose proof (msdDecoders_model _ _ Hd buffer) as Hmodel.
    destruct msd as [o|].
    + specialize (Hmodel o).
      destruct (d buffer o) as [[[]|e] o']; [|discriminate Hrun].
      injection Hrun as <- _. exact Hmodel.
    + destruct (readUInt16LE buffer 0) as [companyIdentifier|e];
        [|discriminate Hrun].
      match type of Hrun with
      | context [d buffer ?o] => specialize (Hmodel o);
                                 destruct (d buffer o) as [[[]|e] o']
      end; [|discriminate Hrun].
      injection Hrun as <- _. exact Hmodel.
  - intros gsmTime recordType recordData report Hrun.
    unfold decodeGsmDataRecord in Hrun.
    destruct (index recordData 1) as [b|]; [|discriminate Hrun].
    cbn [lookupDecoder] in Hrun.
    destruct (gsmDecoders !! u8 b) as [d|] eqn:Hd; [|discriminate Hrun].
    destruct (decodeGsmMacAddress recordData) as [macAddress|e];
      [|discriminate Hrun].
    destruct (readInt8 recordData (Z.of_nat (length recordData) - 4))
      as [rssi_|e]; [|discriminate Hrun].
    pose proof (gsmDecoders_model _ _ Hd recordData) as Hkeeps.
    match type of Hrun with
    | context [d recordData ?o] =>
        specialize (Hkeeps o); destruct (d recordData o) as [[[]|e] o']
    end; [|discriminate Hrun].
    injection Hrun as <-. exists b. eexists. exists o'.
    split; [reflexivity|]. split; [reflexivity|].
    cbn [snd] in Hkeeps. rewrite Hkeeps.
    cbn [list_to_map foldr curry fst snd].
    rewrite lookup_insert_ne by discriminate.
    rewrite lookup_insert_ne by discriminate.
    apply lookup_insert_eq.
  - intros k.
    assert (Hone : forall label (d : Decoder),
              (forall buffer, always "modelLabel" (VStr label) (d buffer)) ->
              (forall (buffer : Buffer) (msd : Obj),
                 (d buffer msd).2 !! "modelLabel" = Some (VStr label))
              /\ (forall label' (buffer : Buffer) (msd : Obj),
                    (d buffer msd).2 !! "modelLabel" = Some (VStr label') ->
                    label' = label)).
    { intros label d Hlabel. split.
      - intros buffer msd. exact (Hlabel buffer msd).
      - intros label' buffer msd H'. rewrite (Hlabel buffer msd) in H'.
        congruence. }
    destruct (msdDecoders !! k) as [dm|] eqn:Hdm.
    + destruct (tables_modelLabel k dm Hdm) as (label & Hne & Hm & Hg).
      exists label. split; [exact Hne|].
      intros table d [-> | ->] Hd; apply Hone.
      * pose proof (eq_trans (eq_sym Hdm) Hd) as Hsame.
        injection Hsame as <-. exact Hm.
      * exact (Hg d Hd).
    + exists "-"%string. split; [discriminate|].
      intros table d [-> | ->] Hd.
      * discriminate (eq_trans (eq_sym Hdm) Hd).
      * destruct (gsm_key_in_msd k d Hd) as [dm Hdm'].
        discriminate (eq_trans (eq_sym Hdm) Hdm').
Qed.

Lemma model_round_trip_witness :
  (exists msd' after,
     decodeMsd sampleHost (bytes [0x06; 0xB3]) None = (Normal msd', after)
     /\ msd' !! "model" = Some (VInt 0xB3))
  /\ (exists report name msd',
        decodeGsmDataRecord sampleHost 0 (Some Byte.x01) careSensor1Record
        = Normal (Some report)
        /\ data report = [name; msd']
        /\ msd' !! "model" = Some (VInt 0x91))
  /\ (exists dm dg label,
        msdDecoders !! DeviceModel.CareSensor1 = Some dm
        /\ gsmDecoders !! DeviceModel.CareSensor1 = Some dg
        /\ label <> EmptyString
        /\ (forall (buffer : Buffer) (msd : Obj),
              (dm buffer msd).2 !! "modelLabel" = Some (VStr label))
        /\ (forall (buffer : Buffer) (msd : Obj),
              (dg buffer msd).2 !! "modelLabel" = Some (VStr label))).
Proof.
  destruct (model_round_trip sampleHost) as (Hmsd & Hgsm & Hlabel).
  split; [|split].
  - destruct (decodeMsd sampleHost (bytes [0x06; 0xB3]) None)
      as [[msd'|e] after] eqn:Hrun.
    + destruct (Hmsd _ _ _ _ Hrun) as (b & Hb & Hmodel).
      vm_compute in Hb. injection Hb as <-.
      exists msd', after. split; [reflexivity | exact Hmodel].
    + exfalso. vm_compute in Hrun. discriminate Hrun.
  - destruct (decodeGsmDataRecord sampleHost 0 (Some Byte.x01)
                careSensor1Record) as [[report|]|e] eqn:Hrun.
    + destruct (Hgsm _ _ _ _ Hrun) as (b & name & msd' & Hb & Hdata & Hmodel).
      vm_compute in Hb. injection Hb as <-.
      exists report, name, msd'.
      split; [reflexivity|]. split; [exact Hdata | exact Hmodel].
    + exfalso. vm_compute in Hrun. discriminate Hrun.
    + exfalso. vm_compute in Hrun. discriminate Hrun.
  - destruct (Hlabel DeviceModel.CareSensor1) as (label & Hne & Hboth).
    eexists _, _, label.
    split; [reflexivity|]. split; [reflexivity|]. split; [exact Hne|].
    split.
    + exact (proj1 (Hboth msdDecoders _ (or_introl eq_refl) eq_refl)).
    + exact (proj1 (Hboth gsmDecoders _ (or_intror eq_refl) eq_refl)).
Defined.

(** ** The constant fields of the GSM care sensors *)

(** The decoders of models 0x94, 0x95, 0x96, 0x9A and 0x9B go through
    [decodeGsmCareSensor]: whenever they complete, the four fields are the
    constants. *)
Lemma gsmCareSensor_constants k d :
  In k [DeviceModel.CareSensor4; DeviceModel.CareSensor5;
        DeviceModel.CareSensor6; DeviceModel.CareSensorT;
        DeviceModel.CareSensorHT] ->
  gsmDecoders !! k = Some d ->
  forall buffer,
    ensures "groups" (VInt 0) (d buffer)
    /\ ensures "batteryLevel" (VInt 100) (d buffer)
    /\ ensures "batteryVoltage" (VNum 2.88) (d buffer)
    /\ ensures "signature" (VBuf (replicate 8 Byte.x00)) (d buffer).
Proof.
  intros Hk H%in_gsmDecoders buffer. unfold gsmDecoders_entries in H.
  each_entry H;
    try (exfalso; simpl in Hk;
         repeat (destruct Hk as [Hk|Hk]; [discriminate Hk|]); exact Hk);
    repeat split; ensures_tac.
Qed.

(** C9, on a record of model 0x91. The GSM decoders of models 0x91, 0x92
    and 0x93 run [decodeMsdCareSensor], not [decodeGsmCareSensor]: the
    report of this record carries groups 513 and battery level -10 read from
    the MAC bytes at 2 and 3, the voltage of that level, and the last eight
    bytes of the name as signature, where the claim has 0, 100, 2.88 and
    eight zero bytes. *)
Theorem gsm_CareSensor1_fields_from_payload :
  gsmCount sampleHost careSensor1Batch = Some 1%nat
  /\ map (gsmField sampleHost careSensor1Batch 0)
       ["model"; "groups"; "batteryLevel"; "batteryVoltage"; "signature"]
     = [ Some (VInt 0x91); Some (VInt 513); Some (VInt (-10));
         Some (VNum 1.56); Some (VBuf (bytes (replicate 8 0x41))) ].
Proof. split; vm_compute; reflexivity. Qed.

(** The same record under model 0x94 carries the constants. *)
Example gsm_CareSensor4_constants :
  let batch :=
    bytes [0x01; 32]
    ++ bytes ([0x00; 0x94; 0x01; 0x02; 0x03; 0x04; 0x05; 0x06]
              ++ replicate 16 0x41 ++ replicate 8 0x00) in
  gsmCount sampleHost batch = Some 1%nat
  /\ map (gsmField sampleHost batch 0)
       ["model"; "groups"; "batteryLevel"; "batteryVoltage"; "signature"]
     = [ Some (VInt 0x94); Some (VInt 0); Some (VInt 100);
         Some (VNum 2.88); Some (VBuf (replicate 8 Byte.x00)) ].
Proof. split; vm_compute; reflexivity. Qed.

(** ** Records cut short, end to end *)

(** A 26-byte record of model 0x9A passes the length test of the scanner
    and is decoded without an error; its temperature is NaN. *)
Example gsm_CareSensorT_short_record :
  gsmCount sampleHost careSensorTBatch = Some 1%nat
  /\ gsmField sampleHost careSensorTBatch 0 "temperature"
     = Some (VNum PrimFloat.nan).
Proof. split; vm_compute; reflexivity. Qed.

(** A decoded record, then a record declared as 30 bytes with 10 bytes
    left: the one report of the first record is returned. *)
Example gsm_truncated_after_report :
  decodeGsmData sampleHost 0
    (careSensor1Batch ++ bytes [0x01; 30; 1; 2; 3; 4; 5; 6; 7; 8; 9; 10])
  = decodeGsmData sampleHost 0 careSensor1Batch
  /\ gsmCount sampleHost careSensor1Batch = Some 1%nat.
Proof. split; vm_compute; reflexivity. Qed.

(** A record of 20 bytes is passed over and the scan goes on. *)
Example gsm_short_record_skipped :
  decodeGsmData sampleHost 0
    (bytes ([0x01; 20] ++ replicate 20 0x00) ++ careSensor1Batch)
  = decodeGsmData sampleHost 0 careSensor1Batch.
Proof. vm_compute. reflexivity. Qed.

(** * Further properties of the scanner *)

Section Scanner.

Variable host : Host.
Variable gsmTime : Z.

Lemma Framed_encodeRecords records :
  Forall completeRecord records -> Framed (encodeRecords records).
Proof.
  induction 1 as [|[[t l] data] records Hr _ IH]; [exact Framed_nil|].
  unfold encodeRecords. cbn [map concat fst snd].
  change ((t :: l :: data) ++ concat (map _ records))
    with (t :: l :: data ++ encodeRecords records).
  apply Framed_cons; [exact Hr | exact IH].
Qed.

Lemma decodeGsmData_incompleteTail tail :
  incompleteTail tail -> decodeGsmData host gsmTime tail = Some [].
Proof.
  intros [-> | [[t ->] | (t & l & partial & -> & Hlen)]].
  - reflexivity.
  - reflexivity.
  - apply decodeGsmData_truncated. exact Hlen.
Qed.

Lemma decodeGsmData_encodeRecords records :
  Forall completeRecord records ->
  decodeGsmData host gsmTime (encodeRecords records)
  = Some (concat (map (fun r : byte * byte * Buffer =>
                         recordReports host gsmTime r.1.1 r.2) records)).
Proof.
  induction 1 as [|[[t l] data] records Hr _ IH]; [reflexivity|].
  unfold encodeRecords. cbn [map concat fst snd].
  change ((t :: l :: data) ++ concat (map _ records))
    with (t :: l :: data ++ encodeRecords records).
  destruct (decodeGsmData_cons host gsmTime t l data (encodeRecords records)
              Hr) as (r & Hrest & Hcons).
  rewrite IH in Hrest. injection Hrest as <-. exact Hcons.
Qed.

(** Every batch is a sequence of complete records followed by an incomplete
    tail. *)
Lemma batch_decomposition (gsmData : Buffer) :
  exists records tail,
    gsmData = encodeRecords records ++ tail
    /\ Forall completeRecord records
    /\ incompleteTail tail.
Proof.
  remember (length gsmData) as n eqn:Hn.
  revert gsmData Hn. induction n as [n IH] using lt_wf_ind.
  intros gsmData Hn.
  destruct gsmData as [|t [|l rest]].
  - exists [], []. repeat split; [constructor | left; reflexivity].
  - exists [], [t]. repeat split; [constructor | right; left; eauto].
  - pose proof (u8_range l).
    destruct (Z_lt_le_dec (Z.of_nat (length rest)) (u8 l)) as [Hshort|Hlong].
    + exists [], (t :: l :: rest).
      repeat split; [constructor | right; right; eauto].
    + destruct (IH (length (drop (Z.to_nat (u8 l)) rest))
                  ltac:(subst n; cbn [length]; rewrite length_drop; lia)
                  (drop (Z.to_nat (u8 l)) rest) eq_refl)
        as (records & tail & Hdec & Hall & Htail).
      exists ((t, l, take (Z.to_nat (u8 l)) rest) :: records), tail.
      split; [|split; [|exact Htail]].
      * unfold encodeRecords. cbn [map concat fst snd].
        fold (encodeRecords records).
        cbn [app]. rewrite <- app_assoc, <- Hdec, take_drop. reflexivity.
      * constructor; [|exact Hall].
        unfold completeRecord. cbn [fst snd]. rewrite length_take. lia.
Qed.

(** X1. The reports of a batch are, in scan order, those of each of its
    complete records: none for a record shorter than 24 bytes, and what
    [tryDecodeGsmDataRecord] pushes otherwise. The incomplete tail gives
    nothing. Every batch is of this form. *)
Theorem decodeGsmData_by_records (gsmData : Buffer) :
  exists records tail,
    gsmData = encodeRecords records ++ tail
    /\ Forall completeRecord records
    /\ incompleteTail tail
    /\ decodeGsmData host gsmTime gsmData
       = Some (concat (map (fun r : byte * byte * Buffer =>
                              recordReports host gsmTime r.1.1 r.2) records)).
Proof.
  destruct (batch_decomposition gsmData)
    as (records & tail & Hdec & Hall & Htail).
  exists records, tail. repeat split; try assumption.
  destruct (decodeGsmData_app host gsmTime (encodeRecords records)
              (Framed_encodeRecords records Hall) tail)
    as (r1 & r2 & H1 & H2 & H12).
  rewrite decodeGsmData_encodeRecords in H1 by exact Hall.
  rewrite decodeGsmData_incompleteTail in H2 by exact Htail.
  injection H1 as <-. injection H2 as <-.
  rewrite Hdec, H12, app_nil_r. reflexivity.
Qed.

End Scanner.

(** ** A device model that is in neither table, and a record that runs
    past the end of the batch *)

Section Misses.

Variable host : Host.
Variable gsmTime : Z.

(** A batch made of complete records is the bytes of a sequence of
    records, and its reports are those of the records. *)
Lemma Framed_records (pre : Buffer) :
  Framed pre ->
  exists records,
    pre = encodeRecords records
    /\ Forall completeRecord records
    /\ decodeGsmData host gsmTime pre
       = Some (concat (map (fun r : byte * byte * Buffer =>
                              recordReports host gsmTime r.1.1 r.2) records)).
Proof.
  intros Hpre.
  assert (exists records,
            pre = encodeRecords records /\ Forall completeRecord records)
    as (records & -> & Hall).
  { induction Hpre as [|t l data rest Hlen _ (records & -> & Hall)].
    - exists []. split; [reflexivity | constructor].
    - exists ((t, l, data) :: records). split; [reflexivity|].
      constructor; [exact Hlen | exact Hall]. }
  exists records. split; [reflexivity|]. split; [exact Hall|].
  apply decodeGsmData_encodeRecords. exact Hall.
Qed.

(** C1. When the byte at index 1 is not a key of [msdDecoders] (or is
    missing), [decodeMsd] throws an [Error] and leaves the caller's object as
    it was; when the byte at index 1 of a complete GSM record is not a key of
    [gsmDecoders], the record decodes to [null], [tryDecodeGsmDataRecord]
    pushes nothing for it, and [decodeGsmData] goes on: it returns the
    reports of the records before it, each as [tryDecodeGsmDataRecord]
    gives it, followed by those of what comes after it. *)
Theorem lookup_miss_asymmetry :
  (forall (buffer : Buffer) (msd : option Obj),
     (forall b, index buffer 1 = Some b -> msdDecoders !! u8 b = None) ->
     exists message,
       decodeMsd host buffer msd = (Throw (Error message), msd))
  /\ (forall (pre : Buffer) t l (data rest : Buffer),
        Framed pre ->
        Z.of_nat (length data) = u8 l ->
        (forall b, index data 1 = Some b -> gsmDecoders !! u8 b = None) ->
        decodeGsmDataRecord host gsmTime (Some t) data = Normal None
        /\ (forall reports,
              tryDecodeGsmDataRecord host gsmTime (Some t) data reports
              = reports)
        /\ exists records before after,
             pre = encodeRecords records
             /\ Forall completeRecord records
             /\ before
                = concat (map (fun r : byte * byte * Buffer =>
                                 recordReports host gsmTime r.1.1 r.2)
                            records)
             /\ decodeGsmData host gsmTime pre = Some before
             /\ decodeGsmData host gsmTime rest = Some after
             /\ decodeGsmData host gsmTime (pre ++ t :: l :: data ++ rest)
                = Some (before ++ after)).
Proof.
  split.
  - intros buffer msd Hmiss. unfold decodeMsd.
    rewrite (lookupDecoder_miss _ _ Hmiss). eexists. reflexivity.
  - intros pre t l data rest Hpre Hlen Hmiss.
    destruct (recordReports_miss host gsmTime t data
                (lookupDecoder_miss _ _ Hmiss)) as [Hrec Hnone].
    split; [exact Hrec|].
    split; [intros reports; unfold tryDecodeGsmDataRecord; rewrite Hrec;
            reflexivity|].
    destruct (Framed_records pre Hpre) as (records & Hrecords & Hall & Hrun).
    destruct (decodeGsmData_app host gsmTime pre Hpre
                (t :: l :: data ++ rest)) as (before & r & H1 & H2 & H12).
    destruct (decodeGsmData_cons host gsmTime t l data rest Hlen)
      as (after & Hafter & Hcons).
    rewrite Hnone in Hcons. rewrite Hcons in H2. injection H2 as <-.
    exists records, before, after.
    split; [exact Hrecords|]. split; [exact Hall|].
    split; [rewrite Hrun in H1; injection H1 as <-; reflexivity|].
    repeat split; assumption.
Qed.

(** C2. When the length byte of a record declares more bytes than are left
    after it, the scan stops there: whatever the bytes that are left,
    [decodeGsmData] returns a list, without throwing, and the list is
    exactly the reports of the complete records before it, each as
    [tryDecodeGsmDataRecord] gives it. *)
Theorem truncation_keeps_earlier_reports
    (pre : Buffer) t l (partial : Buffer) :
  Framed pre ->
  Z.of_nat (length partial) < u8 l ->
  exists records reports,
    pre = encodeRecords records
    /\ Forall completeRecord records
    /\ reports
       = concat (map (fun r : byte * byte * Buffer =>
                        recordReports host gsmTime r.1.1 r.2) records)
    /\ decodeGsmData host gsmTime pre = Some reports
    /\ decodeGsmData host gsmTime (pre ++ t :: l :: partial) = Some reports.
Proof.
  intros Hpre Hlen.
  destruct (Framed_records pre Hpre) as (records & Hrecords & Hall & Hrun).
  destruct (decodeGsmData_app host gsmTime pre Hpre (t :: l :: partial))
    as (before & r & H1 & H2 & H12).
  rewrite decodeGsmData_truncated in H2 by exact Hlen. injection H2 as <-.
  rewrite app_nil_r in H12. exists records, before.
  split; [exact Hrecords|]. split; [exact Hall|].
  split; [rewrite Hrun in H1; injection H1 as <-; reflexivity|].
  split; assumption.
Qed.

End Misses.

(** The batch of one care sensor record is made of complete records and
    decodes to one report, which carries the label of its model. *)
Lemma careSensor1Batch_Framed : Framed careSensor1Batch.
Proof.
  exact (Framed_cons Byte.x01 Byte.x18 careSensor1Record [] eq_refl
           Framed_nil).
Qed.

Lemma careSensor1Batch_report :
  gsmCount sampleHost careSensor1Batch = Some 1%nat
  /\ gsmField sampleHost careSensor1Batch 0 "modelLabel"
     = Some (VStr "iNode Care Sensor #1").
Proof. split; vm_compute; reflexivity. Qed.

Lemma lookup_miss_asymmetry_witness :
  ((forall b, index (bytes [0x90; 0x81]) 1 = Some b ->
              msdDecoders !! u8 b = None)
   /\ Framed careSensor1Batch
   /\ Z.of_nat (length unknownModelRecord) = u8 Byte.x18
   /\ (forall b, index unknownModelRecord 1 = Some b ->
                 gsmDecoders !! u8 b = None))
  /\ (exists message,
        decodeMsd sampleHost (bytes [0x90; 0x81]) None
        = (Throw (Error message), None))
  /\ decodeGsmDataRecord sampleHost 0 (Some Byte.x01) unknownModelRecord
     = Normal None
  /\ gsmCount sampleHost
       (careSensor1Batch
        ++ Byte.x01 :: Byte.x18 :: unknownModelRecord ++ careSensor1Batch)
     = Some 2%nat
  /\ gsmField sampleHost
       (careSensor1Batch
        ++ Byte.x01 :: Byte.x18 :: unknownModelRecord ++ careSensor1Batch)
       1 "modelLabel"
     = Some (VStr "iNode Care Sensor #1").
Proof.
  assert (Hmsd : forall b, index (bytes [0x90; 0x81]) 1 = Some b ->
                           msdDecoders !! u8 b = None)
    by (intros b [= <-]; reflexivity).
  assert (Hgsm : forall b, index unknownModelRecord 1 = Some b ->
                           gsmDecoders !! u8 b = None)
    by (intros b [= <-]; reflexivity).
  split; [split; [exact Hmsd | split; [exact careSensor1Batch_Framed
                                     | split; [reflexivity | exact Hgsm]]]|].
  destruct (lookup_miss_asymmetry sampleHost 0) as [Hdirect Hscan].
  split; [exact (Hdirect (bytes [0x90; 0x81]) None Hmsd)|].
  destruct (Hscan careSensor1Batch Byte.x01 Byte.x18 unknownModelRecord
              careSensor1Batch careSensor1Batch_Framed eq_refl Hgsm)
    as (Hnull & _ & records & before & after & _ & _ & _
        & Hbefore & Hafter & Hall).
  split; [exact Hnull|].
  destruct careSensor1Batch_report as [Hcount Hfield].
  unfold gsmCount, gsmField in *. rewrite Hall.
  pose proof Hcount as Hcount'. rewrite Hbefore in Hcount.
  rewrite Hafter in Hcount', Hfield.
  cbn [fmap option_fmap option_map] in *.
  injection Hcount as Hone. injection Hcount' as Hone'.
  destruct before as [|r0 [|? ?]]; try discriminate Hone.
  split; [rewrite length_app, Hone'; reflexivity|].
  destruct after as [|r1 after]; [discriminate Hone'|].
  exact Hfield.
Defined.

Lemma truncation_keeps_earlier_reports_witness :
  (Framed careSensor1Batch
   /\ Z.of_nat (length (bytes [1; 2; 3; 4; 5; 6; 7; 8; 9; 10])) < u8 Byte.x1e)
  /\ gsmCount sampleHost
       (careSensor1Batch
        ++ Byte.x01 :: Byte.x1e :: bytes [1; 2; 3; 4; 5; 6; 7; 8; 9; 10])
     = Some 1%nat
  /\ gsmField sampleHost
       (careSensor1Batch
        ++ Byte.x01 :: Byte.x1e :: bytes [1; 2; 3; 4; 5; 6; 7; 8; 9; 10])
       0 "modelLabel"
     = Some (VStr "iNode Care Sensor #1").
Proof.
  assert (Hl : Z.of_nat (length (bytes [1; 2; 3; 4; 5; 6; 7; 8; 9; 10]))
               < u8 Byte.x1e) by reflexivity.
  split; [split; [exact careSensor1Batch_Framed | exact Hl]|].
  destruct (truncation_keeps_earlier_reports sampleHost 0 careSensor1Batch
              Byte.x01 Byte.x1e (bytes [1; 2; 3; 4; 5; 6; 7; 8; 9; 10])
              careSensor1Batch_Framed Hl)
    as (records & reports & _ & _ & _ & Hpre & Hall).
  destruct careSensor1Batch_report as [Hcount Hfield].
  unfold gsmCount, gsmField in *. rewrite Hall.
  rewrite Hpre in Hcount, Hfield.
  split; [exact Hcount | exact Hfield].
Defined.

(** ** Records that give no report *)

Section SilentRecords.

Variable host : Host.
Variable gsmTime : Z.




Lemma recordReports_length t (data : Buffer) :
  (26 * length (recordReports host gsmTime t data) <= 2 + length data)%nat.
Proof.
  unfold recordReports, tryDecodeGsmDataRecord.
  destruct (Z.ltb_spec (Z.of_nat (length data)) 24); [simpl; lia|].
  destruct (decodeGsmDataRecord host gsmTime (Some t) data) as [[report|]|e];
    simpl; lia.
Qed.

(** X4. A batch gives at most one report for every 26 of its bytes (the
    two header bytes and the 24 bytes a decoded record has at least). *)
Theorem decodeGsmData_report_count (gsmData : Buffer) reports :
  decodeGsmData host gsmTime gsmData = Some reports ->
  (26 * length reports <= length gsmData)%nat.
Proof.
  intros Hrun.
  destruct (batch_decomposition gsmData)
    as (records & tail & Hdec & Hall & Htail).
  destruct (decodeGsmData_app host gsmTime (encodeRecords records)
              (Framed_encodeRecords records Hall) tail)
    as (r1 & r2 & H1 & H2 & H12).
  rewrite decodeGsmData_encodeRecords in H1 by exact Hall.
  rewrite decodeGsmData_incompleteTail in H2 by exact Htail.
  injection H1 as <-. injection H2 as <-.
  rewrite <- Hdec, Hrun, app_nil_r in H12. injection H12 as ->.
  rewrite Hdec, length_app.
  enough (26 * length (concat (map (fun r : byte * byte * Buffer =>
                          recordReports host gsmTime r.1.1 r.2) records))
          <= length (encodeRecords records))%nat by lia.
  clear. induction records as [|[[t l] data] records IH]; [simpl; lia|].
  unfold encodeRecords in *. cbn [map concat fst snd].
  rewrite !length_app. cbn [length].
  pose proof (recordReports_length t data). lia.
Qed.

End SilentRecords.


(** * Further properties of the decoders *)

(** ** How a computation completes *)

Section Completions.

Context {A B : Type}.
Implicit Types (m : M A) (f : A -> M B).

Lemma succeeds_ret (a : A) : succeeds (ret a).
Proof. intros o. eexists _, _. reflexivity. Qed.

Lemma succeeds_lift (c : Completion A) :
  (exists a, c = Normal a) -> succeeds (lift c).
Proof. intros [a ->] o. eexists _, _. reflexivity. Qed.

Lemma succeeds_bind m f :
  succeeds m -> (forall a, succeeds (f a)) -> succeeds (bind m f).
Proof.
  intros Hm Hf o. unfold bind.
  destruct (Hm o) as (a & o1 & ->). exact (Hf a o1).
Qed.

Lemma succeeds_if (b : bool) (m1 m2 : M A) :
  (b = true -> succeeds m1) -> (b = false -> succeeds m2) ->
  succeeds (if b then m1 else m2).
Proof. destruct b; auto. Qed.

Lemma definite_succeeds m : succeeds m -> definite m.
Proof. intros H o. left. exact (H o). Qed.

Lemma definite_lift (c : Completion A) :
  (exists a, c = Normal a) \/ c = Throw RangeError -> definite (lift c).
Proof.
  intros [[a ->] | ->] o; [left; eexists _, _ | right; eexists]; reflexivity.
Qed.

Lemma definite_bind m f :
  definite m -> (forall a, definite (f a)) -> definite (bind m f).
Proof.
  intros Hm Hf o. unfold bind.
  destruct (Hm o) as [(a & o1 & ->) | (o1 & ->)]; [exact (Hf a o1)|].
  right. eexists. reflexivity.
Qed.

Lemma definite_if (b : bool) (m1 m2 : M A) :
  definite m1 -> definite m2 -> definite (if b then m1 else m2).
Proof. destruct b; trivial. Qed.

Lemma throwsRange_lift :
  throwsRange (lift (A := A) (Throw RangeError)).
Proof. intros o. eexists. reflexivity. Qed.

Lemma throwsRange_bind_l m f : throwsRange m -> throwsRange (bind m f).
Proof.
  intros Hm o. unfold bind. destruct (Hm o) as (o1 & ->).
  eexists. reflexivity.
Qed.

Lemma throwsRange_bind_r m f :
  definite m -> (forall a, throwsRange (f a)) -> throwsRange (bind m f).
Proof.
  intros Hm Hf o. unfold bind.
  destruct (Hm o) as [(a & o1 & ->) | (o1 & ->)]; [exact (Hf a o1)|].
  eexists. reflexivity.
Qed.

Lemma throwsRange_if (b : bool) (m1 m2 : M A) :
  (b = true -> throwsRange m1) -> (b = false -> throwsRange m2) ->
  throwsRange (if b then m1 else m2).
Proof. destruct b; auto. Qed.

Lemma succeeds_not_throws m : succeeds m -> throwsRange m -> False.
Proof.
  intros Hs Ht. destruct (Hs ∅) as (a & o1 & H1).
  destruct (Ht ∅) as (o2 & H2). congruence.
Qed.

End Completions.

Lemma succeeds_assign key v : succeeds (assign key v).
Proof. intros o. eexists _, _. reflexivity. Qed.

(** The alarm primitive completes normally when it does not read the
    extended word or reads it inside the buffer, and throws a RangeError
    otherwise. *)
Lemma decodeAlarms_succeeds (buffer : Buffer) batteryI extendedI :
  extendedI = -1
  \/ (0 <= extendedI /\ extendedI + 2 <= Z.of_nat (length buffer)) ->
  succeeds (decodeAlarms buffer batteryI extendedI).
Proof.
  intros He o. unfold decodeAlarms, bind.
  destruct (Z.eqb_spec extendedI (-1)) as [->|Hne].
  - cbv [ret assign negb]. eexists _, _. reflexivity.
  - destruct He as [He|[H0 H2]]; [contradiction|].
    destruct (readUInt16LE_inside buffer extendedI H0 H2) as [w Hw].
    unfold lift. rewrite Hw. cbv [assign negb objectAssign].
    rewrite lookup_insert_eq. eexists _, _. reflexivity.
Qed.

Lemma decodeAlarms_throws (buffer : Buffer) batteryI extendedI :
  extendedI <> -1 ->
  extendedI < 0 \/ Z.of_nat (length buffer) < extendedI + 2 ->
  throwsRange (decodeAlarms buffer batteryI extendedI).
Proof.
  intros Hne He o. unfold decodeAlarms, bind.
  destruct (Z.eqb_spec extendedI (-1)) as [?|_]; [contradiction|].
  unfold lift. rewrite (readUInt16LE_outside buffer extendedI He).
  eexists. reflexivity.
Qed.

Lemma decodeAlarms_definite (buffer : Buffer) batteryI extendedI :
  definite (decodeAlarms buffer batteryI extendedI).
Proof.
  destruct (Z.eq_dec extendedI (-1)) as [He|Hne].
  - apply definite_succeeds, decodeAlarms_succeeds. left. exact He.
  - destruct (Z_lt_le_dec extendedI 0) as [Hneg|Hpos].
    + intros o. right. apply decodeAlarms_throws; [exact Hne | lia].
    + destruct (Z_lt_le_dec (Z.of_nat (length buffer)) (extendedI + 2)).
      * intros o. right. apply decodeAlarms_throws; [exact Hne | lia].
      * apply definite_succeeds, decodeAlarms_succeeds. right. lia.
Qed.

(** The steps of a recipe, the alarm primitive apart (it has its own
    lemmas). *)
Ltac unfold_steps :=
  unfold decodeMsdCareSensor, decodeGsmCareSensor, runStep,
    decodeInput, decodeOutput, decodeRtto, decodeMagneticFieldDirection,
    decodeGroups, decodeBatteryLevel, decodeEnergyMeter,
    decodeMotionSensor, decodeCsrTemperature, decodeMcp9844Temperature,
    decodeSi7021Temperature, decodeSi7021Humidity, decodeMagneticField,
    decodeTime, decodeSignature;
  cbv beta iota zeta.

(** Turn a test on the length of the buffer into an inequality. *)
Ltac length_test H :=
  first [ apply Z.leb_le in H | apply Z.leb_gt in H
        | apply Z.ltb_lt in H | apply Z.ltb_ge in H | idtac ].

Ltac succeeds_tac :=
  unfold_steps;
  lazymatch goal with
  | |- succeeds (ret _) => apply succeeds_ret
  | |- succeeds (assign _ _) => apply succeeds_assign
  | |- succeeds (lift (readUInt16LE _ _)) =>
      apply succeeds_lift, readUInt16LE_inside; lia
  | |- succeeds (lift (readUInt32LE _ _)) =>
      apply succeeds_lift, readUInt32LE_inside; lia
  | |- succeeds (decodeAlarms _ _ _) =>
      apply decodeAlarms_succeeds; first [left; reflexivity | right; lia]
  | |- succeeds (bind _ _) =>
      apply succeeds_bind; [succeeds_tac | intros ?; succeeds_tac]
  | |- succeeds (if _ then _ else _) =>
      apply succeeds_if;
      (let H := fresh "Htest" in intros H; length_test H; succeeds_tac)
  end.

Ltac definite_tac :=
  unfold_steps;
  lazymatch goal with
  | |- definite (ret _) => apply definite_succeeds, succeeds_ret
  | |- definite (assign _ _) => apply definite_succeeds, succeeds_assign
  | |- definite (lift (readUInt16LE _ _)) =>
      apply definite_lift, readUInt16LE_definite
  | |- definite (lift (readUInt32LE _ _)) =>
      apply definite_lift, readUInt32LE_definite
  | |- definite (decodeAlarms _ _ _) => apply decodeAlarms_definite
  | |- definite (bind _ _) =>
      apply definite_bind; [definite_tac | intros ?; definite_tac]
  | |- definite (if _ then _ else _) => apply definite_if; definite_tac
  end.

(** The read that is out of the buffer is looked for as far down the recipe
    as possible: what comes before it completes one way or the other. *)
Ltac throws_tac :=
  unfold_steps;
  lazymatch goal with
  | |- throwsRange (lift (readUInt16LE _ _)) =>
      rewrite readUInt16LE_outside by lia; apply throwsRange_lift
  | |- throwsRange (lift (readUInt32LE _ _)) =>
      rewrite readUInt32LE_outside by lia; apply throwsRange_lift
  | |- throwsRange (decodeAlarms _ _ _) =>
      apply decodeAlarms_throws; [discriminate | lia]
  | |- throwsRange (bind _ _) =>
      first [ apply throwsRange_bind_r;
                [solve [definite_tac] | intros ?; throws_tac]
            | apply throwsRange_bind_l; throws_tac ]
  | |- throwsRange (if _ then _ else _) =>
      apply throwsRange_if;
      (let H := fresh "Htest" in intros H; length_test H; throws_tac)
  end.

(** ** What [decodeMsd] makes of the decoder it runs *)

Section DirectDecode.

Variable host : Host.

Lemma readUInt16LE_header (buffer : Buffer) b :
  index buffer 1 = Some b ->
  exists companyIdentifier, readUInt16LE buffer 0 = Normal companyIdentifier.
Proof.
  intros Hb%index_Some_inside. apply readUInt16LE_inside; lia.
Qed.

(** The object the decoder is run on: the caller's, or a fresh container
    with the word at offset 0 as company identifier. *)
Lemma decodeMsd_runs_decoder (buffer : Buffer) msd b (d : Decoder) :
  index buffer 1 = Some b ->
  msdDecoders !! u8 b = Some d ->
  exists container,
    match msd with
    | Some o => container = o
    | None =>
        exists companyIdentifier,
          readUInt16LE buffer 0 = Normal companyIdentifier
          /\ container = freshMsd host companyIdentifier
    end
    /\ decodeMsd host buffer msd
       = (match (d buffer container).1 with
          | Normal _ => Normal (d buffer container).2
          | Throw e => Throw e
          end,
          match msd with
          | Some _ => Some (d buffer container).2
          | None => None
          end).
Proof.
  intros Hb Hd. unfold decodeMsd. cbv zeta. rewrite Hb.
  unfold lookupDecoder. rewrite Hd. destruct msd as [o|].
  - exists o. split; [reflexivity|].
    destruct (d buffer o) as [[[]|e] o']; reflexivity.
  - destruct (readUInt16LE_header buffer b Hb) as [companyIdentifier Hc].
    rewrite Hc. exists (freshMsd host companyIdentifier).
    split; [eauto|]. unfold freshMsd.
    destruct (d buffer _) as [[[]|e] o']; reflexivity.
Qed.

Lemma msdDecoders_is_Some k :
  In k (msdDecoders_entries.*1) -> is_Some (msdDecoders !! k).
Proof.
  intros Hk. destruct (msdDecoders !! k) as [d|] eqn:Hd; [eauto|].
  apply not_elem_of_list_to_map in Hd. apply list_elem_of_In in Hk.
  contradiction.
Qed.

End DirectDecode.

(** ** The models that read only the first byte *)

Lemma firstByte_check_all : forall_bits 8 0 firstByte_check = true.
Proof. vm_compute. reflexivity. Qed.

Lemma firstByte_flags v :
  Js.truthy (Js.and (int_of v) 0x02) = Z.testbit (int_of v) 1
  /\ Js.truthy (Js.and (Js.or 0 (Js.and (Js.shl (int_of v) 13) 0x8000))
                  0x8000) = Z.testbit (int_of v) 2
  /\ Js.truthy (Js.and (int_of v) 0x08) = Z.testbit (int_of v) 3
  /\ Js.truthy (Js.and (int_of v) 0x01) = Z.testbit (int_of v) 0.
Proof.
  pose proof (byte_cases _ firstByte_check_all _ (int_of_range v)) as H.
  unfold firstByte_check in H.
  repeat (apply andb_true_iff in H as [H ?%Bool.eqb_prop]).
  apply Bool.eqb_prop in H. auto.
Qed.

(** The alarm primitive as the recipes of the plain models call it. *)
Ltac norm_alarms :=
  unfold decodeAlarms;
  change (-1 =? -1) with true; change (0 =? -1) with false;
  change (4 =? -1) with false; change (24 =? -1) with false;
  cbv [negb]; cbv beta iota zeta.

Lemma plain_decoders k (d : Decoder) :
  In k plainModels ->
  msdDecoders !! k = Some d ->
  forall buffer,
    succeeds (d buffer)
    /\ always "rtto" (VBool (Z.testbit (int_of (index buffer 0)) 1))
         (d buffer)
    /\ always "alarms"
         (VObj {[ "lowBattery" :=
                    VBool (Z.testbit (int_of (index buffer 0)) 2) ]})
         (d buffer).
Proof.
  intros Hk H%in_msdDecoders buffer. unfold msdDecoders_entries in H.
  destruct (firstByte_flags (index buffer 0)) as (Hrtto & Hlow & _ & _).
  rewrite <- Hrtto, <- Hlow.
  each_entry H;
    try (exfalso; simpl in Hk;
         repeat (destruct Hk as [Hk|Hk]; [discriminate Hk|]); exact Hk);
    (split; [succeeds_tac|]);
    split; unfold_steps; norm_alarms; always_tac.
Qed.

(** X5. For the eight models whose recipe reads only the first byte
    (beacon, control id, nav, control point, care relay, the two
    transceivers and GSM) [decodeMsd] never throws: it returns a record
    whose [rtto] is bit 1 and whose only alarm, [lowBattery], is bit 2 of
    the byte at index 0. *)
Theorem plain_models_never_throw (host : Host) (buffer : Buffer) msd b :
  index buffer 1 = Some b ->
  In (u8 b) plainModels ->
  exists msd',
    (decodeMsd host buffer msd).1 = Normal msd'
    /\ msd' !! "model" = Some (VInt (u8 b))
    /\ msd' !! "rtto" = Some (VBool (Z.testbit (int_of (index buffer 0)) 1))
    /\ msd' !! "alarms"
       = Some (VObj {[ "lowBattery" :=
                         VBool (Z.testbit (int_of (index buffer 0)) 2) ]}).
Proof.
  intros Hb Hk.
  destruct (msdDecoders_is_Some (u8 b)) as [d Hd].
  { rewrite (proj1 tables_keys). unfold plainModels in Hk.
    simpl in Hk |- *. tauto. }
  destruct (plain_decoders _ d Hk Hd buffer) as (Hs & Hrtto & Halarms).
  pose proof (msdDecoders_model _ _ Hd buffer) as Hmodel.
  destruct (decodeMsd_runs_decoder host buffer msd b d Hb Hd)
    as (container & _ & ->).
  destruct (Hs container) as ([] & o' & Hrun).
  specialize (Hrtto container). specialize (Halarms container).
  specialize (Hmodel container).
  rewrite Hrun in *. cbn [fst snd] in *.
  exists o'. repeat split; assumption.
Qed.

Lemma plain_models_never_throw_witness :
  (index (bytes [0x06; 0xB3]) 1 = Some Byte.xb3
   /\ In (u8 Byte.xb3) plainModels)
  /\ exists msd',
       (decodeMsd sampleHost (bytes [0x06; 0xB3]) None).1 = Normal msd'
       /\ msd' !! "rtto" = Some (VBool true).
Proof.
  assert (Hk : In (u8 Byte.xb3) plainModels)
    by (do 4 right; left; reflexivity).
  split; [split; [reflexivity | exact Hk]|].
  destruct (plain_models_never_throw sampleHost (bytes [0x06; 0xB3]) None
              Byte.xb3 eq_refl Hk) as (msd' & Hrun & _ & Hrtto & _).
  exists msd'. split; [exact Hrun | exact Hrtto].
Defined.

(** ** The care sensors in an advertisement *)

Lemma careSensor_decoders k (d : Decoder) :
  In k careSensorModels ->
  msdDecoders !! k = Some d ->
  forall buffer : Buffer,
    (16 <= Z.of_nat (length buffer) -> succeeds (d buffer))
    /\ (Z.of_nat (length buffer) < 16 -> throwsRange (d buffer))
    /\ ensures "signature" (VBuf (slice buffer 16 (16 + 8))) (d buffer).
Proof.
  intros Hk H%in_msdDecoders buffer. unfold msdDecoders_entries in H.
  each_entry H;
    try (exfalso; simpl in Hk;
         repeat (destruct Hk as [Hk|Hk]; [discriminate Hk|]); exact Hk);
    (split; [intros Hlen; succeeds_tac|]);
    (split; [intros Hlen; throws_tac | ensures_tac]).
Qed.

Lemma length_slice_inside (buffer : Buffer) a b :
  0 <= a <= b ->
  Z.of_nat (length (slice buffer a b))
  = Z.max 0 (Z.min b (Z.of_nat (length buffer))
             - Z.min a (Z.of_nat (length buffer))).
Proof.
  intros Hab. unfold slice. cbv zeta.
  destruct (Z.ltb_spec a 0); [lia|]. destruct (Z.ltb_spec b 0); [lia|].
  rewrite length_take, length_drop. lia.
Qed.

(** X6. A care sensor advertisement (models 0x91 to 0x96, 0x9A, 0x9B) is
    decoded by [decodeMsd] exactly when it has at least 16 bytes: then the
    result is a record whose [signature] is [buffer.slice(16, 24)], which
    has eight bytes only from 24 bytes on and is empty at 16; a shorter
    buffer makes it throw a RangeError. *)
Theorem care_sensor_needs_16_bytes (host : Host) (buffer : Buffer) msd b :
  index buffer 1 = Some b ->
  In (u8 b) careSensorModels ->
  if 16 <=? Z.of_nat (length buffer) then
    exists msd' signature,
      (decodeMsd host buffer msd).1 = Normal msd'
      /\ msd' !! "signature" = Some (VBuf signature)
      /\ signature = slice buffer 16 24
      /\ Z.of_nat (length signature)
         = Z.min 8 (Z.of_nat (length buffer) - 16)
  else (decodeMsd host buffer msd).1 = Throw RangeError.
Proof.
  intros Hb Hk.
  destruct (msdDecoders_is_Some (u8 b)) as [d Hd].
  { rewrite (proj1 tables_keys). unfold careSensorModels in Hk.
    simpl in Hk |- *. tauto. }
  destruct (careSensor_decoders _ d Hk Hd buffer) as (Hs & Ht & Hsig).
  destruct (decodeMsd_runs_decoder host buffer msd b d Hb Hd)
    as (container & _ & ->).
  destruct (16 <=? Z.of_nat (length buffer)) eqn:Hlen.
  - apply Z.leb_le in Hlen.
    destruct (Hs Hlen container) as ([] & o' & Hrun).
    specialize (Hsig container tt o' Hrun).
    rewrite Hrun. cbn [fst snd]. exists o', (slice buffer 16 24).
    split; [reflexivity|]. split; [exact Hsig|]. split; [reflexivity|].
    rewrite length_slice_inside by lia. lia.
  - apply Z.leb_gt in Hlen.
    destruct (Ht Hlen container) as (o' & Hrun).
    rewrite Hrun. reflexivity.
Qed.

Lemma care_sensor_needs_16_bytes_witness :
  (index (bytes [0x00; 0x9A; 0x00]) 1 = Some Byte.x9a
   /\ In (u8 Byte.x9a) careSensorModels)
  /\ (decodeMsd sampleHost (bytes [0x00; 0x9A; 0x00]) None).1
     = Throw RangeError.
Proof.
  assert (Hk : In (u8 Byte.x9a) careSensorModels)
    by (do 6 right; left; reflexivity).
  split; [split; [reflexivity | exact Hk]|].
  exact (care_sensor_needs_16_bytes sampleHost (bytes [0x00; 0x9A; 0x00])
           None Byte.x9a eq_refl Hk).
Defined.

(** ** The record decoder of the GSM stream *)

Lemma decodeGsmMacAddress_long (buffer : Buffer) :
  8 <= Z.of_nat (length buffer) ->
  exists macAddress,
    decodeGsmMacAddress buffer = Normal macAddress
    /\ String.length macAddress = 17%nat.
Proof.
  intros Hlen.
  destruct buffer as [|b0 [|b1 [|b2 [|b3 [|b4 [|b5 [|b6 [|b7 rest]]]]]]]];
    cbn [length] in Hlen; try lia.
  unfold decodeGsmMacAddress. cbn [macLoop].
  change (2 <=? 7) with true. change (2 <=? 7 - 1) with true.
  change (2 <=? 7 - 1 - 1) with true. change (2 <=? 7 - 1 - 1 - 1) with true.
  change (2 <=? 7 - 1 - 1 - 1 - 1) with true.
  change (2 <=? 7 - 1 - 1 - 1 - 1 - 1) with true. cbv iota.
  rewrite (macPart_hex2 _ 7 b7) by reflexivity.
  rewrite (macPart_hex2 _ (7 - 1) b6) by reflexivity.
  rewrite (macPart_hex2 _ (7 - 1 - 1) b5) by reflexivity.
  rewrite (macPart_hex2 _ (7 - 1 - 1 - 1) b4) by reflexivity.
  rewrite (macPart_hex2 _ (7 - 1 - 1 - 1 - 1) b3) by reflexivity.
  rewrite (macPart_hex2 _ (7 - 1 - 1 - 1 - 1 - 1) b2) by reflexivity.
  eexists. split; reflexivity.
Qed.

Lemma decodeGsmMacAddress_throws (buffer : Buffer) :
  Z.of_nat (length buffer) < 8 -> decodeGsmMacAddress buffer = Throw TypeError.
Proof.
  intros Hlen. unfold decodeGsmMacAddress. cbn [macLoop].
  change (2 <=? 7) with true. cbv iota.
  unfold macPart at 1. rewrite index_outside by lia. reflexivity.
Qed.

Lemma readInt8_inside (buffer : Buffer) i :
  0 <= i < Z.of_nat (length buffer) ->
  exists r, readInt8 buffer i = Normal r /\ -128 <= r <= 127.
Proof.
  intros Hi. unfold readInt8.
  destruct (index_inside buffer i Hi) as [b ->].
  eexists. split; [reflexivity|].
  destruct b; split; apply Z.leb_le; vm_compute; reflexivity.
Qed.

Lemma stripNul_noNul (s : string) : noNul (stripNul s).
Proof.
  induction s as [|c s IH]; [exact I|]. cbn [stripNul].
  destruct (Ascii.eqb_spec c Ascii.zero) as [->|Hc]; [exact IH|].
  split; [exact Hc | exact IH].
Qed.

Lemma gsmDecoders_type k d :
  gsmDecoders !! k = Some d ->
  forall buffer, keeps "type" (d buffer).
Proof.
  intros H%in_gsmDecoders buffer. unfold gsmDecoders_entries in H.
  each_entry H; keeps_tac.
Qed.

Lemma length_slice_tail (buffer : Buffer) :
  Z.of_nat (length (slice buffer 0 (-6)))
  = Z.max (Z.of_nat (length buffer) - 6) 0.
Proof.
  unfold slice. change (0 <? 0) with false. change (-6 <? 0) with true.
  cbv beta iota zeta. rewrite length_take, length_drop. lia.
Qed.

(** Evaluate the least length of the model at hand in [H]. *)
Ltac eval_minLength H :=
  lazymatch type of H with
  | context [gsmMinLength ?k] =>
      let v := eval vm_compute in (gsmMinLength k) in
      change (gsmMinLength k) with v in H
  end.

Lemma gsmDecoders_complete k (d : Decoder) :
  gsmDecoders !! k = Some d ->
  forall buffer : Buffer,
    (gsmMinLength k <= Z.of_nat (length buffer) -> succeeds (d buffer))
    /\ (Z.of_nat (length buffer) < gsmMinLength k -> throwsRange (d buffer)).
Proof.
  intros H%in_gsmDecoders buffer. unfold gsmDecoders_entries in H.
  pose proof (length_slice_tail buffer) as Htail.
  each_entry H;
    (split; intros Hlen; eval_minLength Hlen;
     set (tail := slice buffer 0 (-6)) in *;
     [succeeds_tac | throws_tac]).
Qed.

Section Records.

Variable host : Host.
Variable gsmTime : Z.

(** A record of eight bytes or more whose model has a decoder: the address
    and the signal strength are found, and the outcome is that of the
    decoder run on the fresh container. *)
Lemma decodeGsmDataRecord_runs t (data : Buffer) b (d : Decoder) :
  8 <= Z.of_nat (length data) ->
  index data 1 = Some b ->
  gsmDecoders !! u8 b = Some d ->
  exists macAddress rssi_,
    String.length macAddress = 17%nat
    /\ -128 <= rssi_ <= 127
    /\ decodeGsmDataRecord host gsmTime t data
       = match d data (list_to_map
                         [ ("type", ManufacturerSpecificData host);
                           ("typeLabel", ManufacturerSpecificDataLabel host);
                           ("model", value_of (Some b));
                           ("modelLabel", VNull) ]) with
         | (Throw e, _) => Throw e
         | (Normal _, msd') =>
             Normal (Some {|
               eventType := AdvInd host;
               eventTypeLabel := AdvIndLabel host;
               addressType := Public host;
               addressTypeLabel := PublicLabel host;
               address := macAddress;
               length_ := -1;
               data :=
                 [ list_to_map
                     [ ("type", LocalNameComplete host);
                       ("typeLabel", LocalNameCompleteLabel host);
                       ("value",
                        VStr (stripNul (toString host (slice data 8 24)))) ];
                   msd' ];
               rssi := rssi_ |})
         end.
Proof.
  intros Hlen Hb Hd.
  destruct (decodeGsmMacAddress_long data Hlen) as (macAddress & Hmac & H17).
  destruct (readInt8_inside data (Z.of_nat (length data) - 4))
    as (rssi_ & Hrssi & Hrange); [lia|].
  exists macAddress, rssi_. split; [exact H17|]. split; [exact Hrange|].
  unfold decodeGsmDataRecord. cbv zeta. rewrite Hb. unfold lookupDecoder.
  rewrite Hd, Hmac, Hrssi. reflexivity.
Qed.

Lemma decodeGsmDataRecord_report t (record : Buffer) report :
  8 <= Z.of_nat (length record) ->
  decodeGsmDataRecord host gsmTime t record = Normal (Some report) ->
  wellShaped host report.
Proof.
  intros Hlen Hrun.
  destruct (index record 1) as [b|] eqn:Hb;
    [|unfold decodeGsmDataRecord in Hrun; rewrite Hb in Hrun; discriminate].
  destruct (gsmDecoders !! u8 b) as [d|] eqn:Hd;
    [|unfold decodeGsmDataRecord in Hrun; rewrite Hb in Hrun;
      unfold lookupDecoder in Hrun; rewrite Hd in Hrun; discriminate].
  destruct (decodeGsmDataRecord_runs t record b d Hlen Hb Hd)
    as (macAddress & rssi_ & H17 & Hrange & Heq).
  rewrite Heq in Hrun. clear Heq.
  pose proof (gsmDecoders_type _ _ Hd record) as Htype.
  destruct (gsmDecoders_modelLabel _ _ Hd) as (label & Hlabel & Halways).
  specialize (Halways record).
  match type of Hrun with
  | context [d record ?o] =>
      specialize (Htype o); specialize (Halways o);
      destruct (d record o) as [[[]|e] msd']; [|discriminate]
  end.
  injection Hrun as <-. cbn [fst snd] in Htype, Halways.
  unfold wellShaped. cbn [eventType eventTypeLabel addressType
    addressTypeLabel address length_ data rssi].
  repeat (split; [first [reflexivity | assumption]|]).
  eexists _, msd', _, label.
  repeat (split; [first [reflexivity | assumption | apply stripNul_noNul]|]).
  exact Hlabel.
Qed.

Lemma recordReports_shape t (data : Buffer) :
  Forall (wellShaped host) (recordReports host gsmTime t data).
Proof.
  unfold recordReports, tryDecodeGsmDataRecord.
  destruct (Z.ltb_spec (Z.of_nat (length data)) 24) as [|Hlen];
    [constructor|].
  destruct (decodeGsmDataRecord host gsmTime (Some t) data)
    as [[report|]|e] eqn:Hrun; try constructor; [|constructor].
  apply (decodeGsmDataRecord_report (Some t) data); [lia | exact Hrun].
Qed.

(** X7. A record of 24 bytes or more whose model has a decoder gives one
    report exactly when it is long enough for the reads of that decoder (38
    bytes for the energy meter, 30 for care sensors 4 and 6, 32 for 5 and
    HT, 26 for T, any length for 1 to 3), and none otherwise; the report
    has the fixed fields of a synthesized advertisement. *)
Theorem gsm_record_needs_length t (data : Buffer) b :
  24 <= Z.of_nat (length data) ->
  index data 1 = Some b ->
  In (u8 b) (gsmDecoders_entries.*1) ->
  if gsmMinLength (u8 b) <=? Z.of_nat (length data) then
    exists report,
      recordReports host gsmTime t data = [report]
      /\ wellShaped host report
  else recordReports host gsmTime t data = [].
Proof.
  intros Hlen Hb Hk.
  destruct (gsmDecoders !! u8 b) as [d|] eqn:Hd.
  2:{ apply not_elem_of_list_to_map in Hd. apply list_elem_of_In in Hk.
      contradiction. }
  destruct (gsmDecoders_complete _ d Hd data) as [Hs Ht].
  destruct (decodeGsmDataRecord_runs (Some t) data b d ltac:(lia) Hb Hd)
    as (macAddress & rssi_ & _ & _ & Heq).
  pose proof (recordReports_shape t data) as Hshape.
  unfold recordReports, tryDecodeGsmDataRecord in *.
  destruct (Z.ltb_spec (Z.of_nat (length data)) 24); [lia|].
  rewrite Heq in *. clear Heq.
  match goal with
  | |- context [d data ?o] =>
      specialize (fun H => Hs H o); specialize (fun H => Ht H o)
  end.
  destruct (Z.leb_spec (gsmMinLength (u8 b)) (Z.of_nat (length data)))
    as [Hge|Hlt].
  - destruct (Hs Hge) as ([] & msd' & Hrun). rewrite Hrun in *.
    eexists. split; [reflexivity|].
    apply Forall_inv in Hshape. exact Hshape.
  - destruct (Ht Hlt) as (msd' & Hrun). rewrite Hrun. reflexivity.
Qed.

Lemma batch_reports (gsmData : Buffer) :
  exists records,
    decodeGsmData host gsmTime gsmData
    = Some (concat (map (fun r : byte * byte * Buffer =>
                           recordReports host gsmTime r.1.1 r.2) records)).
Proof.
  destruct (batch_decomposition gsmData)
    as (records & tail & Hdec & Hall & Htail).
  exists records.
  destruct (decodeGsmData_app host gsmTime (encodeRecords records)
              (Framed_encodeRecords records Hall) tail)
    as (r1 & r2 & H1 & H2 & H12).
  rewrite decodeGsmData_encodeRecords in H1 by exact Hall.
  rewrite decodeGsmData_incompleteTail in H2 by exact Htail.
  injection H1 as <-. injection H2 as <-.
  rewrite <- Hdec, app_nil_r in H12. exact H12.
Qed.

(** X8. [decodeGsmData] returns, for every batch, reports that all have
    the fixed fields of a synthesized advertisement: event type AdvInd,
    address type Public, length -1, an address of 17 characters, a signal
    strength in -128..127, and two data entries, the complete local name
    without NUL characters and the manufacturer specific data with a model
    label. *)
Theorem decodeGsmData_reports_shape (gsmData : Buffer) :
  exists reports,
    decodeGsmData host gsmTime gsmData = Some reports
    /\ Forall (wellShaped host) reports.
Proof.
  destruct (batch_reports gsmData) as [records ->].
  eexists. split; [reflexivity|].
  apply Forall_concat, Forall_map, Forall_forall.
  intros [[t l] data] _. apply recordReports_shape.
Qed.

End Records.

Lemma gsm_record_needs_length_witness :
  (24 <= Z.of_nat (length careSensor4Record)
   /\ index careSensor4Record 1 = Some Byte.x94
   /\ In (u8 Byte.x94) (gsmDecoders_entries.*1))
  /\ recordReports sampleHost 0 Byte.x01 careSensor4Record = [].
Proof.
  assert (H24 : 24 <= Z.of_nat (length careSensor4Record))
    by (apply Z.leb_le; reflexivity).
  assert (Hk : In (u8 Byte.x94) (gsmDecoders_entries.*1))
    by (do 4 right; left; reflexivity).
  split; [split; [exact H24 | split; [reflexivity | exact Hk]]|].
  exact (gsm_record_needs_length sampleHost 0 Byte.x01 careSensor4Record
           Byte.x94 H24 eq_refl Hk).
Defined.


Lemma decodeGsmData_report_count_witness :
  exists reports,
    decodeGsmData sampleHost 0 careSensor1Batch = Some reports
    /\ (26 * length reports <= length careSensor1Batch)%nat.
Proof.
  destruct (decodeGsmData_returns sampleHost 0 careSensor1Batch)
    as [reports Hrun].
  exists reports. split; [exact Hrun|].
  exact (decodeGsmData_report_count sampleHost 0 careSensor1Batch reports
           Hrun).
Defined.

(** ** The energy meter in an advertisement *)

Lemma energyMeter_decoder k (d : Decoder) :
  k = DeviceModel.EnergyMeter ->
  msdDecoders !! k = Some d ->
  forall buffer : Buffer,
    (10 <= Z.of_nat (length buffer) -> succeeds (d buffer))
    /\ (Z.of_nat (length buffer) < 10 -> throwsRange (d buffer))
    /\ (Z.of_nat (length buffer) < 13 ->
        ensures "batteryLevel" (VInt 100) (d buffer)
        /\ ensures "batteryVoltage" (VNum 2.88) (d buffer)
        /\ ensures "lightLevel" (VInt 0) (d buffer)
        /\ ensures "weekDay" VYesterdayWeekDay (d buffer)
        /\ ensures "weekDayTotal" (VInt 0) (d buffer)).
Proof.
  intros Hk H%in_msdDecoders buffer. unfold msdDecoders_entries in H.
  each_entry H; try discriminate Hk.
  split; [intros Hlen; succeeds_tac|].
  split; [intros Hlen; throws_tac|].
  intros Hlen. unfold decodeEnergyMeter. cbv zeta.
  destruct (_ <=? Z.of_nat (length buffer)) eqn:Htest;
    [apply Z.leb_le in Htest; lia|].
  repeat split; ensures_tac.
Qed.

(** X9. An energy meter advertisement (model 0x82) is decoded by
    [decodeMsd] exactly when it has at least 10 bytes, a shorter one being a
    RangeError; with fewer than 13 bytes the battery, light and previous
    day fields are not read but set to their defaults: battery level 100,
    voltage 2.88, light level 0, the week day of yesterday and a total of
    0. *)
Theorem energy_meter_lengths (host : Host) (buffer : Buffer) msd b :
  index buffer 1 = Some b ->
  u8 b = DeviceModel.EnergyMeter ->
  if 10 <=? Z.of_nat (length buffer) then
    exists msd',
      (decodeMsd host buffer msd).1 = Normal msd'
      /\ (Z.of_nat (length buffer) < 13 ->
          msd' !! "batteryLevel" = Some (VInt 100)
          /\ msd' !! "batteryVoltage" = Some (VNum 2.88)
          /\ msd' !! "lightLevel" = Some (VInt 0)
          /\ msd' !! "weekDay" = Some VYesterdayWeekDay
          /\ msd' !! "weekDayTotal" = Some (VInt 0))
  else (decodeMsd host buffer msd).1 = Throw RangeError.
Proof.
  intros Hb Hk.
  destruct (msdDecoders_is_Some (u8 b)) as [d Hd].
  { rewrite Hk, (proj1 tables_keys). right. left. reflexivity. }
  destruct (energyMeter_decoder _ d Hk Hd buffer) as (Hs & Ht & Hdef).
  destruct (decodeMsd_runs_decoder host buffer msd b d Hb Hd)
    as (container & _ & ->).
  destruct (Z.leb_spec 10 (Z.of_nat (length buffer))) as [Hlen|Hlen].
  - destruct (Hs Hlen container) as ([] & o' & Hrun).
    rewrite Hrun. cbn [fst snd]. exists o'. split; [reflexivity|].
    intros Hshort.
    destruct (Hdef Hshort) as (H1 & H2 & H3 & H4 & H5).
    repeat split;
      [ exact (H1 _ _ _ Hrun) | exact (H2 _ _ _ Hrun) | exact (H3 _ _ _ Hrun)
      | exact (H4 _ _ _ Hrun) | exact (H5 _ _ _ Hrun) ].
  - destruct (Ht Hlen container) as (o' & Hrun).
    rewrite Hrun. reflexivity.
Qed.

Lemma energy_meter_lengths_witness :
  (index (bytes [0x00; 0x82; 0x00]) 1 = Some Byte.x82
   /\ u8 Byte.x82 = DeviceModel.EnergyMeter)
  /\ (decodeMsd sampleHost (bytes [0x00; 0x82; 0x00]) None).1
     = Throw RangeError.
Proof.
  split; [split; reflexivity|].
  exact (energy_meter_lengths sampleHost (bytes [0x00; 0x82; 0x00]) None
           Byte.x82 eq_refl eq_refl).
Defined.

(** ** The timestamp of a care sensor *)

Lemma ToInt32_signed z :
  -0x80000000 <= z < 0x80000000 -> Js.ToInt32 z = z.
Proof.
  intros Hz. destruct (Z_lt_le_dec z 0) as [Hneg|Hpos];
    [|apply ToInt32_small; lia].
  unfold Js.ToInt32. change 0xFFFFFFFF with (Z.ones 32).
  rewrite Z.land_ones by lia.
  replace (z mod 2 ^ 32) with (z + 0x100000000).
  - destruct (Z.ltb_spec (z + 0x100000000) 0x80000000); lia.
  - apply Z.mod_unique with (q := -1); lia.
Qed.

Lemma lor_high_low n a low :
  0 <= n -> 0 <= low < 2 ^ n -> Z.lor (a * 2 ^ n) low = a * 2 ^ n + low.
Proof.
  intros Hn Hlow.
  assert (Hdisjoint : Z.land (a * 2 ^ n) low = 0).
  { apply Z.bits_inj'. intros m Hm. rewrite Z.land_spec, Z.bits_0.
    destruct (Z_lt_le_dec m n) as [Hmn|Hmn].
    - rewrite Z.mul_pow2_bits_low by lia. reflexivity.
    - replace low with (low mod 2 ^ n) by (apply Z.mod_small; lia).
      rewrite Z.mod_pow2_bits_high by lia. apply andb_false_r. }
  rewrite <- Z.lxor_lor by exact Hdisjoint.
  symmetry. apply Z.add_nocarry_lxor. exact Hdisjoint.
Qed.

Lemma time_words w1 w2 :
  0 <= w1 < 65536 -> 0 <= w2 < 65536 ->
  Js.or (Js.shl w1 16) w2
  = w1 * 65536 + w2 - (if w1 <? 0x8000 then 0 else 0x100000000).
Proof.
  intros H1 H2.
  assert (Hshl : Js.shl w1 16
                 = (if w1 <? 0x8000 then w1 else w1 - 65536) * 2 ^ 16).
  { unfold Js.shl. change (Z.land 16 31) with 16.
    rewrite (ToInt32_small w1) by lia.
    rewrite Z.shiftl_mul_pow2 by lia.
    unfold Js.ToInt32. change 0xFFFFFFFF with (Z.ones 32).
    rewrite Z.land_ones by lia. change (2 ^ 16) with 65536.
    change (2 ^ 32) with 0x100000000.
    rewrite Z.mod_small by lia.
    destruct (Z.ltb_spec w1 0x8000);
      destruct (Z.ltb_spec (w1 * 65536) 0x80000000); lia. }
  unfold Js.or. rewrite Hshl.
  rewrite (ToInt32_small w2) by lia.
  rewrite ToInt32_signed
    by (change (2 ^ 16) with 65536; destruct (Z.ltb_spec w1 0x8000); lia).
  rewrite (lor_high_low 16) by (change (2 ^ 16) with 65536; lia).
  change (2 ^ 16) with 65536. destruct (Z.ltb_spec w1 0x8000); lia.
Qed.

(** X10. [decodeTime] reads the seconds as the word at [i] times 65536 plus
    the word at [i + 2] (each word little-endian) and takes them as a
    signed 32-bit number: from 2^31 seconds on, that is when the first word
    is 0x8000 or more, the stored date is 2^32 seconds earlier, before
    1970. *)
Theorem decodeTime_signed_seconds (buffer : Buffer) i w1 w2 msd :
  readUInt16LE buffer i = Normal w1 ->
  readUInt16LE buffer (i + 2) = Normal w2 ->
  decodeTime buffer i msd
  = (Normal tt,
     <["time" := VDate (DateOfMs
         ((w1 * 65536 + w2 - (if w1 <? 0x8000 then 0 else 0x100000000))
          * 1000))]> msd).
Proof.
  intros H1 H2. unfold decodeTime, bind, lift, assign. rewrite H1, H2.
  rewrite time_words
    by (eapply readUInt16LE_range; eassumption).
  reflexivity.
Qed.

Lemma decodeTime_signed_seconds_witness :
  (readUInt16LE (bytes [0x00; 0x80; 0x01; 0x00]) 0 = Normal 0x8000
   /\ readUInt16LE (bytes [0x00; 0x80; 0x01; 0x00]) (0 + 2) = Normal 1)
  /\ decodeTime (bytes [0x00; 0x80; 0x01; 0x00]) 0 ∅
     = (Normal tt,
        <["time" := VDate (DateOfMs (-2147483647 * 1000))]> ∅).
Proof.
  split; [split; reflexivity|].
  exact (decodeTime_signed_seconds (bytes [0x00; 0x80; 0x01; 0x00]) 0
           0x8000 1 ∅ eq_refl eq_refl).
Defined.

(** ** The relative humidity *)

Lemma humidity_check_all : forall_bits 16 0 humidity_check = true.
Proof. vm_compute. reflexivity. Qed.

(** X11. [decodeSi7021Humidity] stores a humidity between 1 and 100 for
    every word it reads: exactly 1 for a word up to 917 and exactly 100
    for a word from 13894 on. *)
Theorem humidity_clamp (buffer : Buffer) i msd raw :
  readUInt16LE buffer i = Normal raw ->
  exists h : float,
    decodeSi7021Humidity buffer i msd
    = (Normal tt, <["humidity" := VNum h]> msd)
    /\ (raw <= 917 -> h = 1%float)
    /\ (13894 <= raw -> h = 100%float)
    /\ PrimFloat.leb 1 h && PrimFloat.leb h 100 = true.
Proof.
  intros Hr. exists (humidityStored (humidityPreClamp raw)).
  split.
  { unfold decodeSi7021Humidity, bind, lift, assign. rewrite Hr.
    reflexivity. }
  pose proof (word_cases _ humidity_check_all _ _ _ Hr) as Hcheck.
  unfold humidity_check in Hcheck. cbv zeta in Hcheck.
  apply andb_true_iff in Hcheck as [Hcheck Hle].
  apply andb_true_iff in Hcheck as [Hcheck Hge].
  apply andb_true_iff in Hcheck as [Hlow%Bool.eqb_prop Hhigh%Bool.eqb_prop].
  split; [|split].
  - intros Hraw. unfold humidityStored. rewrite Hlow.
    destruct (Z.leb_spec raw 917); [|lia]. vm_compute. reflexivity.
  - intros Hraw. unfold humidityStored. rewrite Hlow, Hhigh.
    destruct (Z.leb_spec raw 917); [lia|].
    destruct (Z.leb_spec 13894 raw); [|lia]. vm_compute. reflexivity.
  - rewrite Hge, Hle. reflexivity.
Qed.

Lemma humidity_clamp_witness :
  readUInt16LE (bytes [0xFF; 0xFF]) 0 = Normal 65535
  /\ exists h : float,
       decodeSi7021Humidity (bytes [0xFF; 0xFF]) 0 ∅
       = (Normal tt, <["humidity" := VNum h]> ∅)
       /\ (13894 <= 65535 -> h = 100%float).
Proof.
  split; [reflexivity|].
  destruct (humidity_clamp (bytes [0xFF; 0xFF]) 0 ∅ 65535 eq_refl)
    as (h & Hrun & _ & Hhigh & _).
  exists h. split; [exact Hrun | exact Hhigh].
Defined.

(** ** The handler installed in the table of the host package *)

Lemma msdDecoders_definite k (d : Decoder) :
  msdDecoders !! k = Some d -> forall buffer, definite (d buffer).
Proof.
  intros H%in_msdDecoders buffer. unfold msdDecoders_entries in H.
  each_entry H; definite_tac.
Qed.

(** X12. The handler that [registerManufacturerSpecificDataDecoder]
    installs does to the object it is given what [decodeMsd] does to a
    container: the same properties on a normal completion and the same
    RangeError, whatever handler was installed before. They differ on a
    model without a decoder only, where [decodeMsd] throws an Error and the
    handler hands over to the handler installed before, or does nothing
    when there was none. *)
Theorem registered_handler_agrees (host : Host)
    (originalDecoder : option Decoder) (buffer : Buffer) (msd : Obj) :
  match (decodeMsd host buffer (Some msd)).1 with
  | Normal msd' =>
      registerManufacturerSpecificDataDecoder originalDecoder buffer msd
      = (Normal tt, msd')
  | Throw (Error _) =>
      registerManufacturerSpecificDataDecoder originalDecoder buffer msd
      = match originalDecoder with
        | Some original => original buffer msd
        | None => (Normal tt, msd)
        end
  | Throw e =>
      (registerManufacturerSpecificDataDecoder originalDecoder buffer msd).1
      = Throw e
  end.
Proof.
  unfold decodeMsd, registerManufacturerSpecificDataDecoder. cbv zeta.
  destruct (lookupDecoder msdDecoders (index buffer 1)) as [d|] eqn:Hd.
  - assert (Hdef : definite (d buffer)).
    { destruct (index buffer 1) as [b|]; [|discriminate].
      exact (msdDecoders_definite _ _ Hd buffer). }
    destruct (Hdef msd) as [([] & o' & ->) | (o' & ->)]; reflexivity.
  - cbn [fst]. destruct originalDecoder; reflexivity.
Qed.

(** X13. Registering twice is registering once: the handler installed over
    an installed handler behaves as that handler. *)
Theorem register_twice (originalDecoder : option Decoder)
    (buffer : Buffer) (msd : Obj) :
  registerManufacturerSpecificDataDecoder
    (Some (registerManufacturerSpecificDataDecoder originalDecoder))
    buffer msd
  = registerManufacturerSpecificDataDecoder originalDecoder buffer msd.
Proof.
  unfold registerManufacturerSpecificDataDecoder. cbv zeta.
  destruct (lookupDecoder msdDecoders (index buffer 1)); reflexivity.
Qed.

(** ** The container made by [decodeMsd] *)

Lemma msdDecoders_header k (d : Decoder) :
  msdDecoders !! k = Some d ->
  forall buffer,
    keeps "type" (d buffer) /\ keeps "typeLabel" (d buffer)
    /\ keeps "companyIdentifier" (d buffer).
Proof.
  intros H%in_msdDecoders buffer. unfold msdDecoders_entries in H.
  each_entry H; repeat split; keeps_tac.
Qed.

(** X14. The record [decodeMsd] returns when it is given no container has
    the type and label of manufacturer specific data, and as company
    identifier the first two bytes read as a little-endian word, so that
    the model byte is also the high byte of the company identifier. *)
Theorem decodeMsd_fresh_container (host : Host) b0 b1 (rest : Buffer) :
  match (decodeMsd host (b0 :: b1 :: rest) None).1 with
  | Normal msd' =>
      msd' !! "type" = Some (ManufacturerSpecificData host)
      /\ msd' !! "typeLabel" = Some (ManufacturerSpecificDataLabel host)
      /\ msd' !! "companyIdentifier" = Some (VInt (u8 b0 + 256 * u8 b1))
      /\ msd' !! "model" = Some (VInt (u8 b1))
  | Throw _ => True
  end.
Proof.
  set (buffer := b0 :: b1 :: rest).
  destruct (msdDecoders !! u8 b1) as [d|] eqn:Hd.
  2:{ unfold decodeMsd. cbv zeta. change (index buffer 1) with (Some b1).
      unfold lookupDecoder. rewrite Hd. exact I. }
  destruct (decodeMsd_runs_decoder host buffer None b1 d eq_refl Hd)
    as (container & (word & Hword & ->) & ->).
  injection Hword as <-.
  destruct (msdDecoders_header _ _ Hd buffer) as (H1 & H2 & H3).
  pose proof (msdDecoders_model _ _ Hd buffer) as H4.
  set (container := freshMsd host _) in *.
  specialize (H1 container). specialize (H2 container).
  specialize (H3 container). specialize (H4 container).
  cbn [fst].
  destruct (d buffer container) as [[[]|e] msd']; [|exact I].
  cbn [fst snd] in *. rewrite H1, H2, H3. repeat split; try exact H4.
  assert (Hword : Z.lor (u8 b0) (Z.shiftl (u8 b1) 8) = u8 b0 + 256 * u8 b1).
  { pose proof (u8_range b0). rewrite Z.lor_comm, Z.shiftl_mul_pow2 by lia.
    rewrite (lor_high_low 8) by (change (2 ^ 8) with 256; lia).
    change (2 ^ 8) with 256. lia. }
  rewrite <- Hword. reflexivity.
Qed.

(** ** The decoders only write *)

Section WriteOnly.

Context {A B : Type}.

Lemma writeOnly_ret (a : A) : writeOnly (ret a).
Proof. exists (Normal a), ∅. intros o. rewrite (left_id ∅ _). reflexivity. Qed.

Lemma writeOnly_lift (c : Completion A) : writeOnly (lift c).
Proof. exists c, ∅. intros o. rewrite (left_id ∅ _). reflexivity. Qed.

Lemma writeOnly_bind (m : M A) (f : A -> M B) :
  writeOnly m -> (forall a, writeOnly (f a)) -> writeOnly (bind m f).
Proof.
  intros (c & w & Hm) Hf. destruct c as [a|e].
  - destruct (Hf a) as (c' & w' & Hfa). exists c', (w' ∪ w).
    intros o. unfold bind. rewrite Hm, Hfa, (assoc_L _). reflexivity.
  - exists (Throw e), w. intros o. unfold bind. rewrite Hm. reflexivity.
Qed.

Lemma writeOnly_if (b : bool) (m1 m2 : M A) :
  writeOnly m1 -> writeOnly m2 -> writeOnly (if b then m1 else m2).
Proof. destruct b; trivial. Qed.

End WriteOnly.

Lemma writeOnly_assign key v : writeOnly (assign key v).
Proof.
  exists (Normal tt), {[ key := v ]}. intros o. unfold assign.
  rewrite insert_union_singleton_l. reflexivity.
Qed.

(** [Object.assign] on the object literal assigned just before. *)
Lemma writeOnly_assign_objectAssign key (target source : Obj) :
  writeOnly (assign key (VObj target);; objectAssign key source).
Proof.
  exists (Normal tt), {[ key := VObj (source ∪ target) ]}. intros o.
  unfold bind, assign, objectAssign. rewrite lookup_insert_eq.
  rewrite insert_insert_eq, insert_union_singleton_l. reflexivity.
Qed.

Lemma decodeAlarms_writeOnly (buffer : Buffer) batteryI extendedI :
  writeOnly (decodeAlarms buffer batteryI extendedI).
Proof.
  unfold decodeAlarms. cbv zeta.
  destruct (extendedI =? -1); cbv [negb]; cbv beta iota.
  - apply writeOnly_bind; [apply writeOnly_ret | intros extended].
    apply writeOnly_bind; [apply writeOnly_assign | intros _].
    apply writeOnly_ret.
  - apply writeOnly_bind; [apply writeOnly_lift | intros extended].
    apply writeOnly_assign_objectAssign.
Qed.

Ltac writeOnly_tac :=
  unfold_steps;
  lazymatch goal with
  | |- writeOnly (ret _) => apply writeOnly_ret
  | |- writeOnly (lift _) => apply writeOnly_lift
  | |- writeOnly (assign _ _) => apply writeOnly_assign
  | |- writeOnly (decodeAlarms _ _ _) => apply decodeAlarms_writeOnly
  | |- writeOnly (bind _ _) =>
      apply writeOnly_bind; [writeOnly_tac | intros ?; writeOnly_tac]
  | |- writeOnly (if _ then _ else _) => apply writeOnly_if; writeOnly_tac
  end.

Lemma msdDecoders_writeOnly k (d : Decoder) :
  msdDecoders !! k = Some d -> forall buffer, writeOnly (d buffer).
Proof.
  intros H%in_msdDecoders buffer. unfold msdDecoders_entries in H.
  each_entry H; writeOnly_tac.
Qed.

Lemma gsmDecoders_writeOnly k (d : Decoder) :
  gsmDecoders !! k = Some d -> forall buffer, writeOnly (d buffer).
Proof.
  intros H%in_gsmDecoders buffer. unfold gsmDecoders_entries in H.
  each_entry H; writeOnly_tac.
Qed.

(** X15. What [decodeMsd] does to the container it is given does not
    depend on what the container holds, and nothing is removed from it: for
    every buffer there are properties [written] and a way to complete such
    that, whatever the container, the container ends as the written
    properties laid over what it held, and the call completes that way. *)
Theorem decodeMsd_only_writes (host : Host) (buffer : Buffer) :
  exists (written : Obj) (thrown : option JsError),
    forall msd : Obj,
      decodeMsd host buffer (Some msd)
      = (match thrown with
         | None => Normal (written ∪ msd)
         | Some e => Throw e
         end, Some (written ∪ msd)).
Proof.
  unfold decodeMsd. cbv zeta.
  destruct (lookupDecoder msdDecoders (index buffer 1)) as [d|] eqn:Hd.
  - assert (Hw : writeOnly (d buffer)).
    { destruct (index buffer 1) as [b|]; [|discriminate].
      exact (msdDecoders_writeOnly _ _ Hd buffer). }
    destruct Hw as ([[]|e] & w & Hw).
    + exists w, None. intros msd. rewrite Hw. reflexivity.
    + exists w, (Some e). intros msd. rewrite Hw. reflexivity.
  - eexists ∅, (Some _). intros msd. rewrite (left_id ∅ _). reflexivity.
Qed.

(** ** The flags of the first byte *)

Lemma msdDecoders_flags k (d : Decoder) :
  msdDecoders !! k = Some d ->
  forall buffer,
    let flags := int_of (index buffer 0) in
    always "rtto" (VBool (Z.testbit flags 1)) (d buffer)
    /\ (In k [DeviceModel.CareSensor4; DeviceModel.CareSensor6] ->
        ensures "input" (VBool (Z.testbit flags 3)) (d buffer))
    /\ (In k [DeviceModel.CareSensor6; DeviceModel.CareRelay] ->
        ensures "output" (VBool (Z.testbit flags 0)) (d buffer))
    /\ (k = DeviceModel.CareSensor5 ->
        ensures "magneticFieldDirection" (VBool (Z.testbit flags 3))
          (d buffer)).
Proof.
  intros H%in_msdDecoders buffer flags. unfold msdDecoders_entries in H.
  destruct (firstByte_flags (index buffer 0)) as (Hrtto & _ & Hin & Hout).
  fold flags in Hrtto, Hin, Hout. rewrite <- Hrtto, <- Hin, <- Hout.
  subst flags.
  each_entry H;
    (split; [unfold_steps; norm_alarms; always_tac|]);
    repeat split; intros Hk;
    first [ discriminate Hk
          | solve [exfalso; simpl in Hk; intuition discriminate]
          | ensures_tac ].
Qed.

(** X17. In a record decoded by [decodeMsd] the flags are bits of the
    first byte: [rtto] is bit 1 for every model, [input] is bit 3 for care
    sensors 4 and 6, [output] is bit 0 for care sensor 6 and the care
    relay, and [magneticFieldDirection] is bit 3 for care sensor 5. *)
Theorem first_byte_flags (host : Host) (buffer : Buffer) msd :
  match (decodeMsd host buffer msd).1 with
  | Normal msd' =>
      let flags := int_of (index buffer 0) in
      let model := int_of (index buffer 1) in
      msd' !! "rtto" = Some (VBool (Z.testbit flags 1))
      /\ (In model [DeviceModel.CareSensor4; DeviceModel.CareSensor6] ->
          msd' !! "input" = Some (VBool (Z.testbit flags 3)))
      /\ (In model [DeviceModel.CareSensor6; DeviceModel.CareRelay] ->
          msd' !! "output" = Some (VBool (Z.testbit flags 0)))
      /\ (model = DeviceModel.CareSensor5 ->
          msd' !! "magneticFieldDirection"
          = Some (VBool (Z.testbit flags 3)))
  | Throw _ => True
  end.
Proof.
  destruct (index buffer 1) as [b|] eqn:Hb.
  2:{ unfold decodeMsd. rewrite Hb. exact I. }
  destruct (msdDecoders !! u8 b) as [d|] eqn:Hd.
  2:{ unfold decodeMsd. rewrite Hb. cbv zeta. unfold lookupDecoder.
      rewrite Hd. exact I. }
  destruct (decodeMsd_runs_decoder host buffer msd b d Hb Hd)
    as (container & _ & ->).
  destruct (msdDecoders_flags _ _ Hd buffer) as (H1 & H2 & H3 & H4).
  specialize (H1 container). cbn [fst].
  destruct (d buffer container) as [[[]|e] msd'] eqn:Hrun; [|exact I].
  cbn [snd] in *. cbv zeta. cbn [int_of from_option].
  split; [exact H1|].
  split; [intros Hk; exact (H2 Hk _ _ _ Hrun)|].
  split; [intros Hk; exact (H3 Hk _ _ _ Hrun)|].
  intros Hk. exact (H4 Hk _ _ _ Hrun).
Qed.

(** * The current module against the older one *)

Lemma agreeOutside_refl names o : agreeOutside names o o.
Proof. intros key _. reflexivity. Qed.

Lemma agreeOutside_insert names key v o o' :
  agreeOutside names o o' ->
  agreeOutside names (<[key := v]> o) (<[key := v]> o').
Proof.
  intros H k Hk. destruct (decide (k = key)) as [->|Hne].
  - rewrite !lookup_insert_eq. reflexivity.
  - rewrite !lookup_insert_ne by congruence. exact (H k Hk).
Qed.

Lemma agreeOutside_insert_l names key v o o' :
  key ∈ names -> agreeOutside names o o' ->
  agreeOutside names (<[key := v]> o) o'.
Proof.
  intros Hin H k Hk. rewrite lookup_insert_ne; [exact (H k Hk)|].
  intros <-. contradiction.
Qed.

Lemma agreeOutside_insert_both names key v v' o o' :
  key ∈ names -> agreeOutside names o o' ->
  agreeOutside names (<[key := v]> o) (<[key := v']> o').
Proof.
  intros Hin H k Hk.
  rewrite !lookup_insert_ne by (intros <-; contradiction). exact (H k Hk).
Qed.

Section Simulation.

Context {A B : Type}.
Variable names : list string.

Lemma sim_same (m : M A) : writeOnly m -> sim names m m.
Proof.
  intros (c & w & Hm) o o' Hag. rewrite !Hm. cbn [fst snd].
  destruct c as [a|e]; [|reflexivity]. split; [reflexivity|].
  intros key Hkey. rewrite !lookup_union, (Hag key Hkey). reflexivity.
Qed.

Lemma sim_bind (m m' : M A) (f f' : A -> M B) :
  sim names m m' -> (forall a, sim names (f a) (f' a)) ->
  sim names (bind m f) (bind m' f').
Proof.
  intros Hm Hf o o' Hag. specialize (Hm o o' Hag). unfold bind.
  destruct (m o) as [[a|e] o1]; destruct (m' o') as [[a'|e'] o1'];
    cbn [fst snd] in *; try contradiction.
  - destruct Hm as [<- Hag1]. exact (Hf a o1 o1' Hag1).
  - exact Hm.
Qed.

Lemma sim_assoc_l {C} (m : M A) (f : A -> M B) (g : B -> M C) (m' : M C) :
  sim names (bind m (fun a => bind (f a) g)) m' ->
  sim names (bind (bind m f) g) m'.
Proof.
  intros H o o' Hag. specialize (H o o' Hag). unfold bind in *.
  destruct (m o) as [[a|e] o1]; exact H.
Qed.

Lemma sim_assoc_r {C} (m : M A) (f : A -> M B) (g : B -> M C) (m' : M C) :
  sim names m' (bind m (fun a => bind (f a) g)) ->
  sim names m' (bind (bind m f) g).
Proof.
  intros H o o' Hag. specialize (H o o' Hag). unfold bind in *.
  destruct (m o') as [[a|e] o1]; exact H.
Qed.

End Simulation.

Lemma sim_left names key v (f : unit -> M unit) (m' : M unit) :
  key ∈ names -> sim names (f tt) m' ->
  sim names (bind (assign key v) f) m'.
Proof.
  intros Hin H o o' Hag. unfold bind, assign.
  apply H. apply agreeOutside_insert_l; assumption.
Qed.

Lemma sim_tail names (m m' : M unit) (f : unit -> M unit) :
  sim names m m' -> (forall a, touches names (f a)) ->
  sim names (bind m f) m'.
Proof.
  intros Hm Hf o o' Hag. specialize (Hm o o' Hag). unfold bind.
  destruct (m o) as [[a|e] o1]; destruct (m' o') as [[a'|e'] o1'];
    cbn [fst snd] in *; try contradiction; [|exact Hm].
  destruct Hm as [_ Hag1]. destruct (Hf a) as [Hs Hk].
  destruct (Hs o1) as ([] & o2 & Hrun). rewrite Hrun. cbn [fst snd].
  split; [destruct a'; reflexivity|].
  intros key Hkey. specialize (Hk key Hkey o1). rewrite Hrun in Hk.
  cbn [snd] in Hk. rewrite Hk. exact (Hag1 key Hkey).
Qed.

(** The two alarm primitives: they complete alike, and what each assigns
    to [alarms] is the same object when the extended word is read. *)
Lemma decodeAlarms_versions (buffer : Buffer) batteryI extendedI :
  exists (c : Completion unit) (x y : Value),
    (extendedI <> -1 -> x = y)
    /\ forall o,
         decodeAlarms buffer batteryI extendedI o
         = (c, match c with Normal _ => <["alarms" := x]> o | Throw _ => o end)
         /\ Legacy.decodeAlarms buffer batteryI extendedI o
            = (c, match c with
                  | Normal _ => <["alarms" := y]> o
                  | Throw _ => o
                  end).
Proof.
  set (batteryByte :=
         if batteryI =? -1 then 0 else int_of (index buffer batteryI)).
  destruct (if extendedI =? -1 then Normal 0
            else readUInt16LE buffer extendedI) as [extended|e] eqn:Hext.
  2:{ destruct (extendedI =? -1) eqn:Hi; [discriminate|].
      exists (Throw e), VNull, VNull. split; [reflexivity|]. intros o.
      unfold decodeAlarms, Legacy.decodeAlarms, bind, lift.
      rewrite Hi, Hext. split; reflexivity. }
  pose proof (readExtended_range _ _ _ Hext) as Hrange.
  pose proof (batteryByte_range buffer batteryI) as Hb. fold batteryByte in Hb.
  destruct (batteryBit_cases 0x8000 batteryByte Hb (or_introl eq_refl))
    as [Hin1 Hbit1].
  destruct (batteryBit_cases 0xC000 batteryByte Hb (or_intror eq_refl))
    as [Hin2 Hbit2].
  destruct (alarms_word _ extended Hin1 Hrange) as [Hlow1 Hflags1].
  destruct (alarms_word _ extended Hin2 Hrange) as [Hlow2 Hflags2].
  rewrite Hbit1 in Hlow1. rewrite Hbit2 in Hlow2.
  set (flag := VBool (Z.testbit batteryByte 2 || Z.testbit extended 15)).
  exists (Normal tt),
    (VObj (if extendedI =? -1 then {[ "lowBattery" := flag ]}
           else list_to_map (extendedAlarms extended)
                  ∪ {[ "lowBattery" := flag ]})),
    (VObj (list_to_map (extendedAlarms extended ++ [("lowBattery", flag)]))).
  split.
  { intros Hne. destruct (Z.eqb_spec extendedI (-1)); [contradiction|].
    rewrite list_to_map_app. reflexivity. }
  intros o. split.
  - unfold decodeAlarms. fold batteryByte.
    fold (batteryBit 0x8000 batteryByte). unfold bind at 1.
    replace ((if extendedI =? -1 then ret 0
              else lift (readUInt16LE buffer extendedI)) o)
      with (Normal extended, o)
      by (destruct (extendedI =? -1); unfold ret, lift; congruence).
    unfold bind, assign. rewrite Hlow1, Hflags1. fold flag.
    destruct (extendedI =? -1); cbv beta iota delta [negb]; [reflexivity|].
    unfold objectAssign. rewrite lookup_insert_eq. cbv beta iota.
    rewrite insert_insert_eq. reflexivity.
  - unfold Legacy.decodeAlarms. fold batteryByte.
    fold (batteryBit 0xC000 batteryByte). unfold bind at 1.
    replace ((if extendedI =? -1 then ret 0
              else lift (readUInt16LE buffer extendedI)) o)
      with (Normal extended, o)
      by (destruct (extendedI =? -1); unfold ret, lift; congruence).
    unfold assign. rewrite Hlow2, Hflags2. reflexivity.
Qed.

Lemma sim_alarms names (buffer : Buffer) batteryI extendedI :
  "alarms" ∈ names \/ extendedI <> -1 ->
  sim names (decodeAlarms buffer batteryI extendedI)
    (Legacy.decodeAlarms buffer batteryI extendedI).
Proof.
  intros Hside o o' Hag.
  destruct (decodeAlarms_versions buffer batteryI extendedI)
    as (c & x & y & Hxy & Hrun).
  rewrite (proj1 (Hrun o)), (proj2 (Hrun o')). cbn [fst snd].
  destruct c as [[]|e]; [|reflexivity]. split; [reflexivity|].
  destruct Hside as [Hin|Hne].
  - apply agreeOutside_insert_both; assumption.
  - rewrite (Hxy Hne). apply agreeOutside_insert. exact Hag.
Qed.

Ltac solve_elem :=
  repeat first [apply list_elem_of_here | apply list_elem_of_further].

(** [keeps key m] for a [key] that [Hkey] puts outside a list of names. *)
Ltac keeps_outside Hkey :=
  unfold_primitives; cbv beta iota zeta;
  lazymatch goal with
  | |- keeps _ (ret _) => apply keeps_ret
  | |- keeps _ (lift _) => apply keeps_lift
  | |- keeps _ (assign _ _) =>
      apply keeps_assign; intros ->; apply Hkey; solve_elem
  | |- keeps _ (bind _ _) =>
      apply keeps_bind; [keeps_outside Hkey | intros ?; keeps_outside Hkey]
  | |- keeps _ (if _ then _ else _) => apply keeps_if; keeps_outside Hkey
  end.

Ltac unfold_legacy :=
  unfold LegacyDecoders.decodeCareSensor, LegacyDecoders.decodeBatteryLevel,
    LegacyDecoders.decodeEnergyMeter.

(** The two recipes are walked step by step, as far as their steps
    correspond. *)
Ltac sim_tac :=
  lazymatch goal with
  | |- sim _ (bind (bind _ _) _) _ => apply sim_assoc_l; sim_tac
  | |- sim _ _ (bind (bind _ _) _) => apply sim_assoc_r; sim_tac
  | |- sim _ (bind (decodeAlarms _ _ _) _) (bind (Legacy.decodeAlarms _ _ _) _) =>
      apply sim_bind;
      [ apply sim_alarms; first [left; solve [solve_elem] | right; discriminate]
      | intros ?; sim_tac ]
  | |- sim _ (decodeAlarms _ _ _) (Legacy.decodeAlarms _ _ _) =>
      apply sim_alarms; first [left; solve [solve_elem] | right; discriminate]
  | |- sim _ (bind (assign "unit" _) _) _ =>
      apply sim_left; [solve_elem | sim_tac]
  | |- sim _ (bind _ _) (bind _ _) =>
      tryif (apply sim_bind; [solve [apply sim_same; writeOnly_tac] | ])
      then (intros ?; sim_tac) else idtac
  | |- sim _ (bind _ _) _ =>
      apply sim_tail;
      [ apply sim_same; writeOnly_tac
      | intros ?; split;
        [ succeeds_tac
        | let key := fresh "key" in let Hkey := fresh "Hkey" in
          intros key Hkey; keeps_outside Hkey ] ]
  | |- sim _ _ _ => apply sim_same; writeOnly_tac
  end.

Lemma legacy_keys_distinct :
  NoDup (LegacyDecoders.deviceModelDecoders_entries.*1).
Proof. apply (bool_decide_unpack _). vm_compute. reflexivity. Qed.

(** Care sensor 5: the older module reads the magnetic field after the
    signature, the current one before the time. Both reads are inside a
    buffer of 16 bytes, which the time needs in either order. *)
Ltac reordered_tac :=
  lazymatch goal with
  | buffer : Buffer |- sim _ ?l ?r =>
      let o := fresh "o" in let o' := fresh "o'" in let Hag := fresh "Hag" in
      intros o o' Hag;
      assert (o = o')
        by (apply map_eq; intros ?; apply Hag; apply not_elem_of_nil);
      subst o';
      destruct (Z_lt_le_dec (Z.of_nat (length buffer)) 16)
        as [Hshort|Hlong];
      [ let HL := fresh "HL" in let HR := fresh "HR" in
        assert (HL : throwsRange l) by throws_tac;
        assert (HR : throwsRange r) by throws_tac;
        destruct (HL o) as (? & ->); destruct (HR o) as (? & ->);
        reflexivity
      | destruct (readUInt16LE_inside buffer 10) as [? H10]; [lia..|];
        destruct (readUInt16LE_inside buffer 12) as [? H12]; [lia..|];
        destruct (readUInt16LE_inside buffer (12 + 2)) as [? H14];
          [lia..|];
        unfold bind, lift, assign, ret; rewrite H10, H12, H14;
        cbn [fst snd]; split; [reflexivity|];
        intros ? _;
        rewrite (insert_insert_ne _ "magneticField"
                   "magneticFieldDirection") by discriminate;
        rewrite (insert_insert_ne _ "magneticField" "signature")
          by discriminate;
        rewrite (insert_insert_ne _ "magneticField" "time")
          by discriminate;
        reflexivity ]
  end.

Lemma tables_sim k (d : Decoder) :
  msdDecoders !! k = Some d ->
  exists d' : Decoder,
    LegacyDecoders.deviceModelDecoders !! k = Some d'
    /\ forall buffer, sim (changed k) (d buffer) (d' buffer).
Proof.
  intros H%in_msdDecoders. unfold msdDecoders_entries in H.
  each_entry H;
    (eexists; split;
     [ apply elem_of_list_to_map_1;
       [exact legacy_keys_distinct
       | unfold LegacyDecoders.deviceModelDecoders_entries; solve_elem]
     |]);
    intros buffer;
    match goal with
    | |- sim (changed ?k) _ _ =>
        let names := eval vm_compute in (changed k) in
        change (changed k) with names
    end;
    cbv beta; unfold_legacy; unfold_steps;
    sim_tac; reordered_tac.
Qed.

Lemma legacy_keys :
  LegacyDecoders.deviceModelDecoders_entries.*1 = msdDecoders_entries.*1.
Proof. reflexivity. Qed.

(** X18. The handler installed by the current module and the one installed
    by the older module, over the same earlier handler, complete alike on
    every buffer and object, and when they complete normally they leave
    the same value under every property name outside [changed]: for a care
    sensor the two objects agree everywhere, for the models that read only
    the first byte everywhere but at [alarms], and for the energy meter
    everywhere but at [alarms], [unit] and the five battery, light and
    previous day properties. *)
Theorem versions_agree (originalDecoder : option Decoder)
    (buffer : Buffer) (msd : Obj) :
  let current :=
    registerManufacturerSpecificDataDecoder originalDecoder buffer msd in
  let older :=
    LegacyDecoders.registerManufacturerSpecificDataDecoder originalDecoder
      buffer msd in
  match current.1, older.1 with
  | Normal _, Normal _ =>
      forall key, key ∉ changed (int_of (index buffer 1)) ->
        current.2 !! key = older.2 !! key
  | Throw e, Throw e' => e = e'
  | _, _ => False
  end.
Proof.
  unfold registerManufacturerSpecificDataDecoder,
    LegacyDecoders.registerManufacturerSpecificDataDecoder.
  cbv zeta.
  assert (Hsame : forall m : M unit,
            match (m msd).1, (m msd).1 with
            | Normal _, Normal _ =>
                forall key, key ∉ changed (int_of (index buffer 1)) ->
                  (m msd).2 !! key = (m msd).2 !! key
            | Throw e, Throw e' => e = e'
            | _, _ => False
            end).
  { intros m. destruct (m msd) as [[a|e] o]; cbn [fst snd]; reflexivity. }
  destruct (index buffer 1) as [b|]; cbn [lookupDecoder int_of from_option];
    [|destruct originalDecoder; apply Hsame].
  destruct (msdDecoders !! u8 b) as [d|] eqn:Hd.
  - destruct (tables_sim _ _ Hd) as (d' & -> & Hsim).
    specialize (Hsim buffer msd msd (agreeOutside_refl _ _)).
    destruct (d buffer msd) as [[a|e] o]; destruct (d' buffer msd)
      as [[a'|e'] o']; cbn [fst snd] in *; try contradiction.
    + exact (proj2 Hsim).
    + exact Hsim.
  - assert (Hd' : LegacyDecoders.deviceModelDecoders !! u8 b = None).
    { apply not_elem_of_list_to_map_1. rewrite legacy_keys.
      apply not_elem_of_list_to_map. exact Hd. }
    rewrite Hd'. destruct originalDecoder; apply Hsame.
Qed.

(** ** What the older module stores differently *)

Lemma in_deviceModelDecoders k d :
  LegacyDecoders.deviceModelDecoders !! k = Some d ->
  (k, d) ∈ LegacyDecoders.deviceModelDecoders_entries.
Proof. apply elem_of_list_to_map_2. Qed.

Lemma older_alarms_value v :
  VObj (list_to_map
          (extendedAlarms (Js.or 0 (batteryBit 0xC000 (int_of v)))
           ++ [("lowBattery",
                VBool (Js.truthy
                         (Js.and (Js.or 0 (batteryBit 0xC000 (int_of v)))
                            0x8000)))]))
  = VObj (list_to_map
            (extendedAlarms 0
             ++ [("lowBattery", VBool (Z.testbit (int_of v) 2))])).
Proof.
  destruct (batteryBit_cases 0xC000 (int_of v) (int_of_range v)
              (or_intror eq_refl)) as [Hin Hbit].
  destruct (alarms_word _ 0 Hin ltac:(lia)) as [Hlow Hflags].
  rewrite Hlow, Hflags, Hbit, orb_false_r. reflexivity.
Qed.

Lemma deviceModelDecoders_older k (d : Decoder) :
  LegacyDecoders.deviceModelDecoders !! k = Some d ->
  forall buffer,
    (k = DeviceModel.EnergyMeter ->
     forall key,
       In key ["unit"; "batteryLevel"; "batteryVoltage"; "lightLevel";
               "weekDay"; "weekDayTotal"] ->
       keeps key (d buffer))
    /\ (In k (DeviceModel.EnergyMeter :: plainModels) ->
        always "alarms"
          (VObj (list_to_map
                   (extendedAlarms 0
                    ++ [("lowBattery",
                         VBool (Z.testbit (int_of (index buffer 0)) 2))])))
          (d buffer)).
Proof.
  intros H%in_deviceModelDecoders buffer.
  unfold LegacyDecoders.deviceModelDecoders_entries in H.
  rewrite <- older_alarms_value. unfold batteryBit.
  each_entry H; split; intros Hk;
    try discriminate Hk;
    try solve [exfalso; simpl in Hk; intuition discriminate].
  all: try (intros key Hkey; simpl in Hkey;
            repeat (destruct Hkey as [<-|Hkey]; [|]); try contradiction;
            unfold_legacy; unfold Legacy.decodeAlarms; keeps_tac).
  all: unfold_legacy; unfold_steps; unfold Legacy.decodeAlarms;
    change (-1 =? -1) with true; change (0 =? -1) with false;
    cbv beta iota zeta; always_tac.
Qed.

Lemma msdDecoders_alarms k (d : Decoder) :
  In k (DeviceModel.EnergyMeter :: plainModels) ->
  msdDecoders !! k = Some d ->
  forall buffer,
    always "alarms"
      (VObj {[ "lowBattery" :=
                 VBool (Z.testbit (int_of (index buffer 0)) 2) ]})
      (d buffer).
Proof.
  intros Hk H%in_msdDecoders buffer. unfold msdDecoders_entries in H.
  destruct (firstByte_flags (index buffer 0)) as (_ & Hlow & _ & _).
  rewrite <- Hlow.
  each_entry H;
    try (exfalso; simpl in Hk;
         repeat (destruct Hk as [Hk|Hk]; [discriminate Hk|]); exact Hk);
    unfold_steps; norm_alarms; always_tac.
Qed.

(** X19. Where the two modules differ. For the energy meter and the models
    that read only the first byte, the alarms stored by the handler of the
    older module are all eleven flags, the ten of the extended word false,
    where the handler of the current module stores the [lowBattery] flag
    alone; and for the energy meter the older handler leaves [unit] and the
    battery, light and previous day properties of the object as they
    were. *)
Theorem older_module_differences (originalDecoder : option Decoder)
    (buffer : Buffer) (msd : Obj) b :
  index buffer 1 = Some b ->
  In (u8 b) (DeviceModel.EnergyMeter :: plainModels) ->
  let current :=
    registerManufacturerSpecificDataDecoder originalDecoder buffer msd in
  let older :=
    LegacyDecoders.registerManufacturerSpecificDataDecoder originalDecoder
      buffer msd in
  let flag := VBool (Z.testbit (int_of (index buffer 0)) 2) in
  current.2 !! "alarms" = Some (VObj {[ "lowBattery" := flag ]})
  /\ older.2 !! "alarms"
     = Some (VObj (list_to_map
                     (extendedAlarms 0 ++ [("lowBattery", flag)])))
  /\ (u8 b = DeviceModel.EnergyMeter ->
      forall key,
        In key ["unit"; "batteryLevel"; "batteryVoltage"; "lightLevel";
                "weekDay"; "weekDayTotal"] ->
        older.2 !! key = msd !! key).
Proof.
  intros Hb Hk current older flag. subst current older flag.
  unfold registerManufacturerSpecificDataDecoder,
    LegacyDecoders.registerManufacturerSpecificDataDecoder.
  cbv zeta. rewrite Hb. cbn [lookupDecoder].
  destruct (msdDecoders_is_Some (u8 b)) as [d Hd].
  { rewrite (proj1 tables_keys). unfold plainModels in Hk.
    simpl in Hk |- *. tauto. }
  destruct (tables_sim _ _ Hd) as (d' & Hd' & _).
  rewrite Hd, Hd'.
  destruct (deviceModelDecoders_older _ _ Hd' buffer) as [Hkeeps Hold].
  split; [exact (msdDecoders_alarms _ _ Hk Hd buffer msd)|].
  split; [exact (Hold Hk msd)|].
  intros Hmodel key Hkey. exact (Hkeeps Hmodel key Hkey msd).
Qed.

Lemma older_module_differences_witness :
  (index (bytes [0x06; 0xB3]) 1 = Some Byte.xb3
   /\ In (u8 Byte.xb3) (DeviceModel.EnergyMeter :: plainModels))
  /\ (LegacyDecoders.registerManufacturerSpecificDataDecoder None
        (bytes [0x06; 0xB3]) ∅).2 !! "alarms"
     = Some (VObj (list_to_map
                     (extendedAlarms 0 ++ [("lowBattery", VBool true)]))).
Proof.
  assert (Hk : In (u8 Byte.xb3) (DeviceModel.EnergyMeter :: plainModels))
    by (do 5 right; left; reflexivity).
  split; [split; [reflexivity | exact Hk]|].
  exact (proj1 (proj2 (older_module_differences None (bytes [0x06; 0xB3]) ∅
                         Byte.xb3 eq_refl Hk))).
Defined.

(** ** The alarms of an energy meter behind a GSM gateway *)

Lemma gsmDecoders_energyMeter_alarms k (d : Decoder) :
  k = DeviceModel.EnergyMeter ->
  gsmDecoders !! k = Some d ->
  forall buffer,
    always "alarms" (VObj {[ "lowBattery" := VBool false ]}) (d buffer).
Proof.
  intros Hk H%in_gsmDecoders buffer. unfold gsmDecoders_entries in H.
  each_entry H; try discriminate Hk.
  unfold_steps; norm_alarms; always_tac.
Qed.

(** X20. A report made from a GSM record of an energy meter never carries
    a battery alarm: the record decoder calls [decodeAlarms] with no
    battery byte and no extended word, so [alarms] is
    [{ lowBattery: false }] whatever the record holds. *)
Theorem gsm_energy_meter_no_alarm (host : Host) gsmTime t (record : Buffer) :
  match decodeGsmDataRecord host gsmTime t record with
  | Normal (Some report) =>
      int_of (index record 1) = DeviceModel.EnergyMeter ->
      exists name msd,
        data report = [name; msd]
        /\ msd !! "alarms" = Some (VObj {[ "lowBattery" := VBool false ]})
  | _ => True
  end.
Proof.
  unfold decodeGsmDataRecord. cbv zeta.
  destruct (index record 1) as [b|]; cbn [lookupDecoder int_of from_option];
    [|exact I].
  destruct (gsmDecoders !! u8 b) as [d|] eqn:Hd; [|exact I].
  destruct (decodeGsmMacAddress record) as [macAddress|e]; [|exact I].
  destruct (readInt8 record _) as [rssi_|e]; [|exact I].
  match goal with
  | |- context [d record ?o] =>
      pose proof (fun Hk => gsmDecoders_energyMeter_alarms _ _ Hk Hd record o)
        as Halarms;
      destruct (d record o) as [[[]|e] msd']; [|exact I]
  end.
  intros Hk. eexists _, msd'. split; [reflexivity|]. exact (Halarms Hk).
Qed.

(** ** The battery, light and previous day bytes of the energy meter *)

Lemma lightLevel_check_all : forall_bits 8 0 lightLevel_check = true.
Proof. vm_compute. reflexivity. Qed.

Lemma weekData_check_all : forall_bits 16 0 weekData_check = true.
Proof. vm_compute. reflexivity. Qed.

Lemma decodeEnergyMeter_long (buffer : Buffer) i o :
  0 <= i -> i + 11 <= Z.of_nat (length buffer) ->
  exists o' w,
    decodeEnergyMeter buffer i o = (Normal tt, o')
    /\ readUInt16LE buffer (i + 9) = Normal w
    /\ o' !! "lightLevel"
       = Some (VNum (lightLevelOf (int_of (index buffer (i + 8)))))
    /\ o' !! "weekDay" = Some (VInt (w / 8192))
    /\ o' !! "weekDayTotal" = Some (VInt (w mod 8192)).
Proof.
  intros Hi Hlen.
  destruct (readUInt16LE_inside buffer (i + 6)) as [options Hoptions];
    [lia..|].
  destruct (readUInt16LE_inside buffer i) as [average Haverage]; [lia..|].
  destruct (readUInt32LE_inside buffer (i + 2)) as [sum Hsum]; [lia..|].
  destruct (readUInt16LE_inside buffer (i + 8)) as [word Hword]; [lia..|].
  destruct (readUInt16LE_inside buffer (i + 9)) as [w Hw]; [lia..|].
  pose proof (word_cases _ weekData_check_all _ _ _ Hw) as Hcheck.
  unfold weekData_check in Hcheck.
  apply andb_true_iff in Hcheck as [Hday%Z.eqb_eq Htotal%Z.eqb_eq].
  unfold decodeEnergyMeter, decodeBatteryLevel. cbv zeta.
  rewrite Hoptions, Haverage, Hsum, Hword, Hw.
  destruct (Z.leb_spec (i + 2 + 4 + 2 + 1 + 2) (Z.of_nat (length buffer)));
    [|lia].
  unfold bind, lift, assign, ret. cbv beta iota.
  destruct (Js.and (Js.sar options 14) 3 =? 0);
    [|destruct (Js.and (Js.sar options 14) 3 =? 1)];
    cbv beta iota; rewrite Hday, Htotal;
    (eexists _, w; split; [reflexivity|]; split; [reflexivity|];
     split; [|split];
     repeat (rewrite lookup_insert_ne by discriminate);
     apply lookup_insert_eq).
Qed.

Lemma energyMeter_entry k (d : Decoder) :
  k = DeviceModel.EnergyMeter ->
  msdDecoders !! k = Some d ->
  forall (buffer : Buffer) o, exists o1,
    d buffer o = decodeEnergyMeter buffer 2 o1.
Proof.
  intros Hk H%in_msdDecoders buffer o. unfold msdDecoders_entries in H.
  each_entry H; try discriminate Hk.
  eexists. unfold decodeRtto. norm_alarms.
  unfold bind at 1 2 3 4 5 6. unfold assign, ret. cbv beta iota.
  reflexivity.
Qed.

(** X21. An energy meter advertisement of 13 bytes or more is decoded
    with the light level and the previous day read from bytes 10 to 12:
    [lightLevel] is a number between 0 and 100 computed from the low four
    bits of byte 10, [weekDay] is the top three bits of the little-endian
    word at 11, which can be 7, and [weekDayTotal] is its low 13 bits. *)
Theorem energy_meter_extras (host : Host) (buffer : Buffer) msd b :
  index buffer 1 = Some b ->
  u8 b = DeviceModel.EnergyMeter ->
  13 <= Z.of_nat (length buffer) ->
  exists msd' w,
    (decodeMsd host buffer msd).1 = Normal msd'
    /\ msd' !! "lightLevel"
       = Some (VNum (lightLevelOf (int_of (index buffer 10))))
    /\ PrimFloat.leb 0 (lightLevelOf (int_of (index buffer 10)))
       && PrimFloat.leb (lightLevelOf (int_of (index buffer 10))) 100 = true
    /\ readUInt16LE buffer 11 = Normal w
    /\ msd' !! "weekDay" = Some (VInt (w / 8192))
    /\ msd' !! "weekDayTotal" = Some (VInt (w mod 8192))
    /\ 0 <= w / 8192 <= 7.
Proof.
  intros Hb Hk Hlen.
  destruct (msdDecoders_is_Some (u8 b)) as [d Hd].
  { rewrite Hk, (proj1 tables_keys). right. left. reflexivity. }
  destruct (decodeMsd_runs_decoder host buffer msd b d Hb Hd)
    as (container & _ & ->).
  destruct (energyMeter_entry _ _ Hk Hd buffer container) as [o1 ->].
  destruct (decodeEnergyMeter_long buffer 2 o1 ltac:(lia) ltac:(lia))
    as (msd' & w & Hrun & Hw & Hlight & Hday & Htotal).
  rewrite Hrun. cbn [fst snd]. exists msd', w.
  split; [reflexivity|]. split; [exact Hlight|].
  split; [exact (byte_cases _ lightLevel_check_all _ (int_of_range _))|].
  split; [exact Hw|]. split; [exact Hday|]. split; [exact Htotal|].
  apply readUInt16LE_range in Hw.
  split; [apply Z.div_pos; lia|].
  enough (w / 8192 < 8) by lia. apply Z.div_lt_upper_bound; lia.
Qed.

Lemma energy_meter_extras_witness :
  (index (bytes [0x00; 0x82; 0; 0; 0; 0; 0; 0; 0; 0; 0x0F; 0x00; 0xE0]) 1
   = Some Byte.x82
   /\ u8 Byte.x82 = DeviceModel.EnergyMeter
   /\ 13 <= Z.of_nat (length (bytes [0x00; 0x82; 0; 0; 0; 0; 0; 0; 0; 0;
                                     0x0F; 0x00; 0xE0])))
  /\ exists msd',
       (decodeMsd sampleHost
          (bytes [0x00; 0x82; 0; 0; 0; 0; 0; 0; 0; 0; 0x0F; 0x00; 0xE0])
          None).1 = Normal msd'
       /\ msd' !! "weekDay" = Some (VInt 7).
Proof.
  assert (H13 : 13 <= Z.of_nat (length (bytes [0x00; 0x82; 0; 0; 0; 0; 0; 0;
                                               0; 0; 0x0F; 0x00; 0xE0])))
    by (apply Z.leb_le; reflexivity).
  split; [split; [reflexivity | split; [reflexivity | exact H13]]|].
  destruct (energy_meter_extras sampleHost
              (bytes [0x00; 0x82; 0; 0; 0; 0; 0; 0; 0; 0; 0x0F; 0x00; 0xE0])
              None Byte.x82 eq_refl eq_refl H13)
    as (msd' & w & Hrun & _ & _ & Hw & Hday & _).
  exists msd'. split; [exact Hrun|].
  injection Hw as <-. exact Hday.
Defined.
